(** * Privileged-access broker (azure_pim): a shallow embedding

    The development follows the Python package [azure_pim]:

    - [models/azure_rbac.py], [models/common.py]  (scope and schedule values)
    - [exceptions.py]                             (the error taxonomy)
    - [clients/arm.py], [clients/graph.py]        (the two HTTP clients)
    - [operations/pim.py]                         (role resolution, activation)
    - [auth.py]                                   (token providers, selection)

    Python [str] is embedded as [string] (a byte string); dictionaries whose
    order matters (JSON payloads) are association lists, dictionaries used
    as finite maps (query parameters, [os.environ]) are [gmap]s.  Every
    function that can raise returns a [PyResult]; every function that
    talks to the outside takes the world it acts on and returns the new
    one. *)

From Stdlib Require Import ZArith Ascii String List Bool Arith Lia.
From stdpp Require Import base option strings list gmap pretty.

Local Open Scope string_scope.

(** ** Python values and exceptions *)

(** A decoded JSON document, which is also what the package passes
    around as [dict[str, Any]]; [JNull] is Python's [None]. *)
#[local] Unset Elimination Schemes.
Inductive json : Type :=
| JNull
| JBool (b : bool)
| JNum (n : Z)
| JStr (s : string)
| JArr (l : list json)
| JObj (d : list (string * json)).
#[local] Set Elimination Schemes.

(** Exception classes from outside the package that its code raises,
    catches or lets through. *)
Inductive pyclass : Type :=
| OSError
| FileNotFoundError
| PermissionError
| ValueError
| JSONDecodeError
| UnicodeDecodeError
| AttributeError
| TypeError
| KeyError
| ValidationError
| CalledProcessError
| TimeoutExpired.

(** [exceptions.py]: one constructor per class.  [APIError] and
    [RateLimitError] carry [status_code] and [response_body];
    [PyException] is an exception that is not part of the package's
    taxonomy. *)
Inductive exn : Type :=
| PIMError (message : string)
| AuthenticationError (message : string)
| RoleNotFoundError (message : string)
| AssignmentNotFoundError (message : string)
| ActivationError (message : string)
| ApprovalRequiredError (message : string)
| PolicyViolationError (message : string)
| APIError (message : string) (status_code : Z) (response_body : option json)
| RateLimitError (message : string) (status_code : Z) (response_body : option json)
| MFARequiredError (message : string)
| PyException (cls : pyclass) (message : string).

Inductive PyResult (A : Type) : Type :=
| Ok (a : A)
| Raise (e : exn).
Arguments Ok {A} a.
Arguments Raise {A} e.

(** [isinstance(e, RoleNotFoundError)]: the class has no subclass. *)
Definition is_RoleNotFoundError (e : exn) : bool :=
  match e with RoleNotFoundError _ => true | _ => false end.

(** The call raised an [AttributeError]. *)
Definition is_AttributeError {A} (r : PyResult A) : bool :=
  match r with
  | Raise (PyException AttributeError _) => true
  | _ => false
  end.

(** [isinstance(e, OSError)]: [FileNotFoundError] and [PermissionError]
    are subclasses of [OSError]. *)
Definition is_OSError (e : exn) : bool :=
  match e with
  | PyException (OSError | FileNotFoundError | PermissionError) _ => true
  | _ => false
  end.

Definition is_JSONDecodeError (e : exn) : bool :=
  match e with PyException JSONDecodeError _ => true | _ => false end.

(** [isinstance(e, AuthenticationError)]: [MFARequiredError] is its
    subclass. *)
Definition is_AuthenticationError (e : exn) : bool :=
  match e with
  | AuthenticationError _ | MFARequiredError _ => true
  | _ => false
  end.

Definition is_MFARequiredError (e : exn) : bool :=
  match e with MFARequiredError _ => true | _ => false end.

Definition is_ValidationError (e : exn) : bool :=
  match e with PyException ValidationError _ => true | _ => false end.

(** The [message] attribute set by [PIMError.__init__]. *)
Definition exn_message (e : exn) : string :=
  match e with
  | PIMError m | AuthenticationError m | RoleNotFoundError m
  | AssignmentNotFoundError m | ActivationError m | ApprovalRequiredError m
  | PolicyViolationError m | MFARequiredError m => m
  | APIError m _ _ | RateLimitError m _ _ => m
  | PyException _ m => m
  end.

(** Truthiness of a [str] and of a [str | None]. *)
Definition truthy_str (s : string) : bool :=
  match s with EmptyString => false | String _ _ => true end.

Definition truthy (o : option string) : bool :=
  match o with Some s => truthy_str s | None => false end.

(** ** String operations used by the package *)

Module PyStr.

(** [str.lower] on the ASCII range; the bytes of the other characters
    stay.  It stands for [str.lower] where the lowered string is compared
    with [subscriptions], [resourcegroups], [providers] or the name of a
    header, or searched for [roleEligibility]: a string with a character
    outside ASCII lowers to none of these words (the two such characters
    that lower to an ASCII letter give a [k], which no word has, and an
    [i] followed by U+0307), and no character lowers to [E].  Where the
    lowered string is searched for lower-case text, [str_lower] is used
    instead. *)
Definition lower_ascii (c : ascii) : ascii :=
  let n := nat_of_ascii c in
  if (65 <=? n)%nat && (n <=? 90)%nat then ascii_of_nat (n + 32) else c.

Fixpoint lower (s : string) : string :=
  match s with
  | EmptyString => EmptyString
  | String c r => String (lower_ascii c) (lower r)
  end.

(** [ch in s] for a one-character [ch]. *)
Fixpoint contains (ch : ascii) (s : string) : bool :=
  match s with
  | EmptyString => false
  | String c r => Ascii.eqb c ch || contains ch r
  end.

(** [s.lstrip(ch)], [s.rstrip(ch)], [s.strip(ch)] for one character. *)
Fixpoint lstrip (ch : ascii) (s : string) : string :=
  match s with
  | EmptyString => EmptyString
  | String c r => if Ascii.eqb c ch then lstrip ch r else s
  end.

Fixpoint rstrip (ch : ascii) (s : string) : string :=
  match s with
  | EmptyString => EmptyString
  | String c r =>
      match rstrip ch r with
      | EmptyString => if Ascii.eqb c ch then EmptyString else String c EmptyString
      | r' => String c r'
      end
  end.

Definition strip (ch : ascii) (s : string) : string := rstrip ch (lstrip ch s).

(** [s.split(sep)] for a one-character separator: never the empty list,
    [''.split('/') == ['']]. *)
Fixpoint split (sep : ascii) (s : string) : list string :=
  match s with
  | EmptyString => [EmptyString]
  | String c r =>
      if Ascii.eqb c sep then EmptyString :: split sep r
      else match split sep r with
           | [] => [String c EmptyString]
           | h :: t => String c h :: t
           end
  end.

(** [s.startswith(pre)] and [sub in s]. *)
Fixpoint startswith (pre s : string) : bool :=
  match pre, s with
  | EmptyString, _ => true
  | String a pre', String b s' => Ascii.eqb a b && startswith pre' s'
  | String _ _, EmptyString => false
  end.

Fixpoint has_infix (sub s : string) : bool :=
  startswith sub s
  || match s with
     | EmptyString => false
     | String _ s' => has_infix sub s'
     end.

(** [s.strip()]: white space goes from both ends. *)
Definition is_space (c : ascii) : bool :=
  let n := nat_of_ascii c in
  (n =? 32)%nat || ((9 <=? n)%nat && (n <=? 13)%nat)
  || ((28 <=? n)%nat && (n <=? 31)%nat).

Fixpoint lstrip_ws (s : string) : string :=
  match s with
  | EmptyString => EmptyString
  | String c r => if is_space c then lstrip_ws r else s
  end.

Fixpoint rstrip_ws (s : string) : string :=
  match s with
  | EmptyString => EmptyString
  | String c r =>
      match rstrip_ws r with
      | EmptyString => if is_space c then EmptyString else String c EmptyString
      | r' => String c r'
      end
  end.

Definition strip_ws (s : string) : string := rstrip_ws (lstrip_ws s).

(** [s.rsplit(sep, 1)[0]]: what stands before the last separator, the
    whole string when there is none. *)
Fixpoint rsplit1_head (sep : ascii) (s : string) : string :=
  match s with
  | EmptyString => EmptyString
  | String c r =>
      if contains sep r then String c (rsplit1_head sep r)
      else if Ascii.eqb c sep then EmptyString
      else s
  end.

(** [s.endswith(suf)]. *)
Fixpoint endswith (suf s : string) : bool :=
  String.eqb suf s
  || match s with
     | EmptyString => false
     | String _ s' => endswith suf s'
     end.

(** [s.isascii()]: a string is the list of the bytes of its UTF-8
    form, and every character outside ASCII has a byte above 127. *)
Fixpoint is_ascii (s : string) : bool :=
  match s with
  | EmptyString => true
  | String c r => (nat_of_ascii c <? 128)%nat && is_ascii r
  end.

(** [sep.join(l)]. *)
Fixpoint join (sep : string) (l : list string) : string :=
  match l with
  | [] => EmptyString
  | [x] => x
  | x :: r => x +:+ sep +:+ join sep r
  end.

End PyStr.

(** ** models/azure_rbac.py *)

Module AzureScope.

Record t : Type := mk {
  subscription_id : string;
  resource_group : option string;
  provider : option string;
  resource_type : option string;
  resource_name : option string
}.

(** [cls(...)]: the pydantic constructor.  The fields are declared [str]
    and [str | None] with no further constraint, so validation accepts
    every value of those types. *)
Definition new (subscription_id : string)
    (resource_group provider resource_type resource_name : option string)
  : PyResult t :=
  Ok (mk subscription_id resource_group provider resource_type resource_name).

Definition to_string (self : t) : string :=
  let scope := "/subscriptions/" +:+ subscription_id self in
  let scope :=
    if truthy (resource_group self)
    then scope +:+ "/resourceGroups/" +:+ default "" (resource_group self)
    else scope in
  let scope :=
    if truthy (provider self) && truthy (resource_type self)
       && truthy (resource_name self)
    then scope +:+ "/providers/" +:+ default "" (provider self)
               +:+ "/" +:+ default "" (resource_type self)
               +:+ "/" +:+ default "" (resource_name self)
    else scope in
  scope.

(** The local variables of [from_string]'s loop. *)
Record vars : Type := mkvars {
  v_i : nat;
  v_subscription_id : string;
  v_resource_group : option string;
  v_provider : option string;
  v_resource_type : option string;
  v_resource_name : option string
}.

(** [parts[i]], read only where the source has checked the index. *)
Definition item (parts : list string) (i : nat) : string := nth i parts "".

(** One iteration of the [while] body. *)
Definition body (parts : list string) (v : vars) : vars :=
  let i := v_i v in
  if String.eqb (PyStr.lower (item parts i)) "subscriptions"
     && (i + 1 <? length parts)%nat
  then mkvars (i + 2) (item parts (i + 1)) (v_resource_group v)
              (v_provider v) (v_resource_type v) (v_resource_name v)
  else if String.eqb (PyStr.lower (item parts i)) "resourcegroups"
          && (i + 1 <? length parts)%nat
  then mkvars (i + 2) (v_subscription_id v) (Some (item parts (i + 1)))
              (v_provider v) (v_resource_type v) (v_resource_name v)
  else if String.eqb (PyStr.lower (item parts i)) "providers"
          && (i + 3 <? length parts)%nat
  then mkvars (i + 4) (v_subscription_id v) (v_resource_group v)
              (Some (item parts (i + 1))) (Some (item parts (i + 2)))
              (Some (item parts (i + 3)))
  else mkvars (i + 1) (v_subscription_id v) (v_resource_group v)
              (v_provider v) (v_resource_type v) (v_resource_name v).

(** [while i < len(parts): body]; [fuel] bounds the number of
    iterations ([loop_exits] shows that [length parts] is enough). *)
Fixpoint loop (fuel : nat) (parts : list string) (v : vars) : vars :=
  match fuel with
  | O => v
  | S fuel' =>
      if (v_i v <? length parts)%nat then loop fuel' parts (body parts v)
      else v
  end.

Definition from_string (scope : string) : PyResult t :=
  let parts := PyStr.split "/" (PyStr.strip "/" scope) in
  let v := loop (length parts) parts (mkvars 0 "" None None None None) in
  new (v_subscription_id v) (v_resource_group v) (v_provider v)
      (v_resource_type v) (v_resource_name v).

Definition subscription (subscription_id : string) : PyResult t :=
  new subscription_id None None None None.

Definition resource_group_scope (subscription_id resource_group : string)
  : PyResult t :=
  new subscription_id (Some resource_group) None None None.

(** A path has a [subscriptions] segment when one of its tokens is that
    literal, in any letter case. *)
Definition has_subscriptions_segment (scope : string) : bool :=
  existsb (fun p => String.eqb (PyStr.lower p) "subscriptions")
          (PyStr.split "/" (PyStr.strip "/" scope)).

(** Validity of a scope value in the sense of the data model: the
    resource triple is set together or not at all, and a field that is
    set is not empty. *)
Definition set_nonempty (o : option string) : bool :=
  match o with Some s => truthy_str s | None => true end.

Definition valid (s : t) : bool :=
  truthy_str (subscription_id s)
  && set_nonempty (resource_group s)
  && set_nonempty (provider s)
  && set_nonempty (resource_type s)
  && set_nonempty (resource_name s)
  && (match provider s, resource_type s, resource_name s with
      | Some _, Some _, Some _ => true
      | None, None, None => true
      | _, _, _ => false
      end).

(** No field contains the path separator. *)
Definition slash_free_opt (o : option string) : bool :=
  match o with Some s => negb (PyStr.contains "/" s) | None => true end.

Definition slash_free (s : t) : bool :=
  negb (PyStr.contains "/" (subscription_id s))
  && slash_free_opt (resource_group s)
  && slash_free_opt (provider s)
  && slash_free_opt (resource_type s)
  && slash_free_opt (resource_name s).

(** The tokens [to_string] writes for a valid scope, and the path made of
    a list of tokens, each after a separator. *)
Definition tokens (s : t) : list string :=
  ["subscriptions"; subscription_id s]
  ++ match resource_group s with
     | Some rg => ["resourceGroups"; rg]
     | None => []
     end
  ++ match provider s, resource_type s, resource_name s with
     | Some p, Some rt, Some rn => ["providers"; p; rt; rn]
     | _, _, _ => []
     end.

Fixpoint path_of (tokens : list string) : string :=
  match tokens with
  | [] => ""
  | tk :: rest => "/" +:+ tk +:+ path_of rest
  end.

(** A token that can stand in a path: not empty, no separator in it. *)
Definition token_ok (tk : string) : bool :=
  truthy_str tk && negb (PyStr.contains "/" tk).

(** What the parsing loop keeps true of its variables: no field holds a
    slash, and the resource triple is set together or not at all. *)
Definition vars_ok (v : vars) : Prop :=
  PyStr.contains "/" (v_subscription_id v) = false
  /\ slash_free_opt (v_resource_group v) = true
  /\ slash_free_opt (v_provider v) = true
  /\ slash_free_opt (v_resource_type v) = true
  /\ slash_free_opt (v_resource_name v) = true
  /\ match v_provider v, v_resource_type v, v_resource_name v with
     | Some _, Some _, Some _ => True
     | None, None, None => True
     | _, _, _ => False
     end.

(** The tokens of a scope with the three segment names spelled as
    given. *)
Definition tokens_with (ksub krg kprov : string) (s : t) : list string :=
  [ksub; subscription_id s]
  ++ match resource_group s with
     | Some rg => [krg; rg]
     | None => []
     end
  ++ match provider s, resource_type s, resource_name s with
     | Some p, Some rt, Some rn => [kprov; p; rt; rn]
     | _, _, _ => []
     end.

(** The resource triple is set together or not at all. *)
Definition triple_together (s : t) : bool :=
  match provider s, resource_type s, resource_name s with
  | Some _, Some _, Some _ => true
  | None, None, None => true
  | _, _, _ => false
  end.

End AzureScope.


(** ** Dictionaries and JSON values *)

Module Json.

(** [d.get(k)] on an insertion-ordered dictionary. *)
Fixpoint lookup (k : string) (d : list (string * json)) : option json :=
  match d with
  | [] => None
  | (k', v) :: r => if String.eqb k' k then Some v else lookup k r
  end.

(** [d[k] = v]: the value is replaced in place, a new key goes last. *)
Fixpoint set (k : string) (v : json) (d : list (string * json))
  : list (string * json) :=
  match d with
  | [] => [(k, v)]
  | (k', v') :: r =>
      if String.eqb k' k then (k, v) :: r else (k', v') :: set k v r
  end.

(** [x.get(k, dflt)]: defined on dictionaries, [AttributeError] on any
    other value. *)
Definition get (x : json) (k : string) (dflt : json) : PyResult json :=
  match x with
  | JObj d => Ok (default dflt (lookup k d))
  | _ => Raise (PyException AttributeError "object has no attribute 'get'")
  end.

(** [bool(x)]. *)
Definition truthy (x : json) : bool :=
  match x with
  | JNull => false
  | JBool b => b
  | JNum n => negb (n =? 0)%Z
  | JStr s => truthy_str s
  | JArr l => match l with [] => false | _ :: _ => true end
  | JObj d => match d with [] => false | _ :: _ => true end
  end.

(** [x[0]]. *)
Definition first (x : json) : PyResult json :=
  match x with
  | JArr (h :: _) => Ok h
  | JArr [] => Raise (PyException KeyError "list index out of range")
  | JStr (String c _) => Ok (JStr (String c EmptyString))
  | JStr EmptyString => Raise (PyException KeyError "string index out of range")
  | JObj _ => Raise (PyException KeyError "0")
  | _ => Raise (PyException TypeError "object is not subscriptable")
  end.

(** [repr(x)], without the escapes inside string literals, and
    [str(x)] as an f-string renders it. *)
Fixpoint repr (x : json) : string :=
  match x with
  | JNull => "None"
  | JBool true => "True"
  | JBool false => "False"
  | JNum n => pretty n
  | JStr s => "'" +:+ s +:+ "'"
  | JArr l =>
      "[" +:+ (fix items (l : list json) : string :=
                 match l with
                 | [] => ""
                 | [x] => repr x
                 | x :: r => repr x +:+ ", " +:+ items r
                 end) l +:+ "]"
  | JObj d =>
      "{" +:+ (fix items (d : list (string * json)) : string :=
                 match d with
                 | [] => ""
                 | [(k, v)] => "'" +:+ k +:+ "': " +:+ repr v
                 | (k, v) :: r => "'" +:+ k +:+ "': " +:+ repr v +:+ ", " +:+ items r
                 end) d +:+ "}"
  end.

Definition str (x : json) : string :=
  match x with JStr s => s | _ => repr x end.

(** Follow a path of keys through nested dictionaries. *)
Fixpoint at_path (path : list string) (x : json) : option json :=
  match path with
  | [] => Some x
  | k :: path' =>
      match x with
      | JObj d => match lookup k d with
                  | Some v => at_path path' v
                  | None => None
                  end
      | _ => None
      end
  end.

(** [list(x)]: what a [for] loop or a comprehension goes through. *)
Definition iter (x : json) : PyResult (list json) :=
  match x with
  | JArr l => Ok l
  | JObj d => Ok (List.map (fun kv => JStr (fst kv)) d)
  | JStr s => Ok (List.map (fun c => JStr (String c EmptyString))
                           (list_ascii_of_string s))
  | _ => Raise (PyException TypeError "object is not iterable")
  end.

End Json.

(** ** State and exceptions

    A computation acts on a world [W] and either returns or raises. *)

Definition M (W A : Type) : Type := W -> PyResult A * W.

Definition ret {W A} (a : A) : M W A := fun w => (Ok a, w).

Definition raise {W A} (e : exn) : M W A := fun w => (Raise e, w).

Definition lift {W A} (r : PyResult A) : M W A := fun w => (r, w).

Definition bind {W A B} (m : M W A) (k : A -> M W B) : M W B :=
  fun w => match m w with
           | (Ok a, w') => k a w'
           | (Raise e, w') => (Raise e, w')
           end.

(** [try: m  except <classes>: handler], where [catches] tells whether
    the exception is an instance of one of the classes. *)
Definition try_except {W A} (m : M W A) (catches : exn -> bool)
    (handler : exn -> M W A) : M W A :=
  fun w => match m w with
           | (Ok a, w') => (Ok a, w')
           | (Raise e, w') => if catches e then handler e w' else (Raise e, w')
           end.

Notation "'let*' x ':=' m 'in' k" := (bind m (fun x => k))
  (at level 10, x name, m at level 100, k at level 200).

(** ** models/common.py *)

Module ExpirationPattern.

Record t : Type := mk {
  type : string;
  duration : option string;
  end_datetime : option Z
}.

(** [ExpirationPattern(type=..., duration=..., endDateTime=...)], an
    argument left out being [None] here.  The class declares three
    fields with defaults and no validator, so the constructor accepts
    every combination. *)
Definition new (type : option string) (duration : option string)
    (endDateTime : option Z) : PyResult t :=
  Ok (mk (default "noExpiration" type) duration endDateTime).

End ExpirationPattern.

(** ** models/azure_rbac.py, models/entra.py: role definitions *)

(** pydantic's validation of one field. *)
Definition field_str (d : list (string * json)) (k : string) : PyResult string :=
  match Json.lookup k d with
  | Some (JStr s) => Ok s
  | Some _ => Raise (PyException ValidationError k)
  | None => Raise (PyException ValidationError k)
  end.

Definition field_opt_str (d : list (string * json)) (k : string)
  : PyResult (option string) :=
  match Json.lookup k d with
  | Some (JStr s) => Ok (Some s)
  | Some JNull => Ok None
  | Some _ => Raise (PyException ValidationError k)
  | None => Ok None
  end.

(** A [bool] field in pydantic's default (lax) mode. *)
Definition field_bool (d : list (string * json)) (k : string) (dflt : bool)
  : PyResult bool :=
  match Json.lookup k d with
  | None => Ok dflt
  | Some (JBool b) => Ok b
  | Some (JNum 0) => Ok false
  | Some (JNum 1) => Ok true
  | Some (JStr s) =>
      let s := PyStr.lower s in
      if existsb (String.eqb s) ["1"; "on"; "t"; "true"; "y"; "yes"] then Ok true
      else if existsb (String.eqb s) ["0"; "off"; "f"; "false"; "n"; "no"] then Ok false
      else Raise (PyException ValidationError k)
  | Some _ => Raise (PyException ValidationError k)
  end.

Definition field_dict (d : list (string * json)) (k : string)
  : PyResult (list (string * json)) :=
  match Json.lookup k d with
  | None => Ok []
  | Some (JObj p) => Ok p
  | Some _ => Raise (PyException ValidationError k)
  end.

Definition pbind {A B} (r : PyResult A) (k : A -> PyResult B) : PyResult B :=
  match r with Ok a => k a | Raise e => Raise e end.

Module AzureRole.

Record t : Type := mk {
  id : string;
  name : string;
  type : string;
  properties : list (string * json)
}.

Definition model_validate (obj : json) : PyResult t :=
  match obj with
  | JObj d =>
      pbind (field_str d "id") (fun id =>
      pbind (field_str d "name") (fun name =>
      pbind (field_str d "type") (fun type =>
      pbind (field_dict d "properties") (fun properties =>
      Ok (mk id name type properties)))))
  | _ => Raise (PyException ValidationError "AzureRole")
  end.

(** The [role_name] property, as [logger.info] formats it. *)
Definition role_name (self : t) : json :=
  default (JStr "") (Json.lookup "roleName" (properties self)).

End AzureRole.

Module EntraRole.

Record t : Type := mk {
  id : string;
  display_name : string;
  description : option string;
  template_id : option string;
  is_built_in : bool;
  is_enabled : bool
}.

Definition model_validate (obj : json) : PyResult t :=
  match obj with
  | JObj d =>
      pbind (field_str d "id") (fun id =>
      pbind (field_str d "displayName") (fun display_name =>
      pbind (field_opt_str d "description") (fun description =>
      pbind (field_opt_str d "templateId") (fun template_id =>
      pbind (field_bool d "isBuiltIn" true) (fun is_built_in =>
      pbind (field_bool d "isEnabled" true) (fun is_enabled =>
      Ok (mk id display_name description template_id is_built_in is_enabled)))))))
  | _ => Raise (PyException ValidationError "EntraRole")
  end.

(** [self.template_id or self.id]. *)
Definition role_id (self : t) : string :=
  if truthy (template_id self) then default "" (template_id self) else id self.

End EntraRole.

(** ** models/common.py: enumerations *)

Inductive AssignmentType : Type :=
| ELIGIBLE
| ACTIVE.

Module RequestStatus.

Inductive t : Type :=
| PENDING
| PENDING_APPROVAL
| PENDING_SCHEDULE
| PROVISIONED
| GRANTED
| DENIED
| FAILED
| CANCELED
| REVOKED
| SCHEDULED
| EXPIRED.

Definition members : list t :=
  [PENDING; PENDING_APPROVAL; PENDING_SCHEDULE; PROVISIONED; GRANTED; DENIED;
   FAILED; CANCELED; REVOKED; SCHEDULED; EXPIRED].

(** [member.value]. *)
Definition value (s : t) : string :=
  match s with
  | PENDING => "Pending"
  | PENDING_APPROVAL => "PendingApproval"
  | PENDING_SCHEDULE => "PendingScheduleCreation"
  | PROVISIONED => "Provisioned"
  | GRANTED => "Granted"
  | DENIED => "Denied"
  | FAILED => "Failed"
  | CANCELED => "Canceled"
  | REVOKED => "Revoked"
  | SCHEDULED => "Scheduled"
  | EXPIRED => "Expired"
  end.

(** [RequestStatus(x)]: the member whose value equals [x], [ValueError]
    when there is none. *)
Definition of_value (x : json) : PyResult t :=
  match x with
  | JStr s =>
      match List.find (fun m => String.eqb (value m) s) members with
      | Some m => Ok m
      | None => Raise (PyException ValueError s)
      end
  | _ => Raise (PyException ValueError (Json.repr x))
  end.

End RequestStatus.

Definition is_ValueError (e : exn) : bool :=
  match e with
  | PyException (ValueError | JSONDecodeError | UnicodeDecodeError) _ => true
  | _ => false
  end.

(** ** models/azure_rbac.py: assignments and requests *)

Module AzureRoleAssignment.

Record t : Type := mk {
  id : string;
  name : string;
  type : string;
  properties : list (string * json)
}.

Definition principal_id (self : t) : json :=
  default (JStr "") (Json.lookup "principalId" (properties self)).

(** [a or b], where [b] is evaluated only when [a] is falsy. *)
Definition role_definition_id (self : t) : PyResult json :=
  let direct := default (JStr "") (Json.lookup "roleDefinitionId" (properties self)) in
  if Json.truthy direct then Ok direct
  else
    pbind (Json.get (default (JObj []) (Json.lookup "expandedProperties"
                                           (properties self)))
                    "roleDefinition" (JObj []))
          (fun role_definition => Json.get role_definition "id" (JStr "")).

Definition assignment_type (self : t) : AssignmentType :=
  if PyStr.has_infix "roleEligibility" (PyStr.lower (type self)) then ELIGIBLE
  else ACTIVE.

Definition model_validate (obj : json) : PyResult t :=
  match obj with
  | JObj d =>
      pbind (field_str d "id") (fun id =>
      pbind (field_str d "name") (fun name =>
      pbind (field_str d "type") (fun type =>
      pbind (field_dict d "properties") (fun properties =>
      Ok (mk id name type properties)))))
  | _ => Raise (PyException ValidationError "AzureRoleAssignment")
  end.

End AzureRoleAssignment.

Module AzureRoleAssignmentRequest.

Record t : Type := mk {
  id : string;
  name : string;
  type : string;
  properties : list (string * json)
}.

Definition status (self : t) : PyResult RequestStatus.t :=
  let status_str := default (JStr "") (Json.lookup "status" (properties self)) in
  match RequestStatus.of_value status_str with
  | Ok s => Ok s
  | Raise e => if is_ValueError e then Ok RequestStatus.PENDING else Raise e
  end.

End AzureRoleAssignmentRequest.

(** ** models/entra.py: role management policies *)

Module EntraRolePolicy.

(** The [rules] field: a list of dictionaries. *)
Definition rule : Type := list (string * json).

(** [x.endswith(rule_type)] on what [rule.get("@odata.type", "")]
    returns. *)
Definition type_endswith (r : rule) (rule_type : string) : PyResult bool :=
  match default (JStr "") (Json.lookup "@odata.type" r) with
  | JStr s => Ok (PyStr.endswith rule_type s)
  | _ => Raise (PyException AttributeError "object has no attribute 'endswith'")
  end.

Fixpoint get_rule (rule_type : string) (rules : list rule)
  : PyResult (option rule) :=
  match rules with
  | [] => Ok None
  | r :: rest =>
      pbind (type_endswith r rule_type) (fun hit =>
      if (hit : bool) then Ok (Some r) else get_rule rule_type rest)
  end.

(** [rule] is truthy. *)
Definition truthy_rule (r : option rule) : bool :=
  match r with
  | Some (_ :: _) => true
  | _ => false
  end.

(** [rule.get(k)] and [rule.get(k, False)], read where [rule] is truthy. *)
Definition rule_get (r : option rule) (k : string) (dflt : json) : json :=
  default dflt (Json.lookup k (default [] r)).

(** [==] between a JSON value and a string literal. *)
Definition eq_str (x : json) (s : string) : bool :=
  match x with JStr s' => String.eqb s' s | _ => false end.

Definition max_activation_duration (rules : list rule) : PyResult json :=
  pbind (get_rule "ExpirationRule" rules) (fun r =>
  if truthy_rule r && eq_str (rule_get r "id" JNull) "Expiration_EndUser_Assignment"
  then Ok (rule_get r "maximumDuration" JNull)
  else Ok JNull).

Definition requires_mfa (rules : list rule) : PyResult json :=
  pbind (get_rule "AuthenticationContextRule" rules) (fun r =>
  if truthy_rule r then Ok (rule_get r "isEnabled" (JBool false))
  else Ok (JBool false)).

Definition requires_justification (rules : list rule) : PyResult json :=
  pbind (get_rule "EnabledRule" rules) (fun r =>
  if truthy_rule r
     && eq_str (rule_get r "id" JNull) "Justification_EndUser_Assignment"
  then Ok (rule_get r "isEnabled" (JBool false))
  else Ok (JBool false)).

Definition requires_approval (rules : list rule) : PyResult json :=
  pbind (get_rule "ApprovalRule" rules) (fun r =>
  if truthy_rule r then
    Json.get (rule_get r "setting" (JObj [])) "isApprovalRequired" (JBool false)
  else Ok (JBool false)).

(** The rule types of the directory authority's policies. *)
Definition graph_rule_types : list string :=
  ["#microsoft.graph.unifiedRoleManagementPolicyApprovalRule";
   "#microsoft.graph.unifiedRoleManagementPolicyAuthenticationContextRule";
   "#microsoft.graph.unifiedRoleManagementPolicyEnablementRule";
   "#microsoft.graph.unifiedRoleManagementPolicyExpirationRule";
   "#microsoft.graph.unifiedRoleManagementPolicyNotificationRule"].

(** The rule's [@odata.type] is one of these. *)
Definition graph_typed (r : rule) : bool :=
  match Json.lookup "@odata.type" r with
  | Some (JStr ty) => existsb (String.eqb ty) graph_rule_types
  | _ => false
  end.

End EntraRolePolicy.

(** ** The HTTP surface

    What [httpx.Client.request] puts on the wire and what comes back. *)

Record Request : Type := mkRequest {
  method : string;
  base_url : string;
  url : string;
  authorization : string;
  json_data : option json;
  params : option (gmap string string)
}.

(** [text] is the body as text ([response.text]); [content] is the
    body decoded as JSON, [None] when the body does not decode, as the
    empty body does not. *)
Record Response : Type := mkResponse {
  status_code : Z;
  headers : list (string * string);
  content : option json;
  text : string
}.

(** [client.request(...)] returns a response or raises
    [httpx.HTTPError]. *)
Inductive Transport : Type :=
| Responds (response : Response)
| HTTPError (message : string).

(** [response.headers.get(name, dflt)] on httpx's [Headers]: header
    names compare without regard to case, and the values of a header
    that comes more than once are joined with a comma and a space. *)
Definition header_values (name : string) (h : list (string * string))
  : list string :=
  List.map snd
    (List.filter (fun kv => String.eqb (PyStr.lower (fst kv)) (PyStr.lower name))
                 h).

Definition headers_get (name dflt : string) (h : list (string * string))
  : string :=
  match header_values name h with
  | [] => dflt
  | values => PyStr.join ", " values
  end.

(** [response.content] is truthy: the body is not empty.  A body that
    decodes as JSON is not empty. *)
Definition has_content (response : Response) : bool :=
  match content response with
  | Some _ => true
  | None => truthy_str (text response)
  end.

(** [response.json()]. *)
Definition response_json (response : Response) : PyResult json :=
  match content response with
  | Some j => Ok j
  | None => Raise (PyException JSONDecodeError "Expecting value")
  end.

(** The world of a client: the token source behind [PIMAuth] (the
    outcome of its k-th call), the backend (its answer to a request
    given the requests before it), the requests sent so far, oldest
    first, and the generator behind [uuid.uuid4]. *)
Record World : Type := mkWorld {
  arm_tokens : nat -> PyResult string;
  graph_tokens : nat -> PyResult string;
  token_calls : nat;
  backend : list Request -> Request -> Transport;
  sent : list Request;
  uuid_source : nat -> string;
  uuid_calls : nat
}.

(** The three ways a client changes its world. *)
Definition next_token (w : World) : World :=
  mkWorld (arm_tokens w) (graph_tokens w) (S (token_calls w))
          (backend w) (sent w) (uuid_source w) (uuid_calls w).

Definition record_sent (req : Request) (w : World) : World :=
  mkWorld (arm_tokens w) (graph_tokens w) (token_calls w)
          (backend w) (sent w ++ [req]) (uuid_source w) (uuid_calls w).

Definition next_uuid (w : World) : World :=
  mkWorld (arm_tokens w) (graph_tokens w) (token_calls w)
          (backend w) (sent w) (uuid_source w) (S (uuid_calls w)).

(** [auth.get_arm_token()] and [auth.get_graph_token()]. *)
Definition get_arm_token : M World string :=
  fun w => (arm_tokens w (token_calls w), next_token w).

Definition get_graph_token : M World string :=
  fun w => (graph_tokens w (token_calls w), next_token w).

(** [client.request(...)]: the request goes on the wire and the backend
    answers it. *)
Definition send (req : Request) : World -> Transport * World :=
  fun w => (backend w (sent w) req, record_sent req w).

(** [str(uuid.uuid4())]. *)
Definition uuid4 : M World string :=
  fun w => (Ok (uuid_source w (uuid_calls w)), next_uuid w).

(** The world after one exchange: a token was fetched and [req] sent. *)
Definition exchanged (req : Request) (w : World) : World :=
  record_sent req (next_token w).

(** The backend answers [req], sent next, with [response]. *)
Definition answers (w : World) (req : Request) (response : Response) : Prop :=
  backend w (sent w) req = Responds response.

(** The answer is a 200 with this decoded body; the answer is a 200
    listing these items under [value]. *)
Definition holds (response : Response) (body : json) : Prop :=
  status_code response = 200%Z /\ content response = Some body.

Definition lists (response : Response) (items : list json) : Prop :=
  exists d, holds response (JObj d) /\ Json.lookup "value" d = Some (JArr items).

(** The status of an error answer that is neither 404 nor 429. *)
Definition other_error (response : Response) : Prop :=
  (400 <= status_code response)%Z
  /\ status_code response <> 404%Z /\ status_code response <> 429%Z.

(** [params] is truthy. *)
Definition truthy_params (p : option (gmap string string)) : bool :=
  match p with
  | Some m => negb (bool_decide (m = ∅))
  | None => false
  end.

(** ** clients/arm.py *)

Module ARMClient.

Definition BASE_URL : string := "https://management.azure.com".
Definition API_VERSION : string := "2022-04-01-preview".

(** [_get_client]: the token is fetched on every call and becomes the
    [Authorization] header of the client. *)
Definition _get_client : M World string :=
  let* token := get_arm_token in
  ret ("Bearer " +:+ token).

(** The part of [_request] after [client.request] has returned. *)
Definition interpret (endpoint : string) (response : Response) : PyResult json :=
  if (status_code response =? 429)%Z then
    let retry_after := headers_get "Retry-After" "60" (headers response) in
    Raise (RateLimitError
             ("Rate limited. Retry after " +:+ retry_after +:+ " seconds")
             429 None)
  else if (status_code response =? 404)%Z then
    Raise (RoleNotFoundError ("Resource not found: " +:+ endpoint))
  else if (status_code response >=? 400)%Z then
    pbind (if has_content response then response_json response
           else Ok (JObj [])) (fun body =>
    pbind (Json.get body "error" (JObj [])) (fun err =>
    pbind (Json.get err "message" (JStr (text response))) (fun error_msg =>
    Raise (APIError ("ARM API error: " +:+ Json.str error_msg)
                    (status_code response) (Some body)))))
  else if (status_code response =? 204)%Z || negb (has_content response) then
    Ok (JObj [])
  else response_json response.

(** The query parameters and the request [_request] hands to
    [client.request]. *)
Definition all_params (params : option (gmap string string))
  : gmap string string :=
  let all_params : gmap string string := {[ "api-version" := API_VERSION ]} in
  if truthy_params params then default ∅ params ∪ all_params
  else all_params.

Definition request_for (method endpoint auth : string)
    (json_data : option json) (params : option (gmap string string))
  : Request :=
  mkRequest method BASE_URL endpoint auth json_data (Some (all_params params)).

Definition _request (method endpoint : string) (json_data : option json)
    (params : option (gmap string string)) : M World json :=
  let* auth := _get_client in
  fun w =>
    match send (request_for method endpoint auth json_data params) w with
    | (Responds response, w') => (interpret endpoint response, w')
    | (HTTPError e, w') =>
        (Raise (APIError ("HTTP request failed: " +:+ e) 0 None), w')
    end.

Definition _build_scope (subscription_id : string)
    (resource_group provider resource_type resource_name : option string)
  : string :=
  let scope := "/subscriptions/" +:+ subscription_id in
  let scope :=
    if truthy resource_group
    then scope +:+ "/resourceGroups/" +:+ default "" resource_group
    else scope in
  let scope :=
    if truthy provider && truthy resource_type && truthy resource_name
    then scope +:+ "/providers/" +:+ default "" provider
               +:+ "/" +:+ default "" resource_type
               +:+ "/" +:+ default "" resource_name
    else scope in
  scope.

Definition list_role_definitions (scope : string) : M World json :=
  let* result :=
    _request "GET"
      ("/" +:+ scope +:+ "/providers/Microsoft.Authorization/roleDefinitions")
      None None in
  lift (Json.get result "value" (JArr [])).

Definition get_role_definition (scope role_id : string) : M World json :=
  _request "GET"
    ("/" +:+ scope +:+ "/providers/Microsoft.Authorization/roleDefinitions/"
         +:+ role_id)
    None None.

Definition find_role_by_name (scope role_name : string) : M World json :=
  let* result :=
    _request "GET"
      ("/" +:+ scope +:+ "/providers/Microsoft.Authorization/roleDefinitions")
      None
      (Some {[ "$filter" := "roleName eq '" +:+ role_name +:+ "'" ]}) in
  let* roles := lift (Json.get result "value" (JArr [])) in
  if Json.truthy roles then lift (Json.first roles) else ret JNull.

(** The [expiration] dictionary built by [create_eligible_assignment]. *)
Definition expiration_dict (expiration_type : string)
    (expiration_duration expiration_datetime : option string)
  : list (string * json) :=
  let expiration := [("type", JStr expiration_type)] in
  let expiration :=
    if truthy expiration_duration
    then Json.set "duration" (JStr (default "" expiration_duration)) expiration
    else expiration in
  let expiration :=
    if truthy expiration_datetime
    then Json.set "endDateTime" (JStr (default "" expiration_datetime)) expiration
    else expiration in
  expiration.

Definition eligible_assignment_payload (principal_id role_definition_id
    justification : string) (start_datetime : option string)
    (expiration_type : string)
    (expiration_duration expiration_datetime : option string) : json :=
  let schedule_info := [] in
  let schedule_info :=
    if truthy start_datetime
    then Json.set "startDateTime" (JStr (default "" start_datetime)) schedule_info
    else schedule_info in
  let expiration :=
    expiration_dict expiration_type expiration_duration expiration_datetime in
  let schedule_info := Json.set "expiration" (JObj expiration) schedule_info in
  JObj [("properties",
         JObj [("requestType", JStr "AdminAssign");
               ("principalId", JStr principal_id);
               ("roleDefinitionId", JStr role_definition_id);
               ("justification", JStr justification);
               ("scheduleInfo", JObj schedule_info)])].

Definition create_eligible_assignment (scope principal_id role_definition_id
    request_id justification : string) (start_datetime : option string)
    (expiration_type : string)
    (expiration_duration expiration_datetime : option string) : M World json :=
  let payload :=
    eligible_assignment_payload principal_id role_definition_id justification
      start_datetime expiration_type expiration_duration expiration_datetime in
  _request "PUT"
    ("/" +:+ scope
         +:+ "/providers/Microsoft.Authorization/roleEligibilityScheduleRequests/"
         +:+ request_id)
    (Some payload) None.

(** The [payload] dictionary built by [activate_role]. *)
Definition activate_role_payload (role_definition_id justification
    duration : string) (ticket_number ticket_system : option string) : json :=
  let schedule_info :=
    [("expiration",
      JObj [("type", JStr "AfterDuration"); ("duration", JStr duration)])] in
  let properties :=
    [("requestType", JStr "SelfActivate");
     ("roleDefinitionId", JStr role_definition_id);
     ("justification", JStr justification);
     ("scheduleInfo", JObj schedule_info)] in
  let properties :=
    if truthy ticket_number || truthy ticket_system then
      let ticket_info := [] in
      let ticket_info :=
        if truthy ticket_number
        then Json.set "ticketNumber" (JStr (default "" ticket_number)) ticket_info
        else ticket_info in
      let ticket_info :=
        if truthy ticket_system
        then Json.set "ticketSystem" (JStr (default "" ticket_system)) ticket_info
        else ticket_info in
      Json.set "ticketInfo" (JObj ticket_info) properties
    else properties in
  JObj [("properties", JObj properties)].

Definition activate_role (scope role_definition_id request_id justification
    duration : string) (ticket_number ticket_system : option string)
  : M World json :=
  let payload :=
    activate_role_payload role_definition_id justification duration
      ticket_number ticket_system in
  _request "PUT"
    ("/" +:+ scope
         +:+ "/providers/Microsoft.Authorization/roleAssignmentScheduleRequests/"
         +:+ request_id)
    (Some payload) None.

Definition deactivate_role (scope role_definition_id request_id : string)
  : M World json :=
  let payload :=
    JObj [("properties",
           JObj [("requestType", JStr "SelfDeactivate");
                 ("roleDefinitionId", JStr role_definition_id)])] in
  _request "PUT"
    ("/" +:+ scope
         +:+ "/providers/Microsoft.Authorization/roleAssignmentScheduleRequests/"
         +:+ request_id)
    (Some payload) None.

Definition get_eligibility_request (scope request_id : string) : M World json :=
  _request "GET"
    ("/" +:+ scope
         +:+ "/providers/Microsoft.Authorization/roleEligibilityScheduleRequests/"
         +:+ request_id)
    None None.

Definition get_assignment_request (scope request_id : string) : M World json :=
  _request "GET"
    ("/" +:+ scope
         +:+ "/providers/Microsoft.Authorization/roleAssignmentScheduleRequests/"
         +:+ request_id)
    None None.

Definition remove_eligible_assignment (scope principal_id role_definition_id
    request_id justification : string) : M World json :=
  let payload :=
    JObj [("properties",
           JObj [("requestType", JStr "AdminRemove");
                 ("principalId", JStr principal_id);
                 ("roleDefinitionId", JStr role_definition_id);
                 ("justification", JStr justification)])] in
  _request "PUT"
    ("/" +:+ scope
         +:+ "/providers/Microsoft.Authorization/roleEligibilityScheduleRequests/"
         +:+ request_id)
    (Some payload) None.

(** The [params] dictionary of the listing functions. *)
Definition principal_filter (principal_id : option string)
  : gmap string string :=
  if truthy principal_id
  then {[ "$filter" := "principalId eq '" +:+ default "" principal_id +:+ "'" ]}
  else ∅.

Definition list_eligible_schedule_instances (scope : string)
    (principal_id : option string) : M World json :=
  let* result :=
    _request "GET"
      ("/" +:+ scope
           +:+ "/providers/Microsoft.Authorization/roleEligibilityScheduleInstances")
      None (Some (principal_filter principal_id)) in
  lift (Json.get result "value" (JArr [])).

Definition list_active_schedule_instances (scope : string)
    (principal_id : option string) : M World json :=
  let* result :=
    _request "GET"
      ("/" +:+ scope
           +:+ "/providers/Microsoft.Authorization/roleAssignmentScheduleInstances")
      None (Some (principal_filter principal_id)) in
  lift (Json.get result "value" (JArr [])).

(** The two requests of a role lookup, by name and by ID, and the
    request of an activation. *)
Definition name_lookup (scope role_name auth : string) : Request :=
  request_for "GET"
    ("/" +:+ scope +:+ "/providers/Microsoft.Authorization/roleDefinitions")
    auth None
    (Some {[ "$filter" := "roleName eq '" +:+ role_name +:+ "'" ]}).

Definition id_lookup (scope role_id auth : string) : Request :=
  request_for "GET"
    ("/" +:+ scope +:+ "/providers/Microsoft.Authorization/roleDefinitions/"
         +:+ role_id)
    auth None None.

Definition activation (scope role_definition_id request_id justification
    duration : string) (ticket_number ticket_system : option string)
    (auth : string) : Request :=
  request_for "PUT"
    ("/" +:+ scope
         +:+ "/providers/Microsoft.Authorization/roleAssignmentScheduleRequests/"
         +:+ request_id)
    auth
    (Some (activate_role_payload role_definition_id justification duration
             ticket_number ticket_system))
    None.

End ARMClient.

(** ** clients/graph.py *)

Module GraphClient.

Definition BASE_URL : string := "https://graph.microsoft.com/v1.0".
Definition BETA_URL : string := "https://graph.microsoft.com/beta".

Definition _get_client : M World string :=
  let* token := get_graph_token in
  ret ("Bearer " +:+ token).

(** The part of [_request] after [client.request] has returned. *)
Definition interpret (endpoint : string) (response : Response) : PyResult json :=
  if (status_code response =? 429)%Z then
    let retry_after := headers_get "Retry-After" "60" (headers response) in
    Raise (RateLimitError
             ("Rate limited. Retry after " +:+ retry_after +:+ " seconds")
             429 None)
  else if (status_code response =? 404)%Z then
    Raise (RoleNotFoundError ("Resource not found: " +:+ endpoint))
  else if (status_code response >=? 400)%Z then
    pbind (if has_content response then response_json response
           else Ok (JObj [])) (fun body =>
    pbind (Json.get body "error" (JObj [])) (fun err =>
    pbind (Json.get err "message" (JStr (text response))) (fun error_msg =>
    Raise (APIError ("Graph API error: " +:+ Json.str error_msg)
                    (status_code response) (Some body)))))
  else if (status_code response =? 204)%Z then
    Ok (JObj [])
  else response_json response.

(** The request [_request] hands to [client.request]. *)
Definition request_for (method endpoint auth : string)
    (json_data : option json) (params : option (gmap string string))
    (use_beta : bool) : Request :=
  let url := if use_beta then BETA_URL +:+ endpoint else endpoint in
  mkRequest method BASE_URL url auth json_data params.

Definition _request (method endpoint : string) (json_data : option json)
    (params : option (gmap string string)) (use_beta : bool) : M World json :=
  let* auth := _get_client in
  fun w =>
    match send (request_for method endpoint auth json_data params use_beta) w with
    | (Responds response, w') => (interpret endpoint response, w')
    | (HTTPError e, w') =>
        (Raise (APIError ("HTTP request failed: " +:+ e) 0 None), w')
    end.

Definition list_role_definitions : M World json :=
  let* result :=
    _request "GET" "/roleManagement/directory/roleDefinitions" None None false in
  lift (Json.get result "value" (JArr [])).

Definition get_role_definition (role_id : string) : M World json :=
  _request "GET" ("/roleManagement/directory/roleDefinitions/" +:+ role_id)
    None None false.

Definition find_role_by_name (display_name : string) : M World json :=
  let* result :=
    _request "GET" "/roleManagement/directory/roleDefinitions" None
      (Some {[ "$filter" := "displayName eq '" +:+ display_name +:+ "'" ]})
      false in
  let* roles := lift (Json.get result "value" (JArr [])) in
  if Json.truthy roles then lift (Json.first roles) else ret JNull.

Definition eligible_assignment_payload (principal_id role_definition_id
    directory_scope_id justification : string) (start_datetime : option string)
    (expiration_type : string)
    (expiration_duration expiration_datetime : option string) : json :=
  let schedule_info := [] in
  let schedule_info :=
    if truthy start_datetime
    then Json.set "startDateTime" (JStr (default "" start_datetime)) schedule_info
    else schedule_info in
  let expiration := [("type", JStr expiration_type)] in
  let expiration :=
    if truthy expiration_duration
    then Json.set "duration" (JStr (default "" expiration_duration)) expiration
    else expiration in
  let expiration :=
    if truthy expiration_datetime
    then Json.set "endDateTime" (JStr (default "" expiration_datetime)) expiration
    else expiration in
  let schedule_info := Json.set "expiration" (JObj expiration) schedule_info in
  JObj [("action", JStr "adminAssign");
        ("principalId", JStr principal_id);
        ("roleDefinitionId", JStr role_definition_id);
        ("directoryScopeId", JStr directory_scope_id);
        ("justification", JStr justification);
        ("scheduleInfo", JObj schedule_info)].

Definition create_eligible_assignment (principal_id role_definition_id
    directory_scope_id justification : string) (start_datetime : option string)
    (expiration_type : string)
    (expiration_duration expiration_datetime : option string) : M World json :=
  let payload :=
    eligible_assignment_payload principal_id role_definition_id
      directory_scope_id justification start_datetime expiration_type
      expiration_duration expiration_datetime in
  _request "POST" "/roleManagement/directory/roleEligibilityScheduleRequests"
    (Some payload) None false.

Definition activate_role_payload (role_definition_id directory_scope_id
    justification duration : string) (ticket_number ticket_system : option string)
  : json :=
  let payload :=
    [("action", JStr "selfActivate");
     ("roleDefinitionId", JStr role_definition_id);
     ("directoryScopeId", JStr directory_scope_id);
     ("justification", JStr justification);
     ("scheduleInfo",
      JObj [("expiration",
             JObj [("type", JStr "afterDuration");
                   ("duration", JStr duration)])])] in
  let payload :=
    if truthy ticket_number || truthy ticket_system then
      let ticket_info := [] in
      let ticket_info :=
        if truthy ticket_number
        then Json.set "ticketNumber" (JStr (default "" ticket_number)) ticket_info
        else ticket_info in
      let ticket_info :=
        if truthy ticket_system
        then Json.set "ticketSystem" (JStr (default "" ticket_system)) ticket_info
        else ticket_info in
      Json.set "ticketInfo" (JObj ticket_info) payload
    else payload in
  JObj payload.

Definition activate_role (role_definition_id directory_scope_id justification
    duration : string) (ticket_number ticket_system : option string)
  : M World json :=
  _request "POST" "/roleManagement/directory/roleAssignmentScheduleRequests"
    (Some (activate_role_payload role_definition_id directory_scope_id
             justification duration ticket_number ticket_system))
    None false.

Definition deactivate_role (role_definition_id directory_scope_id : string)
  : M World json :=
  let payload :=
    JObj [("action", JStr "selfDeactivate");
          ("roleDefinitionId", JStr role_definition_id);
          ("directoryScopeId", JStr directory_scope_id)] in
  _request "POST" "/roleManagement/directory/roleAssignmentScheduleRequests"
    (Some payload) None false.

(** [" and ".join(filters)]. *)
Fixpoint join_and (filters : list string) : string :=
  match filters with
  | [] => ""
  | [f] => f
  | f :: rest => f +:+ " and " +:+ join_and rest
  end.

(** The [params] dictionary of [list_eligible_assignments] and
    [list_active_assignments]. *)
Definition assignment_filter (principal_id role_definition_id : option string)
  : gmap string string :=
  let filters := [] in
  let filters :=
    if truthy principal_id
    then (filters ++ ["principalId eq '" +:+ default "" principal_id +:+ "'"])%list
    else filters in
  let filters :=
    if truthy role_definition_id
    then (filters ++ ["roleDefinitionId eq '"
                        +:+ default "" role_definition_id +:+ "'"])%list
    else filters in
  match filters with
  | [] => ∅
  | _ :: _ => {[ "$filter" := join_and filters ]}
  end.

Definition list_eligible_assignments (principal_id role_definition_id
    : option string) : M World json :=
  let* result :=
    _request "GET" "/roleManagement/directory/roleEligibilitySchedules" None
      (Some (assignment_filter principal_id role_definition_id)) false in
  lift (Json.get result "value" (JArr [])).

Definition get_policy (policy_id : json) : M World json :=
  _request "GET" ("/policies/roleManagementPolicies/" +:+ Json.str policy_id)
    None (Some {[ "$expand" := "rules" ]}) false.

(** Returns the policy, or [None] ([JNull]) when the role has no policy
    assignment or the assignment names no policy. *)
Definition get_policy_for_role (role_definition_id : string) : M World json :=
  let* result :=
    _request "GET" "/policies/roleManagementPolicyAssignments" None
      (Some {[ "$filter" :=
                 "roleDefinitionId eq '" +:+ role_definition_id
                   +:+ "' and scopeId eq '/' and scopeType eq 'DirectoryRole'" ]})
      false in
  let* assignments := lift (Json.get result "value" (JArr [])) in
  if negb (Json.truthy assignments) then ret JNull
  else
    let* first := lift (Json.first assignments) in
    let* policy_id := lift (Json.get first "policyId" JNull) in
    if Json.truthy policy_id then get_policy policy_id else ret JNull.

(** The two requests of a role lookup, by name and by ID. *)
Definition name_lookup (display_name auth : string) : Request :=
  request_for "GET" "/roleManagement/directory/roleDefinitions" auth None
    (Some {[ "$filter" := "displayName eq '" +:+ display_name +:+ "'" ]})
    false.

Definition id_lookup (role_id auth : string) : Request :=
  request_for "GET" ("/roleManagement/directory/roleDefinitions/" +:+ role_id)
    auth None None false.

(** The request that asks for the policy assignment of a role. *)
Definition policy_assignment_lookup (role_definition_id auth : string)
  : Request :=
  request_for "GET" "/policies/roleManagementPolicyAssignments" auth None
    (Some {[ "$filter" :=
               "roleDefinitionId eq '" +:+ role_definition_id
                 +:+ "' and scopeId eq '/' and scopeType eq 'DirectoryRole'" ]})
    false.

End GraphClient.

(** ** operations/pim.py *)

Module PIMOperations.

(** [scope.to_string() if isinstance(scope, AzureScope) else scope]. *)
Definition scope_str (scope : string + AzureScope.t) : string :=
  match scope with
  | inl s => s
  | inr sc => AzureScope.to_string sc
  end.

Definition get_entra_role (role_name_or_id : string) : M World EntraRole.t :=
  let* role_data := GraphClient.find_role_by_name role_name_or_id in
  if Json.truthy role_data then lift (EntraRole.model_validate role_data)
  else
    let* found :=
      try_except
        (let* role_data := GraphClient.get_role_definition role_name_or_id in
         let* role := lift (EntraRole.model_validate role_data) in
         ret (Some role))
        is_RoleNotFoundError
        (fun _ => ret None) in
    match found with
    | Some role => ret role
    | None => raise (RoleNotFoundError ("Role not found: " +:+ role_name_or_id))
    end.

Definition activate_entra_role (role_name_or_id justification duration
    scope : string) (ticket_number ticket_system : option string)
  : M World json :=
  let* role := get_entra_role role_name_or_id in
  GraphClient.activate_role (EntraRole.role_id role) scope justification
    duration ticket_number ticket_system.

Definition get_azure_role (scope : string + AzureScope.t)
    (role_name_or_id : string) : M World AzureRole.t :=
  let scope_str := scope_str scope in
  let* role_data := ARMClient.find_role_by_name scope_str role_name_or_id in
  if Json.truthy role_data then lift (AzureRole.model_validate role_data)
  else
    let* found :=
      try_except
        (let* role_data :=
           ARMClient.get_role_definition scope_str role_name_or_id in
         let* role := lift (AzureRole.model_validate role_data) in
         ret (Some role))
        is_RoleNotFoundError
        (fun _ => ret None) in
    match found with
    | Some role => ret role
    | None => raise (RoleNotFoundError ("Role not found: " +:+ role_name_or_id))
    end.

Definition activate_azure_role (scope : string + AzureScope.t)
    (role_name_or_id justification duration : string)
    (ticket_number ticket_system : option string) : M World json :=
  let scope_str := scope_str scope in
  let* role := get_azure_role (inl scope_str) role_name_or_id in
  let* request_id := uuid4 in
  ARMClient.activate_role scope_str (AzureRole.id role) request_id
    justification duration ticket_number ticket_system.

Definition deactivate_azure_role (scope : string + AzureScope.t)
    (role_name_or_id : string) : M World json :=
  let scope_str := scope_str scope in
  let* role := get_azure_role (inl scope_str) role_name_or_id in
  let* request_id := uuid4 in
  ARMClient.deactivate_role scope_str (AzureRole.id role) request_id.

Definition assign_eligible_azure_role (scope : string + AzureScope.t)
    (principal_id role_name_or_id justification expiration_type : string)
    (expiration_duration : option string) : M World json :=
  let scope_str := scope_str scope in
  let* role := get_azure_role (inl scope_str) role_name_or_id in
  let* request_id := uuid4 in
  ARMClient.create_eligible_assignment scope_str principal_id
    (AzureRole.id role) request_id justification None expiration_type
    expiration_duration None.

(** What an operation has added to the requests sent: lookups, at most
    two, then at most one submission. *)
Definition lookups_then_submission (before after : list Request) : Prop :=
  exists gets puts,
    after = (before ++ gets ++ puts)%list
    /\ Forall (fun r => method r = "GET") gets
    /\ (length gets <= 2)%nat
    /\ (puts = [] \/ exists put, puts = [put] /\ method put = "PUT").

Definition deactivate_entra_role (role_name_or_id scope : string)
  : M World json :=
  let* role := get_entra_role role_name_or_id in
  GraphClient.deactivate_role (EntraRole.role_id role) scope.

Definition remove_eligible_azure_role (scope : string + AzureScope.t)
    (principal_id role_name_or_id justification : string) : M World json :=
  let scope_str := scope_str scope in
  let* role := get_azure_role (inl scope_str) role_name_or_id in
  let* request_id := uuid4 in
  ARMClient.remove_eligible_assignment scope_str principal_id
    (AzureRole.id role) request_id justification.

(** [[AzureRoleAssignment.model_validate(r) for r in data]]. *)
Fixpoint validate_all (items : list json)
  : PyResult (list AzureRoleAssignment.t) :=
  match items with
  | [] => Ok []
  | r :: rest =>
      pbind (AzureRoleAssignment.model_validate r) (fun a =>
      pbind (validate_all rest) (fun others => Ok (a :: others)))
  end.

Definition list_my_eligible_azure_roles (scope : string + AzureScope.t)
    (principal_id : option string) : M World (list AzureRoleAssignment.t) :=
  let scope_str := scope_str scope in
  let* data := ARMClient.list_eligible_schedule_instances scope_str principal_id in
  let* items := lift (Json.iter data) in
  lift (validate_all items).

Definition list_my_active_azure_roles (scope : string + AzureScope.t)
    (principal_id : option string) : M World (list AzureRoleAssignment.t) :=
  let scope_str := scope_str scope in
  let* data := ARMClient.list_active_schedule_instances scope_str principal_id in
  let* items := lift (Json.iter data) in
  lift (validate_all items).

End PIMOperations.

(** ** config.py *)

Module PIMConfig.

Record t : Type := mk {
  tenant_id : string;
  client_id : option string;
  client_secret : option string;
  authority : string;
  scopes_graph : list string;
  scopes_arm : list string;
  default_duration : string;
  cache_path : string
}.

(** The dataclass constructor followed by [__post_init__]. *)
Definition new (tenant_id : string) (client_id client_secret : option string)
    (default_duration cache_path : string) : t :=
  mk tenant_id client_id client_secret
     ("https://login.microsoftonline.com/" +:+ tenant_id)
     ["https://graph.microsoft.com/RoleManagement.ReadWrite.Directory";
      "https://graph.microsoft.com/RoleEligibilitySchedule.ReadWrite.Directory";
      "https://graph.microsoft.com/RoleAssignmentSchedule.ReadWrite.Directory"]
     ["https://management.azure.com/.default"]
     default_duration cache_path.

(** [from_env], on [os.environ]; [home] is what [Path.home()] gives for
    the default cache path. *)
Definition from_env (environ : gmap string string) (home : string)
  : PyResult t :=
  let tenant_id := default "" (environ !! "ARM_TENANT_ID") in
  if negb (truthy_str tenant_id) then
    Raise (PyException ValueError "ARM_TENANT_ID environment variable is required")
  else
    Ok (new tenant_id (environ !! "AZURE_CLIENT_ID")
            (environ !! "AZURE_CLIENT_SECRET")
            (default "PT1H" (environ !! "PIM_DEFAULT_DURATION"))
            (home +:+ "/.azure-pim/token_cache")).

End PIMConfig.

(** ** auth.py: what the token providers reach outside the process *)

(** [subprocess.run(..., check=True, timeout=...)] ends in one of four
    ways: the program ran (its exit code decides on
    [CalledProcessError]), it was not found, it timed out, or the call
    raised something else: [PermissionError] and the other [OSError]s of
    starting a program, [UnicodeDecodeError] where [text=True] decodes
    the output. *)
Inductive RunOutcome : Type :=
| Completed (returncode : Z) (stdout stderr : string)
| RunFileNotFound
| RunTimeout
| RunRaises (e : exn).

(** The calls that leave the process, as the providers make them. *)
Inductive AuthCall : Type :=
| GetAccounts
| AcquireTokenSilent (scopes : list string) (account : string)
| AcquireTokenForClient (scopes : list string)
| AcquireTokenInteractive (scopes : list string)
| InitiateDeviceFlow (scopes : list string)
| AcquireTokenByDeviceFlow
| Callback (message : string)
| Run (args : list string)
| HttpGet (endpoint : string) (params headers : gmap string string)
| PathExists (path : string)
| ReadText (path : string)
| Deserialize (state : string)
| Serialize
| MkdirParent (path : string)
| WriteText (path : string) (data : string)
| Chmod (path : string) (mode : Z).

(** The surroundings answer a call given the calls made before it.
    The calls of the device-code provider and the reads and writes of
    the cache file can raise. *)
Record Oracle : Type := mkOracle {
  get_accounts_result : list AuthCall -> list string;
  acquire_result : list AuthCall -> AuthCall -> option (gmap string string);
  device_flow_result : list AuthCall -> PyResult (gmap string string);
  callback_result : list AuthCall -> PyResult unit;
  device_token_result : list AuthCall -> PyResult (gmap string string);
  run_result : list AuthCall -> list string -> RunOutcome;
  http_get_result : list AuthCall -> string -> Transport;
  exists_result : list AuthCall -> bool;
  read_text_result : list AuthCall -> PyResult string;
  deserialize_result : list AuthCall -> string -> PyResult unit;
  serialize_result : list AuthCall -> string;
  mkdir_result : list AuthCall -> PyResult unit;
  write_text_result : list AuthCall -> PyResult unit;
  chmod_result : list AuthCall -> PyResult unit;
  lower_result : string -> string;
  strip_result : string -> string
}.

(** [s.lower()] and [s.strip()] on any string: computed on ASCII
    strings; on a string with a character outside ASCII they are what
    the surroundings say (Unicode case mapping and white space are not
    modelled). *)
Definition str_lower (o : Oracle) (s : string) : string :=
  if PyStr.is_ascii s then PyStr.lower s else lower_result o s.

Definition str_strip (o : Oracle) (s : string) : string :=
  if PyStr.is_ascii s then PyStr.strip_ws s else strip_result o s.

(** The two kinds of MSAL application [_get_app] builds. *)
Inductive AppKind : Type :=
| ConfidentialClientApplication
| PublicClientApplication.

(** [environ] is [os.environ]; [calls] the calls made so far, oldest
    first; [msal_app] the [_app] attribute of the MSAL provider. *)
Record AuthWorld : Type := mkAuthWorld {
  oracle : Oracle;
  environ : gmap string string;
  calls : list AuthCall;
  msal_app : option AppKind
}.

(** Make a call: it is recorded and the surroundings answer it. *)
Definition call {A} (c : AuthCall) (answer : Oracle -> list AuthCall -> A)
  : AuthWorld -> A * AuthWorld :=
  fun w => (answer (oracle w) (calls w),
            mkAuthWorld (oracle w) (environ w) (calls w ++ [c]) (msal_app w)).

Definition call_ok {A} (c : AuthCall) (answer : Oracle -> list AuthCall -> A)
  : M AuthWorld A :=
  fun w => let (a, w') := call c answer w in (Ok a, w').

Definition call_result {A} (c : AuthCall)
    (answer : Oracle -> list AuthCall -> PyResult A) : M AuthWorld A :=
  call c answer.

(** [os.environ.get(name)], and its truthiness. *)
Definition environ_get (name : string) : M AuthWorld (option string) :=
  fun w => (Ok (environ w !! name), w).

(** [s.lower()] and [s.strip()] inside a provider. *)
Definition py_lower (s : string) : M AuthWorld string :=
  fun w => (Ok (str_lower (oracle w) s), w).

Definition py_strip (s : string) : M AuthWorld string :=
  fun w => (Ok (str_strip (oracle w) s), w).

(** [subprocess.run(args, capture_output=True, check=True, timeout=...)],
    returning the captured standard output. *)
Definition subprocess_run (args : list string) : M AuthWorld string :=
  let* outcome := call_ok (Run args) (fun o h => run_result o h args) in
  match outcome with
  | Completed returncode stdout stderr =>
      if (returncode =? 0)%Z then ret stdout
      else raise (PyException CalledProcessError stderr)
  | RunFileNotFound => raise (PyException FileNotFoundError "az")
  | RunTimeout => raise (PyException TimeoutExpired "az")
  | RunRaises e => raise e
  end.

Definition is_CalledProcessError (e : exn) : bool :=
  match e with PyException CalledProcessError _ => true | _ => false end.

Definition is_FileNotFoundError (e : exn) : bool :=
  match e with PyException FileNotFoundError _ => true | _ => false end.

Definition is_TimeoutExpired (e : exn) : bool :=
  match e with PyException TimeoutExpired _ => true | _ => false end.

(** [result and "access_token" in result]. *)
Definition has_access_token (result : option (gmap string string)) : bool :=
  match result with
  | Some r => negb (bool_decide (r = ∅)) && bool_decide (is_Some (r !! "access_token"))
  | None => false
  end.

(** [result["access_token"]], read after the test above. *)
Definition access_token (result : option (gmap string string)) : string :=
  default "" (default ∅ result !! "access_token").

(** The four provider classes; [TokenProvider] is their abstract base. *)
Inductive TokenProvider : Type :=
| MSALTokenProvider (config : PIMConfig.t)
| DeviceCodeTokenProvider (config : PIMConfig.t)
| AzureCliTokenProvider
| ManagedIdentityTokenProvider (client_id : option string).

Module MSAL.

Definition _load_cache (config : PIMConfig.t) : M AuthWorld unit :=
  let cache_path := PIMConfig.cache_path config in
  let* present := call_ok (PathExists cache_path) exists_result in
  if (present : bool) then
    try_except
      (let* state := call_result (ReadText cache_path) read_text_result in
       call_result (Deserialize state) (fun o h => deserialize_result o h state))
      (fun e => is_JSONDecodeError e || is_OSError e)
      (fun _ => ret tt)
  else ret tt.

(** [__init__]: the cache is loaded; there is no application yet. *)
Definition new (config : PIMConfig.t) : M AuthWorld TokenProvider :=
  let* _ := _load_cache config in
  fun w => (Ok (MSALTokenProvider config),
            mkAuthWorld (oracle w) (environ w) (calls w) None).

(** [cache_path.parent.mkdir(parents=True, exist_ok=True)] stands before
    the [try]; serializing, writing and [chmod(0o600)] stand inside. *)
Definition _save_cache (config : PIMConfig.t) : M AuthWorld unit :=
  let cache_path := PIMConfig.cache_path config in
  let* _ := call_result (MkdirParent cache_path) mkdir_result in
  try_except
    (let* state := call_ok Serialize serialize_result in
     let* _ := call_result (WriteText cache_path state) write_text_result in
     call_result (Chmod cache_path 384) chmod_result)
    is_OSError
    (fun _ => ret tt).

Definition _get_app (config : PIMConfig.t) : M AuthWorld AppKind :=
  fun w =>
    match msal_app w with
    | Some app => (Ok app, w)
    | None =>
        let app := if truthy (PIMConfig.client_secret config)
                   then ConfidentialClientApplication
                   else PublicClientApplication in
        (Ok app, mkAuthWorld (oracle w) (environ w) (calls w) (Some app))
    end.

Definition acquire (c : AuthCall) : M AuthWorld (option (gmap string string)) :=
  call_ok c (fun o h => acquire_result o h c).

(** The [if accounts:] block: [Some token] when it returns from
    [get_token]. *)
Definition silent (scopes : list string) : M AuthWorld (option string) :=
  let* accounts := call_ok GetAccounts get_accounts_result in
  match accounts with
  | account :: _ =>
      let* result := acquire (AcquireTokenSilent scopes account) in
      if has_access_token result then ret (Some (access_token result))
      else ret None
  | [] => ret None
  end.

Definition get_token (config : PIMConfig.t) (scopes : list string)
  : M AuthWorld string :=
  let* app := _get_app config in
  let* cached := silent scopes in
  match cached with
  | Some token => ret token
  | None =>
      let* result :=
        match app with
        | ConfidentialClientApplication => acquire (AcquireTokenForClient scopes)
        | PublicClientApplication => acquire (AcquireTokenInteractive scopes)
        end in
      if negb (has_access_token result) then
        let error := default "unknown" (default ∅ result !! "error") in
        let error_desc := default "" (default ∅ result !! "error_description") in
        let* lowered := py_lower error_desc in
        if PyStr.has_infix "mfa" lowered || PyStr.has_infix "multi" lowered
        then raise (MFARequiredError ("MFA required: " +:+ error_desc))
        else raise (AuthenticationError
                      ("Authentication failed: " +:+ error +:+ " - " +:+ error_desc))
      else
        let* _ := _save_cache config in
        ret (access_token result)
  end.

End MSAL.

Module DeviceCode.

(** [initiate_device_flow], the provider's callback and
    [acquire_token_by_device_flow] are called outside any [try]: what
    they raise leaves [get_token]. *)
Definition get_token (config : PIMConfig.t) (scopes : list string)
  : M AuthWorld string :=
  let* flow := call_result (InitiateDeviceFlow scopes) device_flow_result in
  if negb (bool_decide (is_Some (flow !! "user_code"))) then
    raise (AuthenticationError
             ("Failed to create device flow: "
                +:+ default "None" (flow !! "error")))
  else
    match flow !! "message" with
    | None => raise (PyException KeyError "message")
    | Some message =>
        let* _ := call_result (Callback message) callback_result in
        let* result :=
          call_result AcquireTokenByDeviceFlow device_token_result in
        match result !! "access_token" with
        | None =>
            raise (AuthenticationError
                     ("Device flow failed: " +:+ default "None" (result !! "error")))
        | Some token => ret token
        end
    end.

End DeviceCode.

(** [scopes[0].rsplit("/", 1)[0] if scopes else "https://graph.microsoft.com"]. *)
Definition resource_of (scopes : list string) : string :=
  match scopes with
  | s :: _ => PyStr.rsplit1_head "/" s
  | [] => "https://graph.microsoft.com"
  end.

Module AzureCli.

Definition get_token (scopes : list string) : M AuthWorld string :=
  let resource := resource_of scopes in
  try_except
    (let* stdout :=
       subprocess_run ["az"; "account"; "get-access-token"; "--resource";
                       resource; "--query"; "accessToken"; "-o"; "tsv"] in
     let* token := py_strip stdout in
     if negb (truthy_str token)
     then raise (AuthenticationError "Azure CLI returned empty token")
     else ret token)
    (fun e => is_CalledProcessError e || is_FileNotFoundError e)
    (fun e =>
       if is_CalledProcessError e
       then raise (AuthenticationError
                     ("Azure CLI authentication failed: " +:+ exn_message e))
       else raise (AuthenticationError
                     "Azure CLI not found. Install with: brew install azure-cli")).

End AzureCli.

Module ManagedIdentity.

(** [response.raise_for_status()] raises unless the status is a 2xx. *)
Definition is_success (response : Response) : bool :=
  (200 <=? status_code response)%Z && (status_code response <? 300)%Z.

Definition get_token (client_id : option string) (scopes : list string)
  : M AuthWorld string :=
  let resource := resource_of scopes in
  let* identity_endpoint := environ_get "IDENTITY_ENDPOINT" in
  let endpoint :=
    default "http://169.254.169.254/metadata/identity/oauth2/token"
            identity_endpoint in
  let api_version :=
    if PyStr.has_infix "169.254.169.254" endpoint then "2019-08-01"
    else "2019-08-01" in
  let params : gmap string string :=
    <[ "resource" := resource ]> {[ "api-version" := api_version ]} in
  let params :=
    if truthy client_id then <[ "client_id" := default "" client_id ]> params
    else params in
  let headers : gmap string string := {[ "Metadata" := "true" ]} in
  let* identity_header := environ_get "IDENTITY_HEADER" in
  let headers :=
    match identity_header with
    | Some h => <[ "X-IDENTITY-HEADER" := h ]> headers
    | None => headers
    end in
  let* answer :=
    call_ok (HttpGet endpoint params headers)
            (fun o h => http_get_result o h endpoint) in
  match answer with
  | HTTPError e =>
      raise (AuthenticationError
               ("Managed identity authentication failed: " +:+ e))
  | Responds response =>
      if negb (is_success response) then
        raise (AuthenticationError
                 ("Managed identity authentication failed: "
                    +:+ pretty (status_code response)))
      else
        let* data := lift (response_json response) in
        match data with
        | JObj d =>
            match Json.lookup "access_token" d with
            | Some v => ret (Json.str v)
            | None => raise (PyException KeyError "access_token")
            end
        | _ => raise (PyException TypeError "access_token")
        end
  end.

End ManagedIdentity.

(** [provider.get_token(scopes)], dispatched on the provider's class. *)
Definition provider_get_token (provider : TokenProvider) (scopes : list string)
  : M AuthWorld string :=
  match provider with
  | MSALTokenProvider config => MSAL.get_token config scopes
  | DeviceCodeTokenProvider config => DeviceCode.get_token config scopes
  | AzureCliTokenProvider => AzureCli.get_token scopes
  | ManagedIdentityTokenProvider client_id =>
      ManagedIdentity.get_token client_id scopes
  end.

Module PIMAuth.

(** [_tokens] is the dictionary [__init__] creates; no method reads or
    writes it. *)
Record t : Type := mk {
  config : PIMConfig.t;
  _provider : TokenProvider;
  _tokens : gmap string (string * Z)
}.

Definition _auto_select_provider (config : PIMConfig.t)
  : M AuthWorld TokenProvider :=
  let* identity_endpoint := environ_get "IDENTITY_ENDPOINT" in
  let* msi_endpoint := environ_get "MSI_ENDPOINT" in
  if truthy identity_endpoint || truthy msi_endpoint then
    ret (ManagedIdentityTokenProvider (PIMConfig.client_id config))
  else if truthy (PIMConfig.client_secret config) then
    MSAL.new config
  else
    let* probe :=
      try_except
        (let* _ := subprocess_run ["az"; "account"; "show"] in ret true)
        (fun e => is_CalledProcessError e || is_FileNotFoundError e
                  || is_TimeoutExpired e)
        (fun _ => ret false) in
    if (probe : bool) then ret AzureCliTokenProvider
    else MSAL.new config.

(** [__init__(config, provider)]. *)
Definition new (config : PIMConfig.t) (provider : option TokenProvider)
  : M AuthWorld t :=
  let* provider :=
    match provider with
    | Some p => ret p
    | None => _auto_select_provider config
    end in
  ret (mk config provider ∅).

Definition get_graph_token (self : t) : M AuthWorld string :=
  provider_get_token (_provider self) (PIMConfig.scopes_graph (config self)).

Definition get_arm_token (self : t) : M AuthWorld string :=
  provider_get_token (_provider self) (PIMConfig.scopes_arm (config self)).

Definition interactive (config : PIMConfig.t) : M AuthWorld t :=
  let* provider := MSAL.new config in new config (Some provider).

Definition azure_cli (config : PIMConfig.t) : M AuthWorld t :=
  new config (Some AzureCliTokenProvider).

Definition managed_identity (config : PIMConfig.t) : M AuthWorld t :=
  new config
      (Some (ManagedIdentityTokenProvider (PIMConfig.client_id config))).

(** The managed-identity markers of the environment. *)
Definition identity_markers (w : AuthWorld) : bool :=
  truthy (environ w !! "IDENTITY_ENDPOINT") || truthy (environ w !! "MSI_ENDPOINT").


(** The world after a call. *)
Definition called (c : AuthCall) (w : AuthWorld) : AuthWorld :=
  mkAuthWorld (oracle w) (environ w) (calls w ++ [c]) (msal_app w).

(** A call that asks a token source for a new token: these reach the
    identity service, the metadata endpoint or the host CLI.
    [AcquireTokenSilent] and [GetAccounts] read MSAL's cache. *)
Definition is_acquisition (c : AuthCall) : bool :=
  match c with
  | AcquireTokenForClient _ | AcquireTokenInteractive _
  | AcquireTokenByDeviceFlow | InitiateDeviceFlow _ => true
  | Run ("az" :: "account" :: "get-access-token" :: _) => true
  | HttpGet _ _ _ => true
  | _ => false
  end.

Definition acquisitions (w : AuthWorld) : nat :=
  length (List.filter is_acquisition (calls w)).

End PIMAuth.

(** ** Mock authorities

    Closed worlds on which the operations can be run: a resource
    authority and a directory authority that hold a list of role
    definitions, and backends that give one answer to everything. *)

Module Mock.

(** The text of the answers is left empty: the clients read it only
    where the body does not decode, and for the message of an error
    answer that has none of its own. *)
Definition respond (status : Z) (headers : list (string * string))
    (body : option json) : Transport :=
  Responds (mkResponse status headers body "").

Definition uuids (n : nat) : string :=
  "00000000-0000-4000-8000-00000000000" +:+ pretty n.

Definition world (backend : list Request -> Request -> Transport) : World :=
  mkWorld (fun _ => Ok "arm-token") (fun _ => Ok "graph-token") 0
          backend [] uuids 0.

(** One answer to every request. *)
Definition always (status : Z) (headers : list (string * string))
    (body : option json) : World :=
  world (fun _ _ => respond status headers body).

Definition azure_role (id name role_name : string) : json :=
  JObj [("id", JStr id); ("name", JStr name);
        ("type", JStr "Microsoft.Authorization/roleDefinitions");
        ("properties", JObj [("roleName", JStr role_name)])].

Definition str_field (k : string) (obj : json) : string :=
  match Json.at_path [k] obj with
  | Some (JStr s) => s
  | _ => ""
  end.

Definition role_name_of (obj : json) : string :=
  match Json.at_path ["properties"; "roleName"] obj with
  | Some (JStr s) => s
  | _ => ""
  end.

(** The resource authority at [scope]: a listing filtered by exact role
    name, a lookup by role GUID, and a submission endpoint that grants
    at once. *)
Definition resource_authority (scope : string) (roles : list json)
    (history : list Request) (req : Request) : Transport :=
  let definitions :=
    "/" +:+ scope +:+ "/providers/Microsoft.Authorization/roleDefinitions" in
  if String.eqb (method req) "PUT" then
    respond 201 []
      (Some (JObj [("properties", JObj [("status", JStr "Provisioned")])]))
  else if String.eqb (url req) definitions then
    match default ∅ (params req) !! "$filter" with
    | Some f =>
        respond 200 []
          (Some (JObj [("value",
             JArr (List.filter
                     (fun r => String.eqb f ("roleName eq '" +:+ role_name_of r +:+ "'"))
                     roles))]))
    | None => respond 200 [] (Some (JObj [("value", JArr roles)]))
    end
  else
    match List.find
            (fun r => String.eqb (url req) (definitions +:+ "/" +:+ str_field "name" r))
            roles with
    | Some r => respond 200 [] (Some r)
    | None => respond 404 [] None
    end.

Definition entra_role (id display_name : string) : json :=
  JObj [("id", JStr id); ("displayName", JStr display_name)].

(** The directory authority, in the same way. *)
Definition directory_authority (roles : list json)
    (history : list Request) (req : Request) : Transport :=
  let definitions := "/roleManagement/directory/roleDefinitions" in
  if String.eqb (method req) "POST" then
    respond 201 [] (Some (JObj [("status", JStr "Provisioned")]))
  else if String.eqb (url req) definitions then
    match default ∅ (params req) !! "$filter" with
    | Some f =>
        respond 200 []
          (Some (JObj [("value",
             JArr (List.filter
                     (fun r => String.eqb f ("displayName eq '"
                                               +:+ str_field "displayName" r +:+ "'"))
                     roles))]))
    | None => respond 200 [] (Some (JObj [("value", JArr roles)]))
    end
  else
    match List.find
            (fun r => String.eqb (url req) (definitions +:+ "/" +:+ str_field "id" r))
            roles with
    | Some r => respond 200 [] (Some r)
    | None => respond 404 [] None
    end.

(** A resource authority that resolves roles and answers every
    submission with 429 and, after another header and in lower case, a
    [Retry-After] of 30 seconds. *)
Definition rate_limiting_authority (scope : string) (roles : list json)
    (history : list Request) (req : Request) : Transport :=
  if String.eqb (method req) "PUT" then
    respond 429 [("Content-Length", "0"); ("retry-after", "30")] None
  else resource_authority scope roles history req.

(** Two roles; the name of the second is a substring of the GUID of the
    first. *)
Definition roles : list json :=
  [azure_role "/subscriptions/S1/providers/Microsoft.Authorization/roleDefinitions/x-Contributor-x"
              "x-Contributor-x" "Owner";
   azure_role "/subscriptions/S1/providers/Microsoft.Authorization/roleDefinitions/b24988ac"
              "b24988ac" "Contributor"].

Definition directory_roles : list json :=
  [entra_role "x-Global Reader-x" "Security Reader";
   entra_role "f2ef992c" "Global Reader"].

End Mock.


(** ** Mock surroundings for the token providers *)

Module MockAuth.

(** Surroundings in which MSAL knows [accounts], every acquisition
    answers [result], the host CLI ends as [az], the metadata endpoint
    answers [imds], there is no cache file, and [mkdir], [write] and
    [chmod] end as given.  No device flow gives a code, and strings
    with characters outside ASCII are lowered and stripped to
    themselves. *)
Definition surroundings (accounts : list string)
    (result : option (gmap string string)) (az : RunOutcome) (imds : Transport)
    (mkdir write chmod : PyResult unit) : Oracle :=
  mkOracle (fun _ => accounts) (fun _ _ => result)
           (fun _ => Ok ∅) (fun _ => Ok tt) (fun _ => Ok ∅)
           (fun _ _ => az) (fun _ _ => imds)
           (fun _ => false) (fun _ => Ok "") (fun _ _ => Ok tt) (fun _ => "{}")
           (fun _ => mkdir) (fun _ => write) (fun _ => chmod)
           (fun s => s) (fun s => s).

Definition world (env : gmap string string) (o : Oracle) : AuthWorld :=
  mkAuthWorld o env [] None.

Definition config (client_secret : option string) : PIMConfig.t :=
  PIMConfig.new "tenant-1" None client_secret "PT1H"
                "/home/u/.azure-pim/token_cache".

Definition token_result : option (gmap string string) :=
  Some {[ "access_token" := "tok" ]}.

Definition imds_token : Transport :=
  Responds (mkResponse 200 []
              (Some (JObj [("access_token", JStr "tok");
                           ("expires_in", JStr "3600")])) "").

(** A host with a logged-in CLI and nothing else. *)
Definition cli_host : AuthWorld :=
  world ∅ (surroundings [] None (Completed 0 " tok " "") (HTTPError "unreachable")
             (Ok tt) (Ok tt) (Ok tt)).

(** A managed host: the marker is set and the endpoint answers. *)
Definition managed_host : AuthWorld :=
  world {[ "IDENTITY_ENDPOINT" := "http://localhost:42356/msi/token" ]}
        (surroundings [] token_result (Completed 0 " tok " "") imds_token
           (Ok tt) (Ok tt) (Ok tt)).

(** A desktop: no marker, no CLI, the user signs in interactively. *)
Definition desktop (mkdir write chmod : PyResult unit) : AuthWorld :=
  world ∅ (surroundings [] token_result RunFileNotFound (HTTPError "unreachable")
             mkdir write chmod).

(** A desktop on which MSAL has an account and a token for it. *)
Definition signed_in : AuthWorld :=
  world ∅ (surroundings ["user@example.org"] token_result RunFileNotFound
             (HTTPError "unreachable") (Ok tt) (Ok tt) (Ok tt)).

(** A desktop whose cache file exists and holds bytes that are not
    text. *)
Definition undecodable_cache : AuthWorld :=
  world ∅ (mkOracle (fun _ => []) (fun _ _ => None)
             (fun _ => Ok ∅) (fun _ => Ok tt) (fun _ => Ok ∅)
             (fun _ _ => RunFileNotFound) (fun _ _ => HTTPError "unreachable")
             (fun _ => true)
             (fun _ => Raise (PyException UnicodeDecodeError "invalid start byte"))
             (fun _ _ => Ok tt) (fun _ => "{}")
             (fun _ => Ok tt) (fun _ => Ok tt) (fun _ => Ok tt)
             (fun s => s) (fun s => s)).

(** A headless host: the device flow gives a code to show, and the
    callback and the polling end as given. *)
Definition device_host (callback : PyResult unit)
    (token : PyResult (gmap string string)) : AuthWorld :=
  world ∅ (mkOracle (fun _ => []) (fun _ _ => None)
             (fun _ => Ok {[ "user_code" := "ABCD-EFGH";
                             "message" := "Enter the code ABCD-EFGH" ]})
             (fun _ => callback) (fun _ => token)
             (fun _ _ => RunFileNotFound) (fun _ _ => HTTPError "unreachable")
             (fun _ => false) (fun _ => Ok "") (fun _ _ => Ok tt) (fun _ => "{}")
             (fun _ => Ok tt) (fun _ => Ok tt) (fun _ => Ok tt)
             (fun s => s) (fun s => s)).

(** A host whose [az] is there and cannot be executed. *)
Definition locked_cli : AuthWorld :=
  world ∅ (surroundings [] token_result
             (RunRaises (PyException PermissionError
                           "[Errno 13] Permission denied: 'az'"))
             (HTTPError "unreachable") (Ok tt) (Ok tt) (Ok tt)).

End MockAuth.

(** * Properties *)

(** ** The package's tests of its models, replayed *)

Section Tests.

Example test_default_values :
  ExpirationPattern.new None None None
  = Ok (ExpirationPattern.mk "noExpiration" None None).
Proof. reflexivity. Qed.

Example test_with_duration :
  ExpirationPattern.new (Some "afterDuration") (Some "PT8H") None
  = Ok (ExpirationPattern.mk "afterDuration" (Some "PT8H") None).
Proof. reflexivity. Qed.

Example test_subscription_scope :
  pbind (AzureScope.subscription "12345678-1234-1234-1234-123456789abc")
        (fun scope => Ok (AzureScope.to_string scope))
  = Ok "/subscriptions/12345678-1234-1234-1234-123456789abc".
Proof. reflexivity. Qed.

Example test_resource_group_scope :
  pbind (AzureScope.resource_group_scope "S1" "rg1")
        (fun scope => Ok (AzureScope.to_string scope))
  = Ok "/subscriptions/S1/resourceGroups/rg1".
Proof. reflexivity. Qed.

Example test_parse_scope_string :
  AzureScope.from_string
    "/subscriptions/12345678-1234-1234-1234-123456789abc/resourceGroups/my-rg"
  = Ok (AzureScope.mk "12345678-1234-1234-1234-123456789abc" (Some "my-rg")
          None None None).
Proof. vm_compute. reflexivity. Qed.

Example test_full_resource_scope :
  AzureScope.to_string
    (AzureScope.mk "sub-123" (Some "rg-prod") (Some "Microsoft.Compute")
       (Some "virtualMachines") (Some "vm-001"))
  = "/subscriptions/sub-123/resourceGroups/rg-prod/providers/Microsoft.Compute/virtualMachines/vm-001".
Proof. reflexivity. Qed.

Example test_role_from_api_response :
  pbind (EntraRole.model_validate
           (JObj [("id", JStr "role-id-123");
                  ("displayName", JStr "Global Administrator");
                  ("description", JStr "Can manage all aspects of Azure AD");
                  ("templateId", JStr "template-id-456");
                  ("isBuiltIn", JBool true);
                  ("isEnabled", JBool true)]))
        (fun role => Ok (EntraRole.display_name role, EntraRole.role_id role))
  = Ok ("Global Administrator", "template-id-456").
Proof. reflexivity. Qed.

Example test_role_id_fallback :
  pbind (EntraRole.model_validate
           (JObj [("id", JStr "role-id-123");
                  ("displayName", JStr "Custom Role");
                  ("isBuiltIn", JBool false)]))
        (fun role => Ok (EntraRole.role_id role))
  = Ok "role-id-123".
Proof. reflexivity. Qed.

(** The resource a provider asks a token for. *)
Example resource_of_arm_scope :
  resource_of ["https://management.azure.com/.default"]
  = "https://management.azure.com".
Proof. reflexivity. Qed.

End Tests.

(** ** Strings *)

Section StringFacts.

Lemma append_nil_l (s : string) : "" +:+ s = s.
Proof. reflexivity. Qed.

Lemma append_cons (c : ascii) (s t : string) :
  String c s +:+ t = String c (s +:+ t).
Proof. reflexivity. Qed.

Lemma append_assoc (a b c : string) : (a +:+ b) +:+ c = a +:+ (b +:+ c).
Proof.
  induction a as [|x a IH]; [reflexivity|].
  rewrite !append_cons, IH. reflexivity.
Qed.

Lemma append_nil_r (s : string) : s +:+ "" = s.
Proof.
  induction s as [|c s IH]; [reflexivity|].
  rewrite append_cons, IH. reflexivity.
Qed.

(** Nothing is stripped from a string that does not hold the character. *)
Lemma rstrip_absent (ch : ascii) (s : string) :
  PyStr.contains ch s = false -> PyStr.rstrip ch s = s.
Proof.
  induction s as [|c s IH]; simpl; [reflexivity|].
  intros H. apply orb_false_iff in H as [Hc Hs].
  rewrite (IH Hs), Hc. destruct s; reflexivity.
Qed.

(** Stripping on the right looks at the end of the string only. *)
Lemma rstrip_append (ch : ascii) (a b : string) :
  b <> "" -> PyStr.rstrip ch b = b -> PyStr.rstrip ch (a +:+ b) = a +:+ b.
Proof.
  intros Hb Hr. induction a as [|c a IH]; [exact Hr|].
  rewrite append_cons. simpl. rewrite IH.
  destruct (a +:+ b) eqn:E; [|reflexivity].
  destruct a; [rewrite append_nil_l in E; congruence | discriminate E].
Qed.

Lemma split_absent (sep : ascii) (a : string) :
  PyStr.contains sep a = false -> PyStr.split sep a = [a].
Proof.
  induction a as [|c a IH]; simpl; [reflexivity|].
  intros H. apply orb_false_iff in H as [Hc Ha].
  rewrite Hc, (IH Ha). reflexivity.
Qed.

(** The first token ends at the first separator. *)
Lemma split_append (sep : ascii) (a r : string) :
  PyStr.contains sep a = false ->
  PyStr.split sep (a +:+ String sep r) = a :: PyStr.split sep r.
Proof.
  induction a as [|c a IH]; intros H.
  - rewrite append_nil_l. simpl. rewrite Ascii.eqb_refl. reflexivity.
  - simpl in H. apply orb_false_iff in H as [Hc Ha].
    rewrite append_cons. simpl. rewrite Hc, (IH Ha). reflexivity.
Qed.

Lemma truthy_str_nonempty (s : string) : truthy_str s = true -> s <> "".
Proof. destruct s; [discriminate|congruence]. Qed.

End StringFacts.

(** ** AzureScope: the parsing loop *)

Section ScopeLoop.

Import AzureScope.

(** Every iteration moves the index forward. *)
Lemma body_advances (parts : list string) (v : vars) :
  (v_i v < v_i (body parts v))%nat.
Proof.
  unfold body.
  repeat match goal with |- context [if ?b then _ else _] => destruct b end;
    simpl; lia.
Qed.

(** With [length parts] iterations allowed the loop stops because its
    condition is false, not because the bound is reached. *)
Lemma loop_exits_gen (fuel : nat) (parts : list string) (v : vars) :
  (length parts <= v_i v + fuel)%nat ->
  (length parts <= v_i (loop fuel parts v))%nat.
Proof.
  revert v. induction fuel as [|fuel IH]; intros v H; simpl.
  - lia.
  - destruct (v_i v <? length parts)%nat eqn:E.
    + apply IH. pose proof (body_advances parts v). lia.
    + apply Nat.ltb_ge in E. exact E.
Qed.

Lemma loop_exits (parts : list string) :
  (length parts
   <= v_i (loop (length parts) parts (mkvars 0 "" None None None None)))%nat.
Proof. apply loop_exits_gen. simpl. lia. Qed.

(** More iterations than needed change nothing. *)
Lemma loop_stable (fuel : nat) (parts : list string) (v : vars) :
  (length parts <= v_i v)%nat -> loop fuel parts v = v.
Proof.
  intros H. destruct fuel; simpl; [reflexivity|].
  apply Nat.ltb_ge in H. rewrite H. reflexivity.
Qed.

(** The subscription is assigned only at a [subscriptions] token. *)
Lemma body_keeps_subscription (parts : list string) (v : vars) :
  existsb (fun p => String.eqb (PyStr.lower p) "subscriptions") parts = false ->
  (v_i v < length parts)%nat ->
  v_subscription_id (body parts v) = v_subscription_id v.
Proof.
  intros Hno Hi. unfold body.
  assert (Hitem : String.eqb (PyStr.lower (item parts (v_i v))) "subscriptions"
                  = false).
  { destruct (String.eqb (PyStr.lower (item parts (v_i v))) "subscriptions")
      eqn:E; [|reflexivity].
    assert (Hex : existsb (fun p => String.eqb (PyStr.lower p) "subscriptions")
                          parts = true).
    { apply existsb_exists. exists (item parts (v_i v)). split; [|exact E].
      unfold item. apply nth_In. exact Hi. }
    congruence. }
  rewrite Hitem. simpl.
  repeat match goal with |- context [if ?b then _ else _] => destruct b end;
    reflexivity.
Qed.

Lemma loop_keeps_subscription (fuel : nat) (parts : list string) (v : vars) :
  existsb (fun p => String.eqb (PyStr.lower p) "subscriptions") parts = false ->
  v_subscription_id (loop fuel parts v) = v_subscription_id v.
Proof.
  intros Hno. revert v. induction fuel as [|fuel IH]; intros v; simpl.
  - reflexivity.
  - destruct (v_i v <? length parts)%nat eqn:E; [|reflexivity].
    rewrite IH. apply body_keeps_subscription; [exact Hno|].
    apply Nat.ltb_lt. exact E.
Qed.

End ScopeLoop.

(** ** AzureScope: round trip and totality of parsing *)

Section ScopeClaims.

Import AzureScope.

Lemma token_ok_inv (tk : string) :
  token_ok tk = true -> tk <> "" /\ PyStr.contains "/" tk = false.
Proof.
  unfold token_ok. intros H. apply andb_true_iff in H as [H1 H2].
  split; [apply truthy_str_nonempty; exact H1|].
  apply negb_true_iff. exact H2.
Qed.

(** A token followed by a path of good tokens is left alone by
    [rstrip] ... *)
Lemma rstrip_tokens (tk : string) (rest : list string) :
  forallb token_ok (tk :: rest) = true ->
  PyStr.rstrip "/" (tk +:+ path_of rest) = tk +:+ path_of rest.
Proof.
  revert tk. induction rest as [|u rest IH]; intros tk H.
  - simpl in H. rewrite andb_true_r in H.
    apply token_ok_inv in H as [_ H].
    simpl. rewrite append_nil_r. apply rstrip_absent. exact H.
  - simpl in H. apply andb_true_iff in H as [Htk H].
    change (path_of (u :: rest)) with ("/" +:+ u +:+ path_of rest).
    rewrite <- append_assoc. apply rstrip_append.
    + assert (Hu : u <> "").
      { apply andb_true_iff in H as [Hu _]. apply token_ok_inv in Hu. tauto. }
      destruct u; [congruence | discriminate].
    + apply IH. exact H.
Qed.

(** ... and is cut by [split] into exactly these tokens. *)
Lemma split_tokens (tk : string) (rest : list string) :
  forallb token_ok (tk :: rest) = true ->
  PyStr.split "/" (tk +:+ path_of rest) = tk :: rest.
Proof.
  revert tk. induction rest as [|u rest IH]; intros tk H.
  - simpl in H. rewrite andb_true_r in H.
    apply token_ok_inv in H as [_ H].
    simpl. rewrite append_nil_r. apply split_absent. exact H.
  - simpl in H. apply andb_true_iff in H as [Htk H].
    apply token_ok_inv in Htk as [_ Htk].
    change (path_of (u :: rest)) with (String "/" (u +:+ path_of rest)).
    rewrite split_append by exact Htk.
    rewrite IH by exact H. reflexivity.
Qed.

Lemma lstrip_token (tk rest : string) :
  token_ok tk = true -> PyStr.lstrip "/" (tk +:+ rest) = tk +:+ rest.
Proof.
  intros H. destruct tk as [|c tk]; [discriminate H|].
  unfold token_ok in H. simpl in H. apply negb_true_iff in H.
  apply orb_false_iff in H as [Hc _].
  rewrite append_cons. simpl. rewrite Hc. reflexivity.
Qed.

(** Parsing a path of good tokens starts from these tokens. *)
Lemma split_strip_path (toks : list string) :
  toks <> [] -> forallb token_ok toks = true ->
  PyStr.split "/" (PyStr.strip "/" (path_of toks)) = toks.
Proof.
  intros Hne H. destruct toks as [|tk rest]; [congruence|].
  change (path_of (tk :: rest)) with (String "/" (tk +:+ path_of rest)).
  unfold PyStr.strip. cbn [PyStr.lstrip Ascii.eqb Bool.eqb].
  rewrite lstrip_token
    by (simpl in H; apply andb_true_iff in H as [H _]; exact H).
  rewrite rstrip_tokens by exact H.
  apply split_tokens. exact H.
Qed.

Lemma valid_tokens_ok (s : t) :
  valid s = true -> slash_free s = true -> forallb token_ok (tokens s) = true.
Proof.
  destruct s as [sub rg p rt rn]. unfold valid, slash_free, tokens, token_ok.
  simpl. intros Hv Hs.
  repeat match goal with
         | H : _ && _ = true |- _ => apply andb_true_iff in H as [? ?]
         end.
  destruct rg, p, rt, rn; simpl in *; try discriminate;
    repeat match goal with
           | H : ?b = true |- context [?b] => rewrite H
           end; reflexivity.
Qed.

Lemma to_string_tokens (s : t) :
  valid s = true -> to_string s = path_of (tokens s).
Proof.
  destruct s as [sub rg p rt rn]. unfold valid, to_string, tokens.
  simpl. intros Hv.
  repeat match goal with
         | H : _ && _ = true |- _ => apply andb_true_iff in H as [? ?]
         end.
  destruct rg, p, rt, rn; try discriminate; simpl in *;
    repeat match goal with
           | H : ?b = true |- context [?b] => rewrite H
           end; simpl; rewrite ?append_assoc, ?append_nil_r; reflexivity.
Qed.

(** The loop run on the tokens of a scope gives back its fields. *)
Lemma loop_tokens (s : t) :
  valid s = true ->
  let v := loop (length (tokens s)) (tokens s)
                (mkvars 0 "" None None None None) in
  mk (v_subscription_id v) (v_resource_group v) (v_provider v)
     (v_resource_type v) (v_resource_name v) = s.
Proof.
  destruct s as [sub rg p rt rn]. unfold valid. simpl. intros Hv.
  repeat match goal with
         | H : _ && _ = true |- _ => apply andb_true_iff in H as [? ?]
         end.
  destruct rg, p, rt, rn; try discriminate; vm_compute; reflexivity.
Qed.

(** C2, as stated, fails: a subscription ID that holds a slash passes the
    validity condition of the data model, and parsing its path cuts the
    ID at the slash. *)
Lemma scope_round_trip_counterexample :
  let s := mk "a/b" None None None None in
  valid s = true
  /\ from_string (to_string s) = Ok (mk "a" None None None None)
  /\ from_string (to_string s) <> Ok s.
Proof. vm_compute. repeat split. discriminate. Qed.

(** C2 (amended): for every valid scope value whose fields hold no
    slash, parsing its string form gives the value back. *)
Theorem scope_round_trip (s : t) :
  valid s = true -> slash_free s = true ->
  from_string (to_string s) = Ok s.
Proof.
  intros Hv Hs. unfold from_string.
  rewrite (to_string_tokens s Hv).
  rewrite split_strip_path
    by (auto using valid_tokens_ok; destruct s; discriminate).
  unfold new. f_equal. apply (loop_tokens s Hv).
Qed.

Lemma scope_round_trip_witness :
  let s := mk "sub-123" (Some "rg-prod") (Some "Microsoft.Compute")
              (Some "virtualMachines") (Some "vm-001") in
  valid s = true /\ slash_free s = true /\ from_string (to_string s) = Ok s.
Proof.
  split; [reflexivity|]. split; [reflexivity|].
  apply (scope_round_trip
           (mk "sub-123" (Some "rg-prod") (Some "Microsoft.Compute")
               (Some "virtualMachines") (Some "vm-001")));
    reflexivity.
Defined.

(** C3, as stated, fails: a path without a [subscriptions] segment is
    parsed into a scope with an empty subscription ID; nothing is
    raised. *)
Lemma scope_parse_counterexample :
  has_subscriptions_segment "/resourceGroups/rg1" = false
  /\ from_string "/resourceGroups/rg1"
     = Ok (mk "" (Some "rg1") None None None).
Proof. vm_compute. split; reflexivity. Qed.

(** C3 (amended): parsing never fails; for a path without a
    [subscriptions] segment it returns a scope whose subscription ID is
    the empty string. *)
Theorem scope_parse_total (scope : string) :
  exists sc : t,
    from_string scope = Ok sc
    /\ (has_subscriptions_segment scope = false -> subscription_id sc = "").
Proof.
  unfold from_string, new. eexists. split; [reflexivity|].
  intros H. simpl. rewrite loop_keeps_subscription; [reflexivity|exact H].
Qed.

Lemma scope_parse_total_witness :
  exists sc : t,
    from_string "/providers/Microsoft.Compute/virtualMachines/vm-001" = Ok sc
    /\ subscription_id sc = "".
Proof.
  destruct (scope_parse_total
              "/providers/Microsoft.Compute/virtualMachines/vm-001")
    as [sc [H1 H2]].
  exists sc. split; [exact H1|]. apply H2. reflexivity.
Defined.

End ScopeClaims.

(** ** The HTTP clients *)

Section Clients.

(** What [_request] does once the token is there: one request goes out
    and its answer is interpreted. *)
Lemma arm_request_run (m e : string) (j : option json)
    (p : option (gmap string string)) (w : World) (token : string) :
  arm_tokens w (token_calls w) = Ok token ->
  ARMClient._request m e j p w
  = let req := ARMClient.request_for m e ("Bearer " +:+ token) j p in
    (match backend w (sent w) req with
     | Responds response => ARMClient.interpret e response
     | HTTPError msg => Raise (APIError ("HTTP request failed: " +:+ msg) 0 None)
     end,
     record_sent req (next_token w)).
Proof.
  intros Htoken.
  unfold ARMClient._request, ARMClient._get_client, bind, get_arm_token, ret, send.
  rewrite Htoken. simpl.
  destruct (backend w (sent w) _); reflexivity.
Qed.

Lemma arm_request_no_token (m e : string) (j : option json)
    (p : option (gmap string string)) (w : World) (err : exn) :
  arm_tokens w (token_calls w) = Raise err ->
  ARMClient._request m e j p w = (Raise err, next_token w).
Proof.
  intros Htoken.
  unfold ARMClient._request, ARMClient._get_client, bind, get_arm_token.
  rewrite Htoken. reflexivity.
Qed.

Lemma graph_request_run (m e : string) (j : option json)
    (p : option (gmap string string)) (beta : bool) (w : World)
    (token : string) :
  graph_tokens w (token_calls w) = Ok token ->
  GraphClient._request m e j p beta w
  = let req := GraphClient.request_for m e ("Bearer " +:+ token) j p beta in
    (match backend w (sent w) req with
     | Responds response => GraphClient.interpret e response
     | HTTPError msg => Raise (APIError ("HTTP request failed: " +:+ msg) 0 None)
     end,
     record_sent req (next_token w)).
Proof.
  intros Htoken.
  unfold GraphClient._request, GraphClient._get_client, bind, get_graph_token,
    ret, send.
  rewrite Htoken. simpl.
  destruct (backend w (sent w) _); reflexivity.
Qed.

Lemma arm_interpret_404 (e : string) (response : Response) :
  status_code response = 404%Z ->
  ARMClient.interpret e response
  = Raise (RoleNotFoundError ("Resource not found: " +:+ e)).
Proof. intros H. unfold ARMClient.interpret. rewrite H. reflexivity. Qed.

Lemma graph_interpret_404 (e : string) (response : Response) :
  status_code response = 404%Z ->
  GraphClient.interpret e response
  = Raise (RoleNotFoundError ("Resource not found: " +:+ e)).
Proof. intros H. unfold GraphClient.interpret. rewrite H. reflexivity. Qed.

Lemma arm_interpret_429 (e : string) (response : Response) :
  status_code response = 429%Z ->
  ARMClient.interpret e response
  = Raise (RateLimitError
             ("Rate limited. Retry after "
                +:+ headers_get "Retry-After" "60" (headers response)
                +:+ " seconds") 429 None).
Proof. intros H. unfold ARMClient.interpret. rewrite H. reflexivity. Qed.

Lemma graph_interpret_429 (e : string) (response : Response) :
  status_code response = 429%Z ->
  GraphClient.interpret e response
  = Raise (RateLimitError
             ("Rate limited. Retry after "
                +:+ headers_get "Retry-After" "60" (headers response)
                +:+ " seconds") 429 None).
Proof. intros H. unfold GraphClient.interpret. rewrite H. reflexivity. Qed.

(** A 200 answer with a body is handed back decoded. *)
Lemma arm_interpret_200 (e : string) (response : Response) (body : json) :
  status_code response = 200%Z -> content response = Some body ->
  ARMClient.interpret e response = Ok body.
Proof.
  intros H Hc. unfold ARMClient.interpret, response_json, has_content.
  rewrite H, Hc. reflexivity.
Qed.

Lemma graph_interpret_200 (e : string) (response : Response) (body : json) :
  status_code response = 200%Z -> content response = Some body ->
  GraphClient.interpret e response = Ok body.
Proof.
  intros H Hc. unfold GraphClient.interpret, response_json. rewrite H, Hc.
  reflexivity.
Qed.

(** C10: every 404 answer, to either client and on any endpoint, is
    raised as [RoleNotFoundError]; polling a schedule request whose ID
    the backend does not know is one such case, and its exception has
    the class a missing role has. *)
Theorem not_found_is_role_not_found (w : World) (token : string)
    (response : Response) :
  status_code response = 404%Z ->
  (forall m e j p,
      arm_tokens w (token_calls w) = Ok token ->
      answers w (ARMClient.request_for m e ("Bearer " +:+ token) j p) response ->
      fst (ARMClient._request m e j p w)
      = Raise (RoleNotFoundError ("Resource not found: " +:+ e)))
  /\ (forall m e j p beta,
      graph_tokens w (token_calls w) = Ok token ->
      answers w (GraphClient.request_for m e ("Bearer " +:+ token) j p beta)
              response ->
      fst (GraphClient._request m e j p beta w)
      = Raise (RoleNotFoundError ("Resource not found: " +:+ e)))
  /\ (forall scope request_id,
      arm_tokens w (token_calls w) = Ok token ->
      answers w
        (ARMClient.request_for "GET"
           ("/" +:+ scope
               +:+ "/providers/Microsoft.Authorization/roleAssignmentScheduleRequests/"
               +:+ request_id)
           ("Bearer " +:+ token) None None)
        response ->
      exists err,
        fst (ARMClient.get_assignment_request scope request_id w) = Raise err
        /\ is_RoleNotFoundError err = true).
Proof.
  intros H404. unfold answers. split; [|split].
  - intros m e j p Ht Ha. rewrite (arm_request_run _ _ _ _ _ _ Ht). simpl.
    rewrite Ha. apply arm_interpret_404. exact H404.
  - intros m e j p beta Ht Ha. rewrite (graph_request_run _ _ _ _ _ _ _ Ht).
    simpl. rewrite Ha. apply graph_interpret_404. exact H404.
  - intros scope request_id Ht Ha. eexists.
    unfold ARMClient.get_assignment_request.
    rewrite (arm_request_run _ _ _ _ _ _ Ht). simpl.
    rewrite Ha. split; [apply arm_interpret_404; exact H404 | reflexivity].
Qed.

Lemma not_found_is_role_not_found_witness :
  fst (ARMClient._request "GET"
         "//subscriptions/S1/providers/Microsoft.Authorization/roleAssignmentScheduleRequests/no-such-request"
         None None (Mock.always 404 [] None))
  = Raise (RoleNotFoundError
             "Resource not found: //subscriptions/S1/providers/Microsoft.Authorization/roleAssignmentScheduleRequests/no-such-request")
  /\ fst (GraphClient._request "GET" "/users/u1" None None false
            (Mock.always 404 [] None))
     = Raise (RoleNotFoundError "Resource not found: /users/u1")
  /\ exists err,
       fst (ARMClient.get_assignment_request "/subscriptions/S1"
              "no-such-request" (Mock.always 404 [] None)) = Raise err
       /\ is_RoleNotFoundError err = true.
Proof.
  destruct (not_found_is_role_not_found (Mock.always 404 [] None) "arm-token"
              (mkResponse 404 [] None "") eq_refl) as [Harm [_ Hpoll]].
  destruct (not_found_is_role_not_found (Mock.always 404 [] None) "graph-token"
              (mkResponse 404 [] None "") eq_refl) as [_ [Hgraph _]].
  split; [|split].
  - apply (Harm "GET"
             "//subscriptions/S1/providers/Microsoft.Authorization/roleAssignmentScheduleRequests/no-such-request"
             None None); reflexivity.
  - apply (Hgraph "GET" "/users/u1" None None false); reflexivity.
  - apply (Hpoll "/subscriptions/S1" "no-such-request"); reflexivity.
Defined.

(** What [headers.get] gives for a header that is absent and for one
    that comes once, whatever other headers stand around it. *)
Lemma header_values_app (name : string) (a b : list (string * string)) :
  header_values name (a ++ b)
  = (header_values name a ++ header_values name b)%list.
Proof.
  unfold header_values. rewrite List.filter_app, List.map_app. reflexivity.
Qed.

Lemma header_values_none (name : string) (h : list (string * string)) :
  Forall (fun kv => PyStr.lower (fst kv) <> PyStr.lower name) h ->
  header_values name h = [].
Proof.
  unfold header_values. induction 1 as [|kv h Hkv _ IH]; [reflexivity|].
  cbn [List.filter]. apply String.eqb_neq in Hkv. rewrite Hkv. exact IH.
Qed.

Lemma headers_get_absent (name dflt : string) (h : list (string * string)) :
  Forall (fun kv => PyStr.lower (fst kv) <> PyStr.lower name) h ->
  headers_get name dflt h = dflt.
Proof.
  intros H. unfold headers_get. rewrite (header_values_none name h H).
  reflexivity.
Qed.

Lemma headers_get_once (name dflt k v : string)
    (pre post : list (string * string)) :
  PyStr.lower k = PyStr.lower name ->
  Forall (fun kv => PyStr.lower (fst kv) <> PyStr.lower name) (pre ++ post) ->
  headers_get name dflt (pre ++ (k, v) :: post) = v.
Proof.
  intros Hk Hrest. apply Forall_app in Hrest as [Hpre Hpost].
  unfold headers_get.
  rewrite header_values_app, (header_values_none name pre Hpre).
  change ((k, v) :: post) with ([(k, v)] ++ post)%list.
  rewrite header_values_app, (header_values_none name post Hpost).
  unfold header_values. cbn [List.filter fst].
  apply String.eqb_eq in Hk. rewrite Hk. reflexivity.
Qed.

(** C8, as stated, fails: the error that is raised holds a message, the
    status 429 and no body, and no field for the hint of the backend;
    for [Retry-After: 30] the 30 is part of the message text.  An
    answer without [Retry-After] raises the very error of an answer
    with [Retry-After: 60]: the hint the error speaks of need not be
    one the backend gave. *)
Lemma rate_limit_hint_counterexample :
  let silent := mkResponse 429 [] None "" in
  let sixty := mkResponse 429 [("Retry-After", "60")] None "" in
  let thirty := mkResponse 429 [("Retry-After", "30")] None "" in
  ARMClient.interpret "/requests/r1" thirty
  = Raise (RateLimitError "Rate limited. Retry after 30 seconds" 429 None)
  /\ ARMClient.interpret "/requests/r1" silent
     = Raise (RateLimitError "Rate limited. Retry after 60 seconds" 429 None)
  /\ ARMClient.interpret "/requests/r1" silent
     = ARMClient.interpret "/requests/r1" sixty
  /\ GraphClient.interpret "/requests/r1" silent
     = GraphClient.interpret "/requests/r1" sixty.
Proof. vm_compute. repeat split. Qed.

(** C8 (amended): a 429 answer is raised as [RateLimitError] with status
    429 and no body, by both clients and by the submission of an
    activation, and the request is sent once.  The message of the error
    is [Rate limited. Retry after V seconds], where V is the value of
    the [Retry-After] header of the answer, its name read in any letter
    case and whatever other headers the answer has, and [60] when the
    answer has no such header. *)
Theorem rate_limit_surfaces (w : World) (token : string)
    (response : Response) (hint : string) :
  status_code response = 429%Z ->
  (Forall (fun kv => PyStr.lower (fst kv) <> "retry-after") (headers response)
   /\ hint = "60")
  \/ (exists pre k post,
        headers response = (pre ++ (k, hint) :: post)%list
        /\ PyStr.lower k = "retry-after"
        /\ Forall (fun kv => PyStr.lower (fst kv) <> "retry-after")
                  (pre ++ post)) ->
  let err :=
    RateLimitError ("Rate limited. Retry after " +:+ hint +:+ " seconds")
                   429 None in
  (forall m e j p,
      arm_tokens w (token_calls w) = Ok token ->
      let req := ARMClient.request_for m e ("Bearer " +:+ token) j p in
      answers w req response ->
      fst (ARMClient._request m e j p w) = Raise err
      /\ sent (snd (ARMClient._request m e j p w)) = (sent w ++ [req])%list)
  /\ (forall m e j p beta,
      graph_tokens w (token_calls w) = Ok token ->
      let req := GraphClient.request_for m e ("Bearer " +:+ token) j p beta in
      answers w req response ->
      fst (GraphClient._request m e j p beta w) = Raise err
      /\ sent (snd (GraphClient._request m e j p beta w)) = (sent w ++ [req])%list)
  /\ (forall scope name justification duration tn ts w0 role,
      PIMOperations.get_azure_role (inl (PIMOperations.scope_str scope)) name w0
      = (Ok role, w) ->
      arm_tokens w (token_calls w) = Ok token ->
      let req :=
        ARMClient.activation (PIMOperations.scope_str scope) (AzureRole.id role)
          (uuid_source w (uuid_calls w)) justification duration tn ts
          ("Bearer " +:+ token) in
      answers w req response ->
      fst (PIMOperations.activate_azure_role scope name justification duration
             tn ts w0) = Raise err
      /\ sent (snd (PIMOperations.activate_azure_role scope name justification
                      duration tn ts w0)) = (sent w ++ [req])%list).
Proof.
  intros H429 Hhint err.
  assert (Hget : headers_get "Retry-After" "60" (headers response) = hint).
  { destruct Hhint as [[Habsent ->]|[pre [k [post [Hh [Hk Hrest]]]]]].
    - apply headers_get_absent. exact Habsent.
    - rewrite Hh. apply headers_get_once; assumption. }
  unfold answers. split; [|split].
  - intros m e j p Ht Ha. rewrite (arm_request_run _ _ _ _ _ _ Ht). simpl.
    rewrite Ha. split; [|reflexivity].
    rewrite (arm_interpret_429 _ _ H429), Hget. reflexivity.
  - intros m e j p beta Ht Ha.
    rewrite (graph_request_run _ _ _ _ _ _ _ Ht). simpl.
    rewrite Ha. split; [|reflexivity].
    rewrite (graph_interpret_429 _ _ H429), Hget. reflexivity.
  - intros scope name justification duration tn ts w0 role Hres Ht Ha.
    unfold ARMClient.activation in Ha.
    unfold PIMOperations.activate_azure_role, bind. rewrite Hres.
    unfold uuid4, ARMClient.activate_role.
    rewrite (arm_request_run _ _ _ _ (next_uuid w) token) by exact Ht.
    simpl. rewrite Ha. split; [|reflexivity].
    rewrite (arm_interpret_429 _ _ H429), Hget. reflexivity.
Qed.

Lemma rate_limit_surfaces_witness :
  let w0 :=
    Mock.world (Mock.rate_limiting_authority "/subscriptions/S1" Mock.roles) in
  let run :=
    PIMOperations.activate_azure_role (inl "/subscriptions/S1") "Contributor"
      "production fix" "PT1H" None None w0 in
  fst run = Raise (RateLimitError "Rate limited. Retry after 30 seconds" 429 None)
  /\ length (sent (snd run)) = 2%nat.
Proof.
  intros w0 run.
  pose (resolved :=
          PIMOperations.get_azure_role (inl "/subscriptions/S1") "Contributor" w0).
  pose (role :=
          AzureRole.mk
            "/subscriptions/S1/providers/Microsoft.Authorization/roleDefinitions/b24988ac"
            "b24988ac" "Microsoft.Authorization/roleDefinitions"
            [("roleName", JStr "Contributor")]).
  assert (Hres : resolved = (Ok role, snd resolved)).
  { assert (Hfst : fst resolved = Ok role) by (vm_compute; reflexivity).
    rewrite <- Hfst. apply surjective_pairing. }
  assert (Hhint :
            (Forall (fun kv => PyStr.lower (fst kv) <> "retry-after")
                    [("Content-Length", "0"); ("retry-after", "30")]
             /\ "30" = "60")
            \/ (exists pre k post,
                  [("Content-Length", "0"); ("retry-after", "30")]
                  = (pre ++ (k, "30") :: post)%list
                  /\ PyStr.lower k = "retry-after"
                  /\ Forall (fun kv => PyStr.lower (fst kv) <> "retry-after")
                            (pre ++ post))).
  { right. exists [("Content-Length", "0")], "retry-after", [].
    repeat split. repeat constructor. discriminate. }
  destruct (rate_limit_surfaces (snd resolved) "arm-token"
              (mkResponse 429 [("Content-Length", "0"); ("retry-after", "30")]
                 None "") "30" eq_refl Hhint)
    as [_ [_ H]].
  destruct (H (inl "/subscriptions/S1") "Contributor" "production fix" "PT1H"
              None None w0 role Hres) as [Hraise Hsent].
  - vm_compute. reflexivity.
  - vm_compute. reflexivity.
  - split; [exact Hraise|].
    fold run in Hsent. rewrite Hsent. vm_compute. reflexivity.
Defined.

End Clients.

(** ** Role resolution *)

Section Resolution.

(** Validation raises [ValidationError] only, which the resolver does
    not catch. *)
Lemma field_str_error (d : list (string * json)) (k : string) (e : exn) :
  field_str d k = Raise e -> is_RoleNotFoundError e = false.
Proof.
  unfold field_str. destruct (Json.lookup k d) as [[]|]; intros H;
    inversion H; reflexivity.
Qed.

Lemma field_opt_str_error (d : list (string * json)) (k : string) (e : exn) :
  field_opt_str d k = Raise e -> is_RoleNotFoundError e = false.
Proof.
  unfold field_opt_str. destruct (Json.lookup k d) as [[]|]; intros H;
    inversion H; reflexivity.
Qed.

Lemma field_dict_error (d : list (string * json)) (k : string) (e : exn) :
  field_dict d k = Raise e -> is_RoleNotFoundError e = false.
Proof.
  unfold field_dict. destruct (Json.lookup k d) as [[]|]; intros H;
    inversion H; reflexivity.
Qed.

Lemma field_bool_error (d : list (string * json)) (k : string) (b : bool)
    (e : exn) :
  field_bool d k b = Raise e -> is_RoleNotFoundError e = false.
Proof.
  unfold field_bool. destruct (Json.lookup k d) as [[| | n | s | |]|]; intros H;
    try (inversion H; reflexivity).
  - destruct n as [|[]|]; inversion H; reflexivity.
  - destruct (existsb _ _); [discriminate|].
    destruct (existsb _ _); [discriminate|]. inversion H; reflexivity.
Qed.

Lemma pbind_error {A B} (r : PyResult A) (k : A -> PyResult B) (e : exn) :
  pbind r k = Raise e ->
  r = Raise e \/ exists a, r = Ok a /\ k a = Raise e.
Proof. destruct r; simpl; intros H; [right; eauto | left; congruence]. Qed.

Ltac validation_error :=
  repeat match goal with
         | H : pbind _ _ = Raise _ |- _ =>
             apply pbind_error in H as [H | [? [_ H]]]
         | H : field_str _ _ = Raise _ |- _ => exact (field_str_error _ _ _ H)
         | H : field_opt_str _ _ = Raise _ |- _ =>
             exact (field_opt_str_error _ _ _ H)
         | H : field_dict _ _ = Raise _ |- _ => exact (field_dict_error _ _ _ H)
         | H : field_bool _ _ _ = Raise _ |- _ =>
             exact (field_bool_error _ _ _ _ H)
         | H : Ok _ = Raise _ |- _ => discriminate H
         | H : Raise _ = Raise _ |- _ => inversion H; reflexivity
         end.

Lemma azure_validate_error (obj : json) (e : exn) :
  AzureRole.model_validate obj = Raise e -> is_RoleNotFoundError e = false.
Proof. destruct obj; simpl; intros H; validation_error. Qed.

Lemma entra_validate_error (obj : json) (e : exn) :
  EntraRole.model_validate obj = Raise e -> is_RoleNotFoundError e = false.
Proof. destruct obj; simpl; intros H; validation_error. Qed.

(** The name lookup: one exchange, the first listed role or [None]. *)
Lemma arm_find_role_by_name_run (w : World) (scope name token : string)
    (r1 : Response) (items : list json) :
  arm_tokens w (token_calls w) = Ok token ->
  answers w (ARMClient.name_lookup scope name ("Bearer " +:+ token)) r1 ->
  lists r1 items ->
  ARMClient.find_role_by_name scope name w
  = (Ok (match items with [] => JNull | role :: _ => role end),
     exchanged (ARMClient.name_lookup scope name ("Bearer " +:+ token)) w).
Proof.
  intros Ht Ha [d [[Hs Hc] Hv]]. unfold answers, ARMClient.name_lookup in Ha.
  unfold ARMClient.find_role_by_name, bind.
  rewrite (arm_request_run _ _ _ _ _ _ Ht). simpl. rewrite Ha.
  rewrite (arm_interpret_200 _ _ _ Hs Hc).
  unfold lift, Json.get. rewrite Hv. simpl.
  destruct items; reflexivity.
Qed.

Lemma graph_find_role_by_name_run (w : World) (name token : string)
    (r1 : Response) (items : list json) :
  graph_tokens w (token_calls w) = Ok token ->
  answers w (GraphClient.name_lookup name ("Bearer " +:+ token)) r1 ->
  lists r1 items ->
  GraphClient.find_role_by_name name w
  = (Ok (match items with [] => JNull | role :: _ => role end),
     exchanged (GraphClient.name_lookup name ("Bearer " +:+ token)) w).
Proof.
  intros Ht Ha [d [[Hs Hc] Hv]]. unfold answers, GraphClient.name_lookup in Ha.
  unfold GraphClient.find_role_by_name, bind.
  rewrite (graph_request_run _ _ _ _ _ _ _ Ht). simpl. rewrite Ha.
  rewrite (graph_interpret_200 _ _ _ Hs Hc).
  unfold lift, Json.get. rewrite Hv. simpl.
  destruct items; reflexivity.
Qed.

(** The ID lookup: one exchange, the answer interpreted. *)
Lemma arm_get_role_definition_run (w : World) (scope role_id token : string)
    (r2 : Response) :
  arm_tokens w (token_calls w) = Ok token ->
  answers w (ARMClient.id_lookup scope role_id ("Bearer " +:+ token)) r2 ->
  ARMClient.get_role_definition scope role_id w
  = (ARMClient.interpret
       ("/" +:+ scope +:+ "/providers/Microsoft.Authorization/roleDefinitions/"
            +:+ role_id) r2,
     exchanged (ARMClient.id_lookup scope role_id ("Bearer " +:+ token)) w).
Proof.
  intros Ht Ha. unfold answers, ARMClient.id_lookup in Ha.
  unfold ARMClient.get_role_definition.
  rewrite (arm_request_run _ _ _ _ _ _ Ht). simpl. rewrite Ha. reflexivity.
Qed.

Lemma graph_get_role_definition_run (w : World) (role_id token : string)
    (r2 : Response) :
  graph_tokens w (token_calls w) = Ok token ->
  answers w (GraphClient.id_lookup role_id ("Bearer " +:+ token)) r2 ->
  GraphClient.get_role_definition role_id w
  = (GraphClient.interpret
       ("/roleManagement/directory/roleDefinitions/" +:+ role_id) r2,
     exchanged (GraphClient.id_lookup role_id ("Bearer " +:+ token)) w).
Proof.
  intros Ht Ha. unfold answers, GraphClient.id_lookup in Ha.
  unfold GraphClient.get_role_definition.
  rewrite (graph_request_run _ _ _ _ _ _ _ Ht). simpl. rewrite Ha. reflexivity.
Qed.

(** The resolver, when the name lookup has come back. *)
Lemma get_azure_role_after_name (scope : string + AzureScope.t) (name : string)
    (w w1 : World) (role_data : json) :
  ARMClient.find_role_by_name (PIMOperations.scope_str scope) name w
  = (Ok role_data, w1) ->
  PIMOperations.get_azure_role scope name w
  = if Json.truthy role_data then (AzureRole.model_validate role_data, w1)
    else
      match ARMClient.get_role_definition (PIMOperations.scope_str scope) name w1
      with
      | (Ok body, w2) => (AzureRole.model_validate body, w2)
      | (Raise e, w2) =>
          if is_RoleNotFoundError e
          then (Raise (RoleNotFoundError ("Role not found: " +:+ name)), w2)
          else (Raise e, w2)
      end.
Proof.
  intros H. unfold PIMOperations.get_azure_role, bind at 1. rewrite H.
  destruct (Json.truthy role_data); [reflexivity|].
  unfold bind, try_except, lift, ret, raise.
  destruct (ARMClient.get_role_definition _ name w1) as [[body|e] w2].
  - destruct (AzureRole.model_validate body) as [role|e] eqn:E; [reflexivity|].
    rewrite (azure_validate_error _ _ E). reflexivity.
  - destruct (is_RoleNotFoundError e); reflexivity.
Qed.

Lemma get_entra_role_after_name (name : string) (w w1 : World)
    (role_data : json) :
  GraphClient.find_role_by_name name w = (Ok role_data, w1) ->
  PIMOperations.get_entra_role name w
  = if Json.truthy role_data then (EntraRole.model_validate role_data, w1)
    else
      match GraphClient.get_role_definition name w1 with
      | (Ok body, w2) => (EntraRole.model_validate body, w2)
      | (Raise e, w2) =>
          if is_RoleNotFoundError e
          then (Raise (RoleNotFoundError ("Role not found: " +:+ name)), w2)
          else (Raise e, w2)
      end.
Proof.
  intros H. unfold PIMOperations.get_entra_role, bind at 1. rewrite H.
  destruct (Json.truthy role_data); [reflexivity|].
  unfold bind, try_except, lift, ret, raise.
  destruct (GraphClient.get_role_definition name w1) as [[body|e] w2].
  - destruct (EntraRole.model_validate body) as [role|e] eqn:E; [reflexivity|].
    rewrite (entra_validate_error _ _ E). reflexivity.
  - destruct (is_RoleNotFoundError e); reflexivity.
Qed.

(** A request leaves the earlier requests in place. *)
Lemma arm_request_sent (m e : string) (j : option json)
    (p : option (gmap string string)) (w : World) :
  exists l, sent (snd (ARMClient._request m e j p w)) = (sent w ++ l)%list.
Proof.
  destruct (arm_tokens w (token_calls w)) as [token|err] eqn:Ht.
  - rewrite (arm_request_run _ _ _ _ _ _ Ht). eexists [_]. reflexivity.
  - rewrite (arm_request_no_token _ _ _ _ _ _ Ht). exists [].
    simpl. rewrite app_nil_r. reflexivity.
Qed.

(** Whatever the backend answers, the name lookup is one exchange. *)
Lemma arm_find_role_by_name_world (w : World) (scope name token : string) :
  arm_tokens w (token_calls w) = Ok token ->
  snd (ARMClient.find_role_by_name scope name w)
  = exchanged (ARMClient.name_lookup scope name ("Bearer " +:+ token)) w.
Proof.
  intros Ht. unfold ARMClient.find_role_by_name, bind.
  rewrite (arm_request_run _ _ _ _ _ _ Ht). cbv zeta.
  destruct (backend w (sent w) _) as [response|msg]; [|reflexivity].
  destruct (ARMClient.interpret _ response) as [result|e]; [|reflexivity].
  unfold lift, ret. destruct (Json.get result "value" (JArr [])) as [roles|e];
    [|reflexivity].
  destruct (Json.truthy roles); reflexivity.
Qed.

(** The resolver's first request is the lookup by name, in every run in
    which a request is sent at all. *)
Lemma get_azure_role_first_request (scope : string + AzureScope.t)
    (name token : string) (w : World) :
  arm_tokens w (token_calls w) = Ok token ->
  exists rest,
    sent (snd (PIMOperations.get_azure_role scope name w))
    = (sent w
       ++ ARMClient.name_lookup (PIMOperations.scope_str scope) name
            ("Bearer " +:+ token) :: rest)%list.
Proof.
  intros Ht.
  pose proof (arm_find_role_by_name_world w (PIMOperations.scope_str scope)
                name token Ht) as Hw.
  destruct (ARMClient.find_role_by_name (PIMOperations.scope_str scope) name w)
    as [[role_data|e] w1] eqn:E; simpl in Hw; subst w1.
  - rewrite (get_azure_role_after_name _ _ _ _ _ E).
    destruct (Json.truthy role_data); [exists []; reflexivity|].
    destruct (arm_request_sent "GET"
                ("/" +:+ PIMOperations.scope_str scope
                     +:+ "/providers/Microsoft.Authorization/roleDefinitions/"
                     +:+ name)
                None None
                (exchanged (ARMClient.name_lookup (PIMOperations.scope_str scope)
                              name ("Bearer " +:+ token)) w))
      as [l Hl].
    exists l. unfold ARMClient.get_role_definition.
    destruct (ARMClient._request _ _ _ _ _) as [[body|e] w2]; simpl in Hl |- *.
    + rewrite Hl, <- app_assoc. reflexivity.
    + destruct (is_RoleNotFoundError e); simpl;
        rewrite Hl, <- app_assoc; reflexivity.
  - exists []. unfold PIMOperations.get_azure_role, bind. rewrite E. reflexivity.
Qed.

Lemma graph_request_no_token (m e : string) (j : option json)
    (p : option (gmap string string)) (beta : bool) (w : World) (err : exn) :
  graph_tokens w (token_calls w) = Raise err ->
  GraphClient._request m e j p beta w = (Raise err, next_token w).
Proof.
  intros Htoken.
  unfold GraphClient._request, GraphClient._get_client, bind, get_graph_token.
  rewrite Htoken. reflexivity.
Qed.

Lemma graph_request_sent (m e : string) (j : option json)
    (p : option (gmap string string)) (beta : bool) (w : World) :
  exists l, sent (snd (GraphClient._request m e j p beta w)) = (sent w ++ l)%list.
Proof.
  destruct (graph_tokens w (token_calls w)) as [token|err] eqn:Ht.
  - rewrite (graph_request_run _ _ _ _ _ _ _ Ht). eexists [_]. reflexivity.
  - rewrite (graph_request_no_token _ _ _ _ _ _ _ Ht). exists [].
    simpl. rewrite app_nil_r. reflexivity.
Qed.

Lemma graph_find_role_by_name_world (w : World) (name token : string) :
  graph_tokens w (token_calls w) = Ok token ->
  snd (GraphClient.find_role_by_name name w)
  = exchanged (GraphClient.name_lookup name ("Bearer " +:+ token)) w.
Proof.
  intros Ht. unfold GraphClient.find_role_by_name, bind.
  rewrite (graph_request_run _ _ _ _ _ _ _ Ht). cbv zeta.
  destruct (backend w (sent w) _) as [response|msg]; [|reflexivity].
  destruct (GraphClient.interpret _ response) as [result|e]; [|reflexivity].
  unfold lift, ret. destruct (Json.get result "value" (JArr [])) as [roles|e];
    [|reflexivity].
  destruct (Json.truthy roles); reflexivity.
Qed.

Lemma get_entra_role_first_request (name token : string) (w : World) :
  graph_tokens w (token_calls w) = Ok token ->
  exists rest,
    sent (snd (PIMOperations.get_entra_role name w))
    = (sent w ++ GraphClient.name_lookup name ("Bearer " +:+ token) :: rest)%list.
Proof.
  intros Ht.
  pose proof (graph_find_role_by_name_world w name token Ht) as Hw.
  destruct (GraphClient.find_role_by_name name w) as [[role_data|e] w1] eqn:E;
    simpl in Hw; subst w1.
  - rewrite (get_entra_role_after_name _ _ _ _ E).
    destruct (Json.truthy role_data); [exists []; reflexivity|].
    destruct (graph_request_sent "GET"
                ("/roleManagement/directory/roleDefinitions/" +:+ name)
                None None false
                (exchanged (GraphClient.name_lookup name ("Bearer " +:+ token)) w))
      as [l Hl].
    exists l. unfold GraphClient.get_role_definition.
    destruct (GraphClient._request _ _ _ _ _ _) as [[body|e] w2];
      simpl in Hl |- *.
    + rewrite Hl, <- app_assoc. reflexivity.
    + destruct (is_RoleNotFoundError e); simpl;
        rewrite Hl, <- app_assoc; reflexivity.
  - exists []. unfold PIMOperations.get_entra_role, bind. rewrite E. reflexivity.
Qed.

(** C1: both resolvers ask for the role by display name first.  When
    the listing comes back with a role, that role is the result and
    nothing else is sent: the input is not tried as an ID.  When the
    listing is empty the input is looked up as an ID, and the answer to
    that lookup is the result; when it is a 404 the resolver raises
    [RoleNotFoundError]. *)
Theorem resolution_order (w w1 : World) (name token : string)
    (q1 : Request) (r1 : Response) (items : list json) :
  answers w q1 r1 -> lists r1 items -> w1 = exchanged q1 w ->
  (forall scope,
      arm_tokens w (token_calls w) = Ok token ->
      q1 = ARMClient.name_lookup (PIMOperations.scope_str scope) name
             ("Bearer " +:+ token) ->
      (forall role rest,
          items = role :: rest -> Json.truthy role = true ->
          PIMOperations.get_azure_role scope name w
          = (AzureRole.model_validate role, w1)
          /\ sent w1 = (sent w ++ [q1])%list)
      /\ (forall token2 q2 r2,
          items = [] ->
          arm_tokens w1 (token_calls w1) = Ok token2 ->
          q2 = ARMClient.id_lookup (PIMOperations.scope_str scope) name
                 ("Bearer " +:+ token2) ->
          answers w1 q2 r2 ->
          (forall body,
              holds r2 body ->
              PIMOperations.get_azure_role scope name w
              = (AzureRole.model_validate body, exchanged q2 w1))
          /\ (status_code r2 = 404%Z ->
              PIMOperations.get_azure_role scope name w
              = (Raise (RoleNotFoundError ("Role not found: " +:+ name)),
                 exchanged q2 w1))))
  /\ (graph_tokens w (token_calls w) = Ok token ->
      q1 = GraphClient.name_lookup name ("Bearer " +:+ token) ->
      (forall role rest,
          items = role :: rest -> Json.truthy role = true ->
          PIMOperations.get_entra_role name w
          = (EntraRole.model_validate role, w1)
          /\ sent w1 = (sent w ++ [q1])%list)
      /\ (forall token2 q2 r2,
          items = [] ->
          graph_tokens w1 (token_calls w1) = Ok token2 ->
          q2 = GraphClient.id_lookup name ("Bearer " +:+ token2) ->
          answers w1 q2 r2 ->
          (forall body,
              holds r2 body ->
              PIMOperations.get_entra_role name w
              = (EntraRole.model_validate body, exchanged q2 w1))
          /\ (status_code r2 = 404%Z ->
              PIMOperations.get_entra_role name w
              = (Raise (RoleNotFoundError ("Role not found: " +:+ name)),
                 exchanged q2 w1)))).
Proof.
  intros Ha Hl Hw1. split.
  - intros scope Ht Hq1. subst q1 w1.
    pose proof (arm_find_role_by_name_run _ _ _ _ _ _ Ht Ha Hl) as Hname.
    split.
    + intros role rest Hi Htruthy. subst items.
      rewrite (get_azure_role_after_name _ _ _ _ _ Hname), Htruthy.
      split; reflexivity.
    + intros token2 q2 r2 Hi Ht2 Hq2 Ha2. subst items q2.
      rewrite (get_azure_role_after_name _ _ _ _ _ Hname). simpl.
      rewrite (arm_get_role_definition_run _ _ _ _ _ Ht2 Ha2).
      split.
      * intros body [Hs Hc]. rewrite (arm_interpret_200 _ _ _ Hs Hc).
        reflexivity.
      * intros H404. rewrite (arm_interpret_404 _ _ H404). reflexivity.
  - intros Ht Hq1. subst q1 w1.
    pose proof (graph_find_role_by_name_run _ _ _ _ _ Ht Ha Hl) as Hname.
    split.
    + intros role rest Hi Htruthy. subst items.
      rewrite (get_entra_role_after_name _ _ _ _ Hname), Htruthy.
      split; reflexivity.
    + intros token2 q2 r2 Hi Ht2 Hq2 Ha2. subst items q2.
      rewrite (get_entra_role_after_name _ _ _ _ Hname). simpl.
      rewrite (graph_get_role_definition_run _ _ _ _ Ht2 Ha2).
      split.
      * intros body [Hs Hc]. rewrite (graph_interpret_200 _ _ _ Hs Hc).
        reflexivity.
      * intros H404. rewrite (graph_interpret_404 _ _ H404). reflexivity.
Qed.

Lemma resolution_order_witness :
  let w := Mock.world (Mock.resource_authority "/subscriptions/S1" Mock.roles) in
  let contributor :=
    AzureRole.mk
      "/subscriptions/S1/providers/Microsoft.Authorization/roleDefinitions/b24988ac"
      "b24988ac" "Microsoft.Authorization/roleDefinitions"
      [("roleName", JStr "Contributor")] in
  PyStr.has_infix "Contributor" "x-Contributor-x" = true
  /\ fst (PIMOperations.get_azure_role (inl "/subscriptions/S1") "Contributor" w)
     = Ok contributor
  /\ length (sent (snd (PIMOperations.get_azure_role (inl "/subscriptions/S1")
                          "Contributor" w))) = 1%nat
  /\ fst (PIMOperations.get_azure_role (inl "/subscriptions/S1") "Nobody" w)
     = Raise (RoleNotFoundError "Role not found: Nobody")
  /\ fst (PIMOperations.get_entra_role "Global Reader"
            (Mock.world (Mock.directory_authority Mock.directory_roles)))
     = Ok (EntraRole.mk "f2ef992c" "Global Reader" None None true true).
Proof.
  intros w contributor.
  split; [reflexivity|].
  (* the name is found *)
  pose (q1 := ARMClient.name_lookup "/subscriptions/S1" "Contributor"
                "Bearer arm-token").
  pose (found :=
          [Mock.azure_role
             "/subscriptions/S1/providers/Microsoft.Authorization/roleDefinitions/b24988ac"
             "b24988ac" "Contributor"]).
  pose (r1 := mkResponse 200 [] (Some (JObj [("value", JArr found)])) "").
  assert (Ha1 : answers w q1 r1) by (vm_compute; reflexivity).
  assert (Hl1 : lists r1 found)
    by (eexists; split; [split; reflexivity | reflexivity]).
  destruct (resolution_order w (exchanged q1 w) "Contributor" "arm-token" q1 r1
              found Ha1 Hl1 eq_refl) as [Hazure _].
  destruct (Hazure (inl "/subscriptions/S1") eq_refl eq_refl) as [Hfound _].
  destruct (Hfound _ [] eq_refl eq_refl) as [Hrun Hsent].
  (* neither the name nor the ID is known *)
  pose (q1' := ARMClient.name_lookup "/subscriptions/S1" "Nobody"
                 "Bearer arm-token").
  pose (r1' := mkResponse 200 [] (Some (JObj [("value", JArr [])])) "").
  assert (Ha1' : answers w q1' r1') by (vm_compute; reflexivity).
  assert (Hl1' : lists r1' [])
    by (eexists; split; [split; reflexivity | reflexivity]).
  destruct (resolution_order w (exchanged q1' w) "Nobody" "arm-token" q1' r1'
              [] Ha1' Hl1' eq_refl) as [Hazure' _].
  destruct (Hazure' (inl "/subscriptions/S1") eq_refl eq_refl) as [_ Hmiss].
  destruct (Hmiss "arm-token"
              (ARMClient.id_lookup "/subscriptions/S1" "Nobody" "Bearer arm-token")
              (mkResponse 404 [] None "") eq_refl eq_refl eq_refl)
    as [_ Hnone]; [vm_compute; reflexivity|].
  (* the directory authority *)
  pose (wd := Mock.world (Mock.directory_authority Mock.directory_roles)).
  pose (qd := GraphClient.name_lookup "Global Reader" "Bearer graph-token").
  pose (foundd := [Mock.entra_role "f2ef992c" "Global Reader"]).
  pose (rd := mkResponse 200 [] (Some (JObj [("value", JArr foundd)])) "").
  assert (Had : answers wd qd rd) by (vm_compute; reflexivity).
  assert (Hld : lists rd foundd)
    by (eexists; split; [split; reflexivity | reflexivity]).
  destruct (resolution_order wd (exchanged qd wd) "Global Reader" "graph-token"
              qd rd foundd Had Hld eq_refl) as [_ Hentra].
  destruct (Hentra eq_refl eq_refl) as [Hfoundd _].
  destruct (Hfoundd _ [] eq_refl eq_refl) as [Hrund _].
  split; [rewrite Hrun; reflexivity|].
  split; [rewrite Hrun; reflexivity|].
  split; [rewrite (Hnone eq_refl); reflexivity|].
  fold wd. rewrite Hrund. reflexivity.
Defined.

End Resolution.

(** ** Activation and eligibility requests *)

Section Requests.

(** The payload of an activation, whatever the ticket arguments. *)
Lemma activate_role_payload_shape (role_definition_id justification
    duration : string) (tn ts : option string) :
  let payload :=
    ARMClient.activate_role_payload role_definition_id justification duration
      tn ts in
  Json.at_path ["properties"; "requestType"] payload = Some (JStr "SelfActivate")
  /\ Json.at_path ["properties"; "roleDefinitionId"] payload
     = Some (JStr role_definition_id)
  /\ Json.at_path ["properties"; "scheduleInfo"; "expiration"] payload
     = Some (JObj [("type", JStr "AfterDuration"); ("duration", JStr duration)]).
Proof.
  unfold ARMClient.activate_role_payload.
  destruct (truthy tn), (truthy ts); simpl; repeat split; reflexivity.
Qed.

(** Two draws in a row give different IDs when the generator does not
    repeat itself. *)
Lemma uuid4_draws_differ (w w1 w2 : World) (id1 id2 : string) :
  (forall i j, uuid_source w i = uuid_source w j -> i = j) ->
  uuid4 w = (Ok id1, w1) -> uuid4 w1 = (Ok id2, w2) -> id1 <> id2.
Proof.
  unfold uuid4. intros Hinj H1 H2. inversion H1; subst. inversion H2; subst.
  simpl. intros Heq. apply Hinj in Heq. lia.
Qed.

(** C5: once the role is resolved, [activate_azure_role] draws a new
    request ID and submits one request: a PUT to
    [.../roleAssignmentScheduleRequests/{requestId}] whose body has
    [requestType] [SelfActivate] and whose [scheduleInfo.expiration] is
    [{type: AfterDuration, duration: duration}]. *)
Theorem activation_request (scope : string + AzureScope.t)
    (name justification duration : string) (tn ts : option string)
    (w w1 : World) (role : AzureRole.t) (token request_id : string)
    (put : Request) :
  PIMOperations.get_azure_role (inl (PIMOperations.scope_str scope)) name w
  = (Ok role, w1) ->
  arm_tokens w1 (token_calls w1) = Ok token ->
  request_id = uuid_source w1 (uuid_calls w1) ->
  put = ARMClient.activation (PIMOperations.scope_str scope) (AzureRole.id role)
          request_id justification duration tn ts ("Bearer " +:+ token) ->
  let run :=
    PIMOperations.activate_azure_role scope name justification duration tn ts w in
  sent (snd run) = (sent w1 ++ [put])%list
  /\ uuid_calls (snd run) = S (uuid_calls w1)
  /\ method put = "PUT"
  /\ url put
     = "/" +:+ PIMOperations.scope_str scope
           +:+ "/providers/Microsoft.Authorization/roleAssignmentScheduleRequests/"
           +:+ request_id
  /\ exists payload,
       json_data put = Some payload
       /\ Json.at_path ["properties"; "requestType"] payload
          = Some (JStr "SelfActivate")
       /\ Json.at_path ["properties"; "scheduleInfo"; "expiration"] payload
          = Some (JObj [("type", JStr "AfterDuration");
                        ("duration", JStr duration)]).
Proof.
  intros Hres Ht Hid Hput run. subst request_id put.
  assert (Hrun :
            run = ARMClient.activate_role (PIMOperations.scope_str scope)
                    (AzureRole.id role) (uuid_source w1 (uuid_calls w1))
                    justification duration tn ts (next_uuid w1)).
  { unfold run, PIMOperations.activate_azure_role, bind. rewrite Hres.
    reflexivity. }
  rewrite Hrun. unfold ARMClient.activate_role.
  rewrite (arm_request_run _ _ _ _ (next_uuid w1) token) by exact Ht.
  split; [reflexivity|]. split; [reflexivity|]. split; [reflexivity|].
  split; [reflexivity|].
  eexists. split; [reflexivity|].
  pose proof (activate_role_payload_shape (AzureRole.id role) justification
                duration tn ts) as [H1 [_ H3]].
  split; [exact H1 | exact H3].
Qed.

Lemma activation_request_witness :
  let w := Mock.world (Mock.resource_authority "/subscriptions/S1" Mock.roles) in
  let run :=
    PIMOperations.activate_azure_role (inl "/subscriptions/S1") "Contributor"
      "production fix" "PT1H" None None w in
  fst run = Ok (JObj [("properties", JObj [("status", JStr "Provisioned")])])
  /\ exists lookup put payload,
       sent (snd run) = [lookup; put]
       /\ method put = "PUT"
       /\ url put
          = "//subscriptions/S1/providers/Microsoft.Authorization/roleAssignmentScheduleRequests/00000000-0000-4000-8000-000000000000"
       /\ json_data put = Some payload
       /\ Json.at_path ["properties"; "scheduleInfo"; "expiration"] payload
          = Some (JObj [("type", JStr "AfterDuration"); ("duration", JStr "PT1H")]).
Proof.
  intros w run.
  pose (resolved :=
          PIMOperations.get_azure_role (inl "/subscriptions/S1") "Contributor" w).
  pose (role :=
          AzureRole.mk
            "/subscriptions/S1/providers/Microsoft.Authorization/roleDefinitions/b24988ac"
            "b24988ac" "Microsoft.Authorization/roleDefinitions"
            [("roleName", JStr "Contributor")]).
  assert (Hres : resolved = (Ok role, snd resolved)).
  { assert (Hfst : fst resolved = Ok role) by (vm_compute; reflexivity).
    rewrite <- Hfst. apply surjective_pairing. }
  destruct (activation_request (inl "/subscriptions/S1") "Contributor"
              "production fix" "PT1H" None None w (snd resolved) role
              "arm-token" _ _ Hres eq_refl eq_refl eq_refl)
    as [Hsent [_ [Hm [Hu [payload [Hj [_ He]]]]]]].
  fold run in Hsent.
  split; [vm_compute; reflexivity|].
  match type of Hsent with
  | _ = (_ ++ [?p])%list =>
      exists (ARMClient.name_lookup "/subscriptions/S1" "Contributor"
                "Bearer arm-token"), p, payload
  end.
  split; [rewrite Hsent; vm_compute; reflexivity|].
  split; [exact Hm|]. split; [|split; [exact Hj | exact He]].
  rewrite Hu. vm_compute. reflexivity.
Defined.

(** The expiration object of an eligibility request holds the type, a
    duration when a non-empty one was passed, an end time when a
    non-empty one was passed. *)
Lemma expiration_dict_shape (ty : string) (d e : option string) :
  ARMClient.expiration_dict ty d e
  = ([("type", JStr ty)]
     ++ (if truthy d then [("duration", JStr (default "" d))] else [])
     ++ (if truthy e then [("endDateTime", JStr (default "" e))] else []))%list.
Proof.
  unfold ARMClient.expiration_dict.
  destruct (truthy d), (truthy e); reflexivity.
Qed.

Lemma eligible_assignment_payload_shape (principal_id role_definition_id
    justification : string) (start : option string) (ty : string)
    (d e : option string) :
  Json.at_path ["properties"; "scheduleInfo"; "expiration"]
    (ARMClient.eligible_assignment_payload principal_id role_definition_id
       justification start ty d e)
  = Some (JObj (ARMClient.expiration_dict ty d e)).
Proof.
  unfold ARMClient.eligible_assignment_payload.
  destruct (truthy start); reflexivity.
Qed.

(** C4, as stated, fails: an expiration of kind [afterDuration] without
    a duration, and one of kind [afterDateTime] without an end time, are
    constructed; an eligibility request of kind [AfterDuration] without
    a duration is submitted, with an expiration object that holds the
    type alone, and the call returns what the backend answers. *)
Lemma schedule_invariant_counterexample :
  ExpirationPattern.new (Some "afterDuration") None None
  = Ok (ExpirationPattern.mk "afterDuration" None None)
  /\ ExpirationPattern.new (Some "afterDateTime") None None
     = Ok (ExpirationPattern.mk "afterDateTime" None None)
  /\ let run :=
       ARMClient.create_eligible_assignment "/subscriptions/S1" "u1" "role-1"
         "request-1" "" None "AfterDuration" None None
         (Mock.world (Mock.resource_authority "/subscriptions/S1" Mock.roles)) in
     fst run = Ok (JObj [("properties", JObj [("status", JStr "Provisioned")])])
     /\ (json_data <$> sent (snd run))
        = [Some (JObj [("properties",
             JObj [("requestType", JStr "AdminAssign");
                   ("principalId", JStr "u1");
                   ("roleDefinitionId", JStr "role-1");
                   ("justification", JStr "");
                   ("scheduleInfo",
                    JObj [("expiration",
                           JObj [("type", JStr "AfterDuration")])])])])].
Proof. vm_compute. repeat split. Qed.

(** C4 (amended): neither step checks the kind against the duration or
    the end time.  [ExpirationPattern] accepts every combination of its
    three fields.  [create_eligible_assignment] submits one PUT whatever
    it is given; the expiration object holds the type, a duration
    exactly when a non-empty duration was passed and an end time exactly
    when a non-empty end time was passed; the call returns the
    interpretation of the backend's answer. *)
Theorem schedule_unchecked :
  (forall type duration endDateTime,
      ExpirationPattern.new type duration endDateTime
      = Ok (ExpirationPattern.mk (default "noExpiration" type) duration
              endDateTime))
  /\ (forall w token scope principal_id role_definition_id request_id
        justification start ty d e,
      arm_tokens w (token_calls w) = Ok token ->
      exists put payload,
        let endpoint :=
          "/" +:+ scope
              +:+ "/providers/Microsoft.Authorization/roleEligibilityScheduleRequests/"
              +:+ request_id in
        let run :=
          ARMClient.create_eligible_assignment scope principal_id
            role_definition_id request_id justification start ty d e w in
        sent (snd run) = (sent w ++ [put])%list
        /\ method put = "PUT" /\ url put = endpoint
        /\ json_data put = Some payload
        /\ Json.at_path ["properties"; "scheduleInfo"; "expiration"] payload
           = Some (JObj ([("type", JStr ty)]
                         ++ (if truthy d
                             then [("duration", JStr (default "" d))] else [])
                         ++ (if truthy e
                             then [("endDateTime", JStr (default "" e))]
                             else []))%list)
        /\ fst run
           = match backend w (sent w) put with
             | Responds response => ARMClient.interpret endpoint response
             | HTTPError msg =>
                 Raise (APIError ("HTTP request failed: " +:+ msg) 0 None)
             end).
Proof.
  split; [reflexivity|].
  intros w token scope principal_id role_definition_id request_id justification
    start ty d e Ht.
  eexists _, _. cbv zeta. unfold ARMClient.create_eligible_assignment.
  rewrite (arm_request_run _ _ _ _ _ _ Ht). cbv zeta.
  split; [reflexivity|]. split; [reflexivity|]. split; [reflexivity|].
  split; [reflexivity|]. split; [|reflexivity].
  rewrite eligible_assignment_payload_shape, expiration_dict_shape.
  reflexivity.
Qed.

Lemma schedule_unchecked_witness :
  exists put payload,
    sent (snd (ARMClient.create_eligible_assignment "/subscriptions/S1" "u1"
                 "role-1" "request-1" "" None "AfterDateTime" None None
                 (Mock.always 400 [] None))) = [put]
    /\ json_data put = Some payload
    /\ Json.at_path ["properties"; "scheduleInfo"; "expiration"] payload
       = Some (JObj [("type", JStr "AfterDateTime")]).
Proof.
  destruct schedule_unchecked as [_ H].
  destruct (H (Mock.always 400 [] None) "arm-token" "/subscriptions/S1" "u1"
              "role-1" "request-1" "" None "AfterDateTime" None None eq_refl)
    as [put [payload [Hsent [_ [_ [Hj [He _]]]]]]].
  exists put, payload. split; [exact Hsent|]. split; [exact Hj | exact He].
Defined.

End Requests.

(** ** Token providers *)

Section Providers.

Import PIMAuth.


(** Building the MSAL provider succeeds when there is no cache file. *)
Lemma msal_new_without_cache (config : PIMConfig.t) (w : AuthWorld) :
  exists_result (oracle w) (calls w) = false ->
  fst (MSAL.new config w) = Ok (MSALTokenProvider config).
Proof.
  intros H. unfold MSAL.new, MSAL._load_cache, bind, call_ok, call. simpl.
  rewrite H. reflexivity.
Qed.

(** Building the MSAL provider is loading the cache: it gives the
    provider for that configuration unless the load raises. *)
Lemma msal_new_run (config : PIMConfig.t) (w : AuthWorld) :
  MSAL.new config w
  = match MSAL._load_cache config w with
    | (Ok _, w') =>
        (Ok (MSALTokenProvider config),
         mkAuthWorld (oracle w') (environ w') (calls w') None)
    | (Raise e, w') => (Raise e, w')
    end.
Proof.
  unfold MSAL.new, bind.
  destruct (MSAL._load_cache config w) as [[[]|e] w']; reflexivity.
Qed.

Lemma msal_new_loaded (config : PIMConfig.t) (w : AuthWorld) :
  fst (MSAL._load_cache config w) = Ok tt ->
  fst (MSAL.new config w) = Ok (MSALTokenProvider config).
Proof.
  intros H. rewrite msal_new_run.
  destruct (MSAL._load_cache config w) as [[[]|e] w']; [reflexivity|].
  discriminate H.
Qed.

(** *** Token reuse *)

Lemma acquisitions_called (c : AuthCall) (w : AuthWorld) :
  acquisitions (called c w)
  = (acquisitions w + if is_acquisition c then 1 else 0)%nat.
Proof.
  unfold acquisitions, called. simpl.
  rewrite List.filter_app, List.length_app. simpl.
  destruct (is_acquisition c); reflexivity.
Qed.

(** The host CLI is run once by every call of its provider. *)
Lemma azure_cli_calls (scopes : list string) (w : AuthWorld) :
  snd (AzureCli.get_token scopes w)
  = called (Run ["az"; "account"; "get-access-token"; "--resource";
                 resource_of scopes; "--query"; "accessToken"; "-o"; "tsv"]) w.
Proof.
  unfold AzureCli.get_token, try_except, subprocess_run, py_strip, call_ok,
    call, called, bind, ret, raise.
  destruct (run_result (oracle w) (calls w) _) as [rc out err| | |e]; simpl;
    try reflexivity.
  - destruct (rc =? 0)%Z; simpl; [|reflexivity].
    destruct (truthy_str (str_strip (oracle w) out)); reflexivity.
  - destruct (is_CalledProcessError e || is_FileNotFoundError e); simpl;
      [|reflexivity].
    destruct (is_CalledProcessError e); reflexivity.
Qed.

(** The metadata endpoint is asked once by every call of its provider. *)
Lemma managed_identity_calls (client_id : option string) (scopes : list string)
    (w : AuthWorld) :
  exists endpoint params headers,
    snd (ManagedIdentity.get_token client_id scopes w)
    = called (HttpGet endpoint params headers) w.
Proof.
  unfold ManagedIdentity.get_token, environ_get, call_ok, call, called, lift,
    bind, ret, raise.
  do 3 eexists.
  destruct (http_get_result (oracle w) (calls w) _) as [response|msg];
    [|reflexivity].
  destruct (ManagedIdentity.is_success response); simpl; [|reflexivity].
  destruct (response_json response) as [[]|]; simpl; try reflexivity.
  destruct (Json.lookup "access_token" d); reflexivity.
Qed.


Lemma save_cache_extends (config : PIMConfig.t) (w : AuthWorld) :
  exists rest, calls (snd (MSAL._save_cache config w)) = (calls w ++ rest)%list.
Proof.
  unfold MSAL._save_cache, try_except, call_result, call_ok, call, bind, ret.
  destruct (mkdir_result (oracle w) (calls w)) as [[]|e]; simpl;
    [|eexists; reflexivity].
  destruct (write_text_result (oracle w) _) as [[]|e]; simpl.
  - destruct (chmod_result (oracle w) _) as [[]|e]; simpl.
    + rewrite <- !app_assoc. eexists. reflexivity.
    + destruct (is_OSError e); simpl; rewrite <- !app_assoc; eexists;
        reflexivity.
  - destruct (is_OSError e); simpl; rewrite <- !app_assoc; eexists;
      reflexivity.
Qed.

(** A fresh MSAL provider without a cached account builds its
    application from the configuration and asks for a token as that
    application does: for the client with a secret, interactively
    without one. *)
Lemma msal_fresh_call (config : PIMConfig.t) (scopes : list string)
    (w : AuthWorld) :
  msal_app w = None ->
  get_accounts_result (oracle w) (calls w) = [] ->
  exists rest,
    calls (snd (MSAL.get_token config scopes w))
    = (calls w
       ++ GetAccounts
          :: (if truthy (PIMConfig.client_secret config)
              then AcquireTokenForClient scopes
              else AcquireTokenInteractive scopes) :: rest)%list.
Proof.
  intros Happ Hacc.
  unfold MSAL.get_token, bind.
  unfold MSAL._get_app at 1. rewrite Happ.
  unfold MSAL.silent, bind, call_ok, call at 1.
  cbn [oracle calls environ msal_app]. rewrite Hacc. unfold ret at 1.
  set (c := if truthy (PIMConfig.client_secret config)
            then AcquireTokenForClient scopes
            else AcquireTokenInteractive scopes).
  set (w1 := mkAuthWorld (oracle w) (environ w) (calls w ++ [GetAccounts])
               (Some (if truthy (PIMConfig.client_secret config)
                      then ConfidentialClientApplication
                      else PublicClientApplication))).
  assert (Hrun :
            match (if truthy (PIMConfig.client_secret config)
                   then ConfidentialClientApplication
                   else PublicClientApplication) with
            | ConfidentialClientApplication =>
                MSAL.acquire (AcquireTokenForClient scopes)
            | PublicClientApplication =>
                MSAL.acquire (AcquireTokenInteractive scopes)
            end w1
            = (Ok (acquire_result (oracle w1) (calls w1) c), called c w1)).
  { unfold c. destruct (truthy (PIMConfig.client_secret config)); reflexivity. }
  rewrite Hrun.
  assert (Hcalled : calls (called c w1)
                    = (calls w ++ [GetAccounts; c])%list).
  { unfold called, w1. cbn [calls]. rewrite <- app_assoc. reflexivity. }
  destruct (has_access_token (acquire_result (oracle w1) (calls w1) c));
    cbn [negb].
  - destruct (save_cache_extends config (called c w1)) as [rest Hrest].
    destruct (MSAL._save_cache config (called c w1)) as [[[]|e] w2];
      cbn [snd] in Hrest; unfold ret; cbn [snd]; rewrite Hrest, Hcalled;
      rewrite <- app_assoc; exists rest; reflexivity.
  - unfold py_lower, raise.
    match goal with
    | |- context [if ?b then _ else _] => destruct b
    end; cbn [snd]; rewrite Hcalled; exists []; reflexivity.
Qed.

(** C6, the code at the failing input: no identity marker, no client
    secret, and an [az] that is there and cannot be executed.  The
    probe raises [PermissionError], which is none of the three classes
    the [except] names, and [_auto_select_provider], and with it
    [PIMAuth(config)], raises it after the one call, where the claim
    says the interactive provider.  With an [az] that is missing, a
    [FileNotFoundError], the interactive provider is what is
    selected. *)
Lemma provider_probe_error_escapes :
  let denied :=
    PyException PermissionError "[Errno 13] Permission denied: 'az'" in
  let config := MockAuth.config None in
  let run := _auto_select_provider config MockAuth.locked_cli in
  identity_markers MockAuth.locked_cli = false
  /\ truthy (PIMConfig.client_secret config) = false
  /\ fst run = Raise denied
  /\ calls (snd run) = [Run ["az"; "account"; "show"]]
  /\ fst (PIMAuth.new config None MockAuth.locked_cli) = Raise denied
  /\ fst (_auto_select_provider config
            (MockAuth.desktop (Ok tt) (Ok tt) (Ok tt)))
     = Ok (MSALTokenProvider config).
Proof. vm_compute. repeat split. Qed.



(** C7, as stated, fails: with the CLI provider and with the
    managed-identity provider, two consecutive calls that both return
    the token make two acquisitions. *)
Lemma token_reuse_counterexample :
  let cli := PIMAuth.mk (MockAuth.config None) AzureCliTokenProvider ∅ in
  let first := get_arm_token cli MockAuth.cli_host in
  let second := get_arm_token cli (snd first) in
  let managed :=
    PIMAuth.mk (MockAuth.config None) (ManagedIdentityTokenProvider None) ∅ in
  let first' := get_graph_token managed MockAuth.managed_host in
  let second' := get_graph_token managed (snd first') in
  (fst first = Ok "tok" /\ fst second = Ok "tok"
   /\ acquisitions (snd second) = 2%nat)
  /\ (fst first' = Ok "tok" /\ fst second' = Ok "tok"
      /\ acquisitions (snd second') = 2%nat).
Proof. vm_compute. repeat split. Qed.

(** C7 (amended): [get_graph_token] and [get_arm_token] hand every call
    to the provider.  The MSAL provider, when MSAL knows an account and
    its silent acquisition yields an access token, returns that token
    and makes no acquisition and no cache write.  The CLI provider and
    the managed-identity provider make one acquisition in every call. *)
Theorem token_reuse :
  (forall self,
      get_graph_token self
      = provider_get_token (_provider self) (PIMConfig.scopes_graph (config self))
      /\ get_arm_token self
         = provider_get_token (_provider self) (PIMConfig.scopes_arm (config self)))
  /\ (forall config scopes w account others result,
      get_accounts_result (oracle w) (calls w) = account :: others ->
      acquire_result (oracle w) (calls w ++ [GetAccounts])
                     (AcquireTokenSilent scopes account) = result ->
      has_access_token result = true ->
      let run := provider_get_token (MSALTokenProvider config) scopes w in
      fst run = Ok (access_token result)
      /\ calls (snd run)
         = (calls w ++ [GetAccounts; AcquireTokenSilent scopes account])%list
      /\ acquisitions (snd run) = acquisitions w)
  /\ (forall scopes w,
      acquisitions (snd (provider_get_token AzureCliTokenProvider scopes w))
      = S (acquisitions w))
  /\ (forall client_id scopes w,
      acquisitions
        (snd (provider_get_token (ManagedIdentityTokenProvider client_id) scopes w))
      = S (acquisitions w)).
Proof.
  split; [|split; [|split]].
  - intros self. split; reflexivity.
  - intros config scopes w account others result Hacc Hres Htok run.
    assert (Hrun :
              fst run = Ok (access_token result)
              /\ calls (snd run)
                 = (calls w ++ [GetAccounts; AcquireTokenSilent scopes account])%list).
    { unfold run, provider_get_token, MSAL.get_token, MSAL._get_app, MSAL.silent,
        MSAL.acquire, call_ok, call, bind, ret.
      destruct (msal_app w) eqn:Eapp; simpl; rewrite Hacc; simpl;
        rewrite Hres, Htok; simpl; rewrite <- app_assoc; split; reflexivity. }
    destruct Hrun as [Hfst Hcalls].
    split; [exact Hfst|]. split; [exact Hcalls|].
    unfold acquisitions. rewrite Hcalls.
    rewrite List.filter_app. simpl. rewrite app_nil_r. reflexivity.
  - intros scopes w. simpl. rewrite azure_cli_calls, acquisitions_called.
    simpl. lia.
  - intros client_id scopes w. simpl.
    destruct (managed_identity_calls client_id scopes w) as [e [p [h H]]].
    rewrite H, acquisitions_called. simpl. lia.
Qed.

Lemma token_reuse_witness :
  let run :=
    get_arm_token
      (PIMAuth.mk (MockAuth.config None)
                  (MSALTokenProvider (MockAuth.config None)) ∅)
      MockAuth.signed_in in
  fst run = Ok "tok" /\ acquisitions (snd run) = 0%nat.
Proof.
  destruct token_reuse as [_ [H _]].
  destruct (H (MockAuth.config None) ["https://management.azure.com/.default"]
              MockAuth.signed_in "user@example.org" [] MockAuth.token_result
              eq_refl eq_refl eq_refl) as [Hfst [_ Hacq]].
  split; [exact Hfst | exact Hacq].
Defined.

(** *** The persistent cache *)

(** Errors of [write_text] and [chmod] that are [OSError]s stay inside
    [_save_cache] ... *)
Lemma save_cache_absorbs (config : PIMConfig.t) (w : AuthWorld) :
  mkdir_result (oracle w) (calls w) = Ok tt ->
  (forall h e, write_text_result (oracle w) h = Raise e -> is_OSError e = true) ->
  (forall h e, chmod_result (oracle w) h = Raise e -> is_OSError e = true) ->
  fst (MSAL._save_cache config w) = Ok tt.
Proof.
  intros Hmk Hwr Hch.
  unfold MSAL._save_cache, try_except, call_result, call_ok, call, bind, ret.
  rewrite Hmk. simpl.
  destruct (write_text_result (oracle w) _) as [[]|e] eqn:Ew.
  - destruct (chmod_result (oracle w) _) as [[]|e] eqn:Ec; [reflexivity|].
    rewrite (Hch _ _ Ec). reflexivity.
  - rewrite (Hwr _ _ Ew). reflexivity.
Qed.

(** ... and an error of [mkdir] does not: it stands before the [try]. *)
Lemma save_cache_mkdir (config : PIMConfig.t) (w : AuthWorld) (e : exn) :
  mkdir_result (oracle w) (calls w) = Raise e ->
  fst (MSAL._save_cache config w) = Raise e.
Proof.
  intros Hmk. unfold MSAL._save_cache, call_result, call, bind.
  rewrite Hmk. reflexivity.
Qed.

(** A cache file that cannot be read, or does not decode as JSON, is
    ignored when the provider is built. *)
Lemma load_cache_absorbs (config : PIMConfig.t) (w : AuthWorld) :
  (forall h e, read_text_result (oracle w) h = Raise e -> is_OSError e = true) ->
  (forall h s e, deserialize_result (oracle w) h s = Raise e ->
                 is_JSONDecodeError e = true) ->
  fst (MSAL._load_cache config w) = Ok tt.
Proof.
  intros Hrd Hde.
  unfold MSAL._load_cache, try_except, call_result, call_ok, call, bind, ret.
  destruct (exists_result (oracle w) (calls w)); [|reflexivity]. simpl.
  destruct (read_text_result (oracle w) _) as [state|e] eqn:Er.
  - destruct (deserialize_result (oracle w) _ state) as [[]|e] eqn:Ed;
      [reflexivity|].
    rewrite (Hde _ _ _ Ed). reflexivity.
  - rewrite (Hrd _ _ Er), orb_true_r. reflexivity.
Qed.

(** A cache file whose bytes do not decode as text is not ignored:
    [read_text] raises [UnicodeDecodeError], which is neither of the two
    classes the [except] names. *)
Lemma load_cache_undecodable :
  fst (MSAL.new (MockAuth.config None) MockAuth.undecodable_cache)
  = Raise (PyException UnicodeDecodeError "invalid start byte").
Proof. vm_compute. reflexivity. Qed.

(** C9, the code at the failing input: the interactive acquisition
    returns a token, the cache directory cannot be created, and
    [get_token] raises the [PermissionError] of [mkdir] instead of
    returning the token.  With the same surroundings and a failing
    [write_text] the token is returned. *)
Lemma cache_write_failure_aborts :
  let denied := Raise (PyException PermissionError "/home/u/.azure-pim") in
  let scopes := ["https://management.azure.com/.default"] in
  let run :=
    MSAL.get_token (MockAuth.config None) scopes
      (MockAuth.desktop denied (Ok tt) (Ok tt)) in
  fst run = Raise (PyException PermissionError "/home/u/.azure-pim")
  /\ calls (snd run)
     = [GetAccounts; AcquireTokenInteractive scopes;
        MkdirParent "/home/u/.azure-pim/token_cache"]
  /\ has_access_token MockAuth.token_result = true
  /\ fst (MSAL.get_token (MockAuth.config None) scopes
            (MockAuth.desktop (Ok tt) (Raise (PyException OSError "disk full"))
               (Ok tt)))
     = Ok "tok".
Proof. vm_compute. repeat split. Qed.

End Providers.

(** * Further properties of the package *)

(** ** AzureScope: what every parse gives *)

Section ScopeMore.

Import AzureScope.

(** No token of a split string holds the separator. *)
Lemma split_tokens_clean (sep : ascii) (s : string) :
  Forall (fun tk => PyStr.contains sep tk = false) (PyStr.split sep s).
Proof.
  induction s as [|c s IH]; simpl.
  - repeat constructor.
  - destruct (Ascii.eqb c sep) eqn:E.
    + constructor; [reflexivity | exact IH].
    + destruct (PyStr.split sep s) as [|h t].
      * repeat constructor. simpl. rewrite E. reflexivity.
      * inversion IH; subst. constructor; [|assumption].
        simpl. rewrite E. assumption.
Qed.

Lemma item_clean (parts : list string) (i : nat) :
  Forall (fun tk => PyStr.contains "/" tk = false) parts ->
  PyStr.contains "/" (item parts i) = false.
Proof.
  intros H. unfold item. destruct (lt_dec i (length parts)) as [Hi|Hi].
  - rewrite Forall_forall in H. apply H. apply list_elem_of_In.
    apply nth_In. exact Hi.
  - rewrite nth_overflow by lia. reflexivity.
Qed.

Lemma body_keeps_ok (parts : list string) (v : vars) :
  Forall (fun tk => PyStr.contains "/" tk = false) parts ->
  vars_ok v -> vars_ok (body parts v).
Proof.
  intros Hp (H1 & H2 & H3 & H4 & H5 & H6). unfold body.
  repeat match goal with |- context [if ?b then _ else _] => destruct b end;
    unfold vars_ok; simpl; rewrite ?item_clean by exact Hp; auto 10.
Qed.

Lemma loop_keeps_ok (fuel : nat) (parts : list string) (v : vars) :
  Forall (fun tk => PyStr.contains "/" tk = false) parts ->
  vars_ok v -> vars_ok (loop fuel parts v).
Proof.
  intros Hp. revert v. induction fuel as [|fuel IH]; intros v Hv; simpl.
  - exact Hv.
  - destruct (v_i v <? length parts)%nat; [|exact Hv].
    apply IH. apply body_keeps_ok; assumption.
Qed.

(** X1: whatever the input, the fields of the parsed scope hold no
    slash, and provider, resource type and resource name are set
    together or not at all. *)
Theorem parsed_scope_well_formed (scope : string) (sc : t) :
  from_string scope = Ok sc ->
  slash_free sc = true /\ triple_together sc = true.
Proof.
  unfold from_string, new. intros H. inversion H as [Hsc]. clear H.
  pose proof (loop_keeps_ok
                (length (PyStr.split "/" (PyStr.strip "/" scope)))
                (PyStr.split "/" (PyStr.strip "/" scope))
                (mkvars 0 "" None None None None)
                (split_tokens_clean "/" _)) as Hok.
  destruct Hok as (H1 & H2 & H3 & H4 & H5 & H6).
  { unfold vars_ok. simpl. auto 10. }
  unfold slash_free, triple_together. simpl.
  rewrite H1, H2, H3, H4, H5. split; [reflexivity|].
  destruct (v_provider _), (v_resource_type _), (v_resource_name _);
    try reflexivity; contradiction.
Qed.

Lemma parsed_scope_well_formed_witness :
  exists sc,
    from_string "/subscriptions/S1/providers/Microsoft.Compute" = Ok sc
    /\ slash_free sc = true /\ triple_together sc = true.
Proof.
  eexists. split; [vm_compute; reflexivity|].
  apply (parsed_scope_well_formed
           "/subscriptions/S1/providers/Microsoft.Compute").
  vm_compute. reflexivity.
Defined.

(** *** Slashes around a path *)

Lemma rstrip_append_sep (ch : ascii) (s : string) :
  PyStr.rstrip ch (s +:+ String ch "") = PyStr.rstrip ch s.
Proof.
  induction s as [|c s IH].
  - rewrite append_nil_l. simpl. rewrite Ascii.eqb_refl. reflexivity.
  - rewrite append_cons. simpl. rewrite IH. reflexivity.
Qed.

Lemma lstrip_append_sep (ch : ascii) (s : string) :
  PyStr.lstrip ch (s +:+ String ch "")
  = match PyStr.lstrip ch s with
    | EmptyString => EmptyString
    | rest => rest +:+ String ch ""
    end.
Proof.
  induction s as [|c s IH].
  - rewrite append_nil_l. simpl. rewrite Ascii.eqb_refl. reflexivity.
  - rewrite append_cons. simpl. destruct (Ascii.eqb c ch); [exact IH|].
    reflexivity.
Qed.

Lemma strip_append_sep (ch : ascii) (s : string) :
  PyStr.strip ch (s +:+ String ch "") = PyStr.strip ch s.
Proof.
  unfold PyStr.strip. rewrite lstrip_append_sep.
  destruct (PyStr.lstrip ch s) as [|c rest] eqn:E; [reflexivity|].
  apply rstrip_append_sep.
Qed.

(** X2: a slash put before a path, or after it, does not change what
    the path parses to. *)
Theorem parse_ignores_outer_slashes (scope : string) :
  from_string ("/" +:+ scope) = from_string scope
  /\ from_string (scope +:+ "/") = from_string scope.
Proof.
  split.
  - unfold from_string. reflexivity.
  - unfold from_string.
    change (scope +:+ "/") with (scope +:+ String "/" "").
    rewrite strip_append_sep. reflexivity.
Qed.

(** *** Segment names in any letter case *)

Lemma lower_keeps_slash (s : string) :
  PyStr.contains "/" (PyStr.lower s) = PyStr.contains "/" s.
Proof.
  induction s as [|c s IH]; [reflexivity|]. simpl. rewrite IH. f_equal.
  destruct c as [[] [] [] [] [] [] [] []]; reflexivity.
Qed.

(** A token that lowers to one of the segment names can stand in a
    path. *)
Lemma keyword_token_ok (k name : string) :
  PyStr.lower k = name -> token_ok name = true -> token_ok k = true.
Proof.
  intros Hk Hn. unfold token_ok in *. rewrite <- lower_keeps_slash, Hk.
  apply andb_true_iff in Hn as [Hne Hs]. rewrite Hs, andb_true_r.
  destruct k; [subst name; discriminate Hne | reflexivity].
Qed.

Lemma loop_step (fuel : nat) (parts : list string) (v : vars) :
  (v_i v < length parts)%nat ->
  loop (S fuel) parts v = loop fuel parts (body parts v).
Proof. intros H. simpl. apply Nat.ltb_lt in H. rewrite H. reflexivity. Qed.

Lemma body_subscriptions (parts : list string) (v : vars) :
  PyStr.lower (item parts (v_i v)) = "subscriptions" ->
  (v_i v + 1 < length parts)%nat ->
  body parts v
  = mkvars (v_i v + 2) (item parts (v_i v + 1)) (v_resource_group v)
           (v_provider v) (v_resource_type v) (v_resource_name v).
Proof.
  intros Hk Hi. unfold body. rewrite Hk. apply Nat.ltb_lt in Hi. rewrite Hi.
  reflexivity.
Qed.

Lemma body_resourcegroups (parts : list string) (v : vars) :
  PyStr.lower (item parts (v_i v)) = "resourcegroups" ->
  (v_i v + 1 < length parts)%nat ->
  body parts v
  = mkvars (v_i v + 2) (v_subscription_id v) (Some (item parts (v_i v + 1)))
           (v_provider v) (v_resource_type v) (v_resource_name v).
Proof.
  intros Hk Hi. unfold body. rewrite Hk. apply Nat.ltb_lt in Hi. rewrite Hi.
  reflexivity.
Qed.

Lemma body_providers (parts : list string) (v : vars) :
  PyStr.lower (item parts (v_i v)) = "providers" ->
  (v_i v + 3 < length parts)%nat ->
  body parts v
  = mkvars (v_i v + 4) (v_subscription_id v) (v_resource_group v)
           (Some (item parts (v_i v + 1))) (Some (item parts (v_i v + 2)))
           (Some (item parts (v_i v + 3))).
Proof.
  intros Hk Hi. unfold body. rewrite Hk. apply Nat.ltb_lt in Hi. rewrite Hi.
  reflexivity.
Qed.

Ltac loop_side := first [ cbn; assumption | simpl; lia ].

Ltac run_loop :=
  repeat first
    [ rewrite loop_step by (simpl; lia);
      first [ rewrite body_subscriptions by loop_side
            | rewrite body_resourcegroups by loop_side
            | rewrite body_providers by loop_side ];
      cbn [v_i v_subscription_id v_resource_group v_provider v_resource_type
           v_resource_name Nat.add]
    | rewrite loop_stable by (simpl; lia) ].

(** The loop run on the tokens of a scope, the segment names in any
    letter case, gives back the fields of the scope. *)
Lemma loop_tokens_with (ksub krg kprov : string) (s : t) :
  PyStr.lower ksub = "subscriptions" ->
  PyStr.lower krg = "resourcegroups" ->
  PyStr.lower kprov = "providers" ->
  valid s = true ->
  let parts := tokens_with ksub krg kprov s in
  let v := loop (length parts) parts (mkvars 0 "" None None None None) in
  mk (v_subscription_id v) (v_resource_group v) (v_provider v)
     (v_resource_type v) (v_resource_name v) = s.
Proof.
  intros Hsub Hrg Hprov.
  destruct s as [sub rg p rt rn]. intros Hv. unfold valid in Hv. simpl in Hv.
  repeat match goal with
         | H : _ && _ = true |- _ => apply andb_true_iff in H as [? ?]
         end.
  destruct rg, p, rt, rn; try discriminate; cbv zeta; unfold tokens_with;
    cbn [subscription_id resource_group provider resource_type resource_name
         app length];
    run_loop; reflexivity.
Qed.

Lemma valid_tokens_with_ok (ksub krg kprov : string) (s : t) :
  PyStr.lower ksub = "subscriptions" ->
  PyStr.lower krg = "resourcegroups" ->
  PyStr.lower kprov = "providers" ->
  valid s = true -> slash_free s = true ->
  forallb token_ok (tokens_with ksub krg kprov s) = true.
Proof.
  intros Hsub Hrg Hprov.
  pose proof (keyword_token_ok _ _ Hsub eq_refl) as Ksub.
  pose proof (keyword_token_ok _ _ Hrg eq_refl) as Krg.
  pose proof (keyword_token_ok _ _ Hprov eq_refl) as Kprov.
  destruct s as [sub rg p rt rn]. unfold valid, slash_free, tokens_with.
  simpl. intros Hv Hs.
  repeat match goal with
         | H : _ && _ = true |- _ => apply andb_true_iff in H as [? ?]
         end.
  destruct rg, p, rt, rn; try discriminate; simpl in *;
    rewrite ?Ksub, ?Krg, ?Kprov; unfold token_ok;
    repeat match goal with
           | H : ?b = true |- context [?b] => rewrite H
           end; reflexivity.
Qed.

Lemma parse_tokens_with (ksub krg kprov : string) (s : t) :
  PyStr.lower ksub = "subscriptions" ->
  PyStr.lower krg = "resourcegroups" ->
  PyStr.lower kprov = "providers" ->
  valid s = true -> slash_free s = true ->
  from_string (path_of (tokens_with ksub krg kprov s)) = Ok s.
Proof.
  intros Hsub Hrg Hprov Hv Hs. unfold from_string.
  rewrite split_strip_path
    by (auto using valid_tokens_with_ok; destruct s; discriminate).
  unfold new. f_equal. apply (loop_tokens_with ksub krg kprov s); assumption.
Qed.

(** X3: the segment names are read in any letter case: a path that
    spells [subscriptions], [resourceGroups] and [providers] in other
    cases parses to the same scope. *)
Theorem parse_any_case (ksub krg kprov : string) (s : t) :
  PyStr.lower ksub = "subscriptions" ->
  PyStr.lower krg = "resourcegroups" ->
  PyStr.lower kprov = "providers" ->
  valid s = true -> slash_free s = true ->
  from_string (path_of (tokens_with ksub krg kprov s)) = Ok s.
Proof. exact (parse_tokens_with ksub krg kprov s). Qed.

Lemma parse_any_case_witness :
  from_string
    "/SUBSCRIPTIONS/S1/resourcegroups/rg1/Providers/Microsoft.Compute/virtualMachines/vm1"
  = Ok (mk "S1" (Some "rg1") (Some "Microsoft.Compute") (Some "virtualMachines")
           (Some "vm1")).
Proof.
  apply (parse_any_case "SUBSCRIPTIONS" "resourcegroups" "Providers"
           (mk "S1" (Some "rg1") (Some "Microsoft.Compute")
               (Some "virtualMachines") (Some "vm1")));
    reflexivity.
Defined.

(** X4: the scope string the ARM client builds from five fields is the
    one the model writes, and parses back to these fields. *)
Theorem build_scope_parses (sub : string) (rg p rt rn : option string) :
  valid (mk sub rg p rt rn) = true -> slash_free (mk sub rg p rt rn) = true ->
  ARMClient._build_scope sub rg p rt rn = to_string (mk sub rg p rt rn)
  /\ from_string (ARMClient._build_scope sub rg p rt rn)
     = Ok (mk sub rg p rt rn).
Proof.
  intros Hv Hs. split; [reflexivity|].
  change (ARMClient._build_scope sub rg p rt rn)
    with (to_string (mk sub rg p rt rn)).
  rewrite (to_string_tokens _ Hv).
  apply (parse_tokens_with "subscriptions" "resourceGroups" "providers");
    [reflexivity | reflexivity | reflexivity | exact Hv | exact Hs].
Qed.

Lemma build_scope_parses_witness :
  from_string (ARMClient._build_scope "S1" (Some "rg1") None None None)
  = Ok (mk "S1" (Some "rg1") None None None).
Proof.
  apply (build_scope_parses "S1" (Some "rg1") None None None); reflexivity.
Defined.

End ScopeMore.

(** ** Assignments, requests and policies *)

Section Models.

Lemma lower_has_no_E (s : string) : PyStr.contains "E" (PyStr.lower s) = false.
Proof.
  induction s as [|c s IH]; [reflexivity|]. simpl. rewrite IH, orb_false_r.
  destruct c as [[] [] [] [] [] [] [] []]; reflexivity.
Qed.

Lemma startswith_needs_E (s : string) :
  PyStr.startswith "roleEligibility" s = true -> PyStr.contains "E" s = true.
Proof.
  destruct s as [|c1 [|c2 [|c3 [|c4 [|c5 s]]]]]; cbn [PyStr.startswith];
    intros H; try discriminate;
    repeat (apply andb_true_iff in H as [? H]);
    try discriminate.
  match goal with
  | H5 : Ascii.eqb "E" c5 = true |- _ => apply Ascii.eqb_eq in H5; subst c5
  end.
  cbn [PyStr.contains]. rewrite Ascii.eqb_refl, !orb_true_r. reflexivity.
Qed.

Lemma has_infix_needs_E (s : string) :
  PyStr.has_infix "roleEligibility" s = true -> PyStr.contains "E" s = true.
Proof.
  induction s as [|c s IH]; intros H.
  - discriminate H.
  - change (PyStr.has_infix "roleEligibility" (String c s))
      with (PyStr.startswith "roleEligibility" (String c s)
            || PyStr.has_infix "roleEligibility" s) in H.
    apply orb_true_iff in H as [H|H].
    + apply startswith_needs_E. exact H.
    + simpl. rewrite (IH H). apply orb_true_r.
Qed.

(** X5: [assignment_type] is [ACTIVE] for every assignment, also for
    one whose resource type names an eligibility schedule: the type is
    lowered before it is searched for [roleEligibility], which has a
    capital letter. *)
Theorem assignment_type_always_active (self : AzureRoleAssignment.t) :
  AzureRoleAssignment.assignment_type self = ACTIVE.
Proof.
  unfold AzureRoleAssignment.assignment_type.
  destruct (PyStr.has_infix "roleEligibility"
              (PyStr.lower (AzureRoleAssignment.type self))) eqn:E;
    [|reflexivity].
  apply has_infix_needs_E in E. rewrite lower_has_no_E in E. discriminate E.
Qed.

Lemma of_value_member (m : RequestStatus.t) :
  RequestStatus.of_value (JStr (RequestStatus.value m)) = Ok m.
Proof. destruct m; reflexivity. Qed.

Lemma of_value_other (x : json) :
  (forall m, x <> JStr (RequestStatus.value m)) ->
  exists e, RequestStatus.of_value x = Raise e /\ is_ValueError e = true.
Proof.
  intros H. unfold RequestStatus.of_value.
  destruct x; try (eexists; split; reflexivity).
  destruct (List.find (fun m => String.eqb (RequestStatus.value m) s)
                      RequestStatus.members) as [m|] eqn:E.
  - apply List.find_some in E as [_ E]. apply String.eqb_eq in E.
    exfalso. apply (H m). rewrite E. reflexivity.
  - eexists; split; reflexivity.
Qed.

(** X6: reading the status of a request never raises.  The eleven
    status strings are read as their members; a status that is
    missing, is not a string, or is no member's value reads as
    [PENDING]. *)
Theorem request_status_total (self : AzureRoleAssignmentRequest.t) :
  let given :=
    default (JStr "")
            (Json.lookup "status" (AzureRoleAssignmentRequest.properties self)) in
  (forall m,
      given = JStr (RequestStatus.value m) ->
      AzureRoleAssignmentRequest.status self = Ok m)
  /\ ((forall m, given <> JStr (RequestStatus.value m)) ->
      AzureRoleAssignmentRequest.status self = Ok RequestStatus.PENDING).
Proof.
  intros given. unfold AzureRoleAssignmentRequest.status. fold given. split.
  - intros m Hm. rewrite Hm, of_value_member. reflexivity.
  - intros Hnone. destruct (of_value_other given Hnone) as [e [He Hv]].
    rewrite He, Hv. reflexivity.
Qed.

Lemma request_status_total_witness :
  AzureRoleAssignmentRequest.status
    (AzureRoleAssignmentRequest.mk "id" "name" "type"
       [("status", JStr "Provisioned")])
  = Ok RequestStatus.PROVISIONED
  /\ AzureRoleAssignmentRequest.status
       (AzureRoleAssignmentRequest.mk "id" "name" "type"
          [("status", JStr "Accepted")])
     = Ok RequestStatus.PENDING.
Proof.
  split.
  - apply (request_status_total
             (AzureRoleAssignmentRequest.mk "id" "name" "type"
                [("status", JStr "Provisioned")])).
    reflexivity.
  - apply (request_status_total
             (AzureRoleAssignmentRequest.mk "id" "name" "type"
                [("status", JStr "Accepted")])).
    intros m. destruct m; discriminate.
Defined.

Import EntraRolePolicy.

Lemma get_rule_skips (rule_type : string) (pre rest : list rule) :
  Forall (fun x => type_endswith x rule_type = Ok false) pre ->
  get_rule rule_type (pre ++ rest) = get_rule rule_type rest.
Proof.
  induction 1 as [|x pre Hx _ IH]; [reflexivity|].
  simpl. rewrite Hx. simpl. exact IH.
Qed.

Lemma graph_typed_not_enabled (r : rule) :
  graph_typed r = true -> type_endswith r "EnabledRule" = Ok false.
Proof.
  unfold graph_typed, type_endswith.
  destruct (Json.lookup "@odata.type" r) as [[| | | ty | |]|]; try discriminate.
  unfold graph_rule_types. cbn [existsb]. intros H.
  repeat (apply orb_true_iff in H as [H|H]);
    try discriminate;
    apply String.eqb_eq in H; subst ty; vm_compute; reflexivity.
Qed.

(** X7: on a policy whose rules carry the directory authority's rule
    types, [requires_justification] is [False] whatever the rules say:
    it looks for a type that ends in [EnabledRule], and the
    authority's type ends in [EnablementRule]. *)
Theorem requires_justification_never (rules : list rule) :
  forallb graph_typed rules = true ->
  requires_justification rules = Ok (JBool false).
Proof.
  intros H. unfold requires_justification.
  assert (Hnone : get_rule "EnabledRule" rules = Ok None).
  { rewrite <- (app_nil_r rules). rewrite get_rule_skips; [reflexivity|].
    apply Forall_forall. intros r Hr. apply graph_typed_not_enabled.
    rewrite forallb_forall in H. apply H. apply list_elem_of_In. exact Hr. }
  rewrite Hnone. reflexivity.
Qed.

Lemma requires_justification_never_witness :
  requires_justification
    [[("@odata.type",
       JStr "#microsoft.graph.unifiedRoleManagementPolicyExpirationRule");
      ("id", JStr "Expiration_EndUser_Assignment");
      ("maximumDuration", JStr "PT8H")];
     [("@odata.type",
       JStr "#microsoft.graph.unifiedRoleManagementPolicyEnablementRule");
      ("id", JStr "Justification_EndUser_Assignment");
      ("isEnabled", JBool true)]]
  = Ok (JBool false).
Proof. apply requires_justification_never. reflexivity. Defined.

Lemma type_endswith_nonempty (r : rule) (rule_type : string) :
  rule_type <> "" -> type_endswith r rule_type = Ok true -> r <> [].
Proof.
  intros Hne H Hr. subst r. unfold type_endswith in H. simpl in H.
  destruct rule_type; [congruence | discriminate H].
Qed.

(** X8: the maximum activation duration is read from the first rule
    whose type ends in [ExpirationRule], and from no other: when that
    rule's id is [Expiration_EndUser_Assignment] the result is its
    [maximumDuration], otherwise it is [None], whatever rules follow. *)
Theorem max_activation_duration_first (pre post : list rule) (r : rule) :
  Forall (fun x => type_endswith x "ExpirationRule" = Ok false) pre ->
  type_endswith r "ExpirationRule" = Ok true ->
  max_activation_duration (pre ++ r :: post)
  = Ok (if eq_str (default JNull (Json.lookup "id" r))
                  "Expiration_EndUser_Assignment"
        then default JNull (Json.lookup "maximumDuration" r)
        else JNull).
Proof.
  intros Hpre Hr. unfold max_activation_duration.
  rewrite get_rule_skips by exact Hpre.
  cbn [get_rule]. rewrite Hr. cbn [pbind].
  assert (Hne : r <> []) by (eapply type_endswith_nonempty; [|exact Hr]; discriminate).
  destruct r as [|kv r]; [congruence|].
  unfold truthy_rule, rule_get. cbn [default andb].
  destruct (eq_str _ _); reflexivity.
Qed.

Lemma max_activation_duration_first_witness :
  max_activation_duration
    [[("@odata.type",
       JStr "#microsoft.graph.unifiedRoleManagementPolicyExpirationRule");
      ("id", JStr "Expiration_Admin_Eligibility");
      ("maximumDuration", JStr "P365D")];
     [("@odata.type",
       JStr "#microsoft.graph.unifiedRoleManagementPolicyExpirationRule");
      ("id", JStr "Expiration_EndUser_Assignment");
      ("maximumDuration", JStr "PT8H")]]
  = Ok JNull.
Proof.
  apply (max_activation_duration_first []
           [[("@odata.type",
              JStr "#microsoft.graph.unifiedRoleManagementPolicyExpirationRule");
             ("id", JStr "Expiration_EndUser_Assignment");
             ("maximumDuration", JStr "PT8H")]]);
    [constructor | reflexivity].
Defined.

End Models.

(** ** The HTTP clients: tokens, failures, bodies *)

Section ClientsMore.

(** X9: every request fetches a token first, exactly once.  When the
    token cannot be had the error is raised and nothing is sent; when
    it can, one request is sent and its [Authorization] is [Bearer]
    and that token. *)
Theorem request_carries_fresh_token (m e : string) (j : option json)
    (p : option (gmap string string)) (beta : bool) (w : World) :
  (token_calls (snd (ARMClient._request m e j p w)) = S (token_calls w)
   /\ match arm_tokens w (token_calls w) with
      | Ok token =>
          exists req,
            sent (snd (ARMClient._request m e j p w)) = (sent w ++ [req])%list
            /\ authorization req = "Bearer " +:+ token
      | Raise err =>
          fst (ARMClient._request m e j p w) = Raise err
          /\ sent (snd (ARMClient._request m e j p w)) = sent w
      end)
  /\ (token_calls (snd (GraphClient._request m e j p beta w))
      = S (token_calls w)
      /\ match graph_tokens w (token_calls w) with
         | Ok token =>
             exists req,
               sent (snd (GraphClient._request m e j p beta w))
               = (sent w ++ [req])%list
               /\ authorization req = "Bearer " +:+ token
         | Raise err =>
             fst (GraphClient._request m e j p beta w) = Raise err
             /\ sent (snd (GraphClient._request m e j p beta w)) = sent w
         end).
Proof.
  split.
  - destruct (arm_tokens w (token_calls w)) as [token|err] eqn:Ht.
    + rewrite (arm_request_run _ _ _ _ _ _ Ht). split; [reflexivity|].
      eexists. split; reflexivity.
    + rewrite (arm_request_no_token _ _ _ _ _ _ Ht). repeat split.
  - destruct (graph_tokens w (token_calls w)) as [token|err] eqn:Ht.
    + rewrite (graph_request_run _ _ _ _ _ _ _ Ht). split; [reflexivity|].
      eexists. split; reflexivity.
    + rewrite (graph_request_no_token _ _ _ _ _ _ _ Ht). repeat split.
Qed.

(** X10: a failure of the transport is raised as [APIError] with
    status 0 and no body, by both clients; the request was sent once. *)
Theorem transport_failure_is_api_error (m e : string) (j : option json)
    (p : option (gmap string string)) (beta : bool) (w : World)
    (token msg : string) :
  (arm_tokens w (token_calls w) = Ok token ->
   backend w (sent w) (ARMClient.request_for m e ("Bearer " +:+ token) j p)
   = HTTPError msg ->
   ARMClient._request m e j p w
   = (Raise (APIError ("HTTP request failed: " +:+ msg) 0 None),
      exchanged (ARMClient.request_for m e ("Bearer " +:+ token) j p) w))
  /\ (graph_tokens w (token_calls w) = Ok token ->
      backend w (sent w)
              (GraphClient.request_for m e ("Bearer " +:+ token) j p beta)
      = HTTPError msg ->
      GraphClient._request m e j p beta w
      = (Raise (APIError ("HTTP request failed: " +:+ msg) 0 None),
         exchanged (GraphClient.request_for m e ("Bearer " +:+ token) j p beta)
                   w)).
Proof.
  split; intros Ht Hb.
  - rewrite (arm_request_run _ _ _ _ _ _ Ht). cbv zeta. rewrite Hb. reflexivity.
  - rewrite (graph_request_run _ _ _ _ _ _ _ Ht). cbv zeta. rewrite Hb.
    reflexivity.
Qed.

Lemma transport_failure_is_api_error_witness :
  fst (ARMClient.get_role_definition "/subscriptions/S1" "b24988ac"
         (Mock.world (fun _ _ => HTTPError "connection refused")))
  = Raise (APIError "HTTP request failed: connection refused" 0 None).
Proof.
  destruct (transport_failure_is_api_error "GET"
              "//subscriptions/S1/providers/Microsoft.Authorization/roleDefinitions/b24988ac"
              None None false
              (Mock.world (fun _ _ => HTTPError "connection refused"))
              "arm-token" "connection refused") as [H _].
  unfold ARMClient.get_role_definition.
  change ("/" +:+ "/subscriptions/S1"
              +:+ "/providers/Microsoft.Authorization/roleDefinitions/"
              +:+ "b24988ac")
    with "//subscriptions/S1/providers/Microsoft.Authorization/roleDefinitions/b24988ac".
  rewrite H; reflexivity.
Defined.

Lemma other_error_tests (response : Response) :
  other_error response ->
  (status_code response =? 429)%Z = false
  /\ (status_code response =? 404)%Z = false
  /\ (status_code response >=? 400)%Z = true.
Proof.
  intros (H1 & H2 & H3). repeat split.
  - apply Z.eqb_neq. exact H3.
  - apply Z.eqb_neq. exact H2.
  - apply Z.geb_le. exact H1.
Qed.

(** What [_request] returns is the interpretation of the answer. *)
Lemma arm_request_answered (m e : string) (j : option json)
    (p : option (gmap string string)) (w : World) (token : string)
    (response : Response) :
  arm_tokens w (token_calls w) = Ok token ->
  answers w (ARMClient.request_for m e ("Bearer " +:+ token) j p) response ->
  fst (ARMClient._request m e j p w) = ARMClient.interpret e response.
Proof.
  intros Ht Ha. unfold answers in Ha.
  rewrite (arm_request_run _ _ _ _ _ _ Ht). cbv zeta. rewrite Ha. reflexivity.
Qed.

Lemma graph_request_answered (m e : string) (j : option json)
    (p : option (gmap string string)) (beta : bool) (w : World)
    (token : string) (response : Response) :
  graph_tokens w (token_calls w) = Ok token ->
  answers w (GraphClient.request_for m e ("Bearer " +:+ token) j p beta)
          response ->
  fst (GraphClient._request m e j p beta w) = GraphClient.interpret e response.
Proof.
  intros Ht Ha. unfold answers in Ha.
  rewrite (graph_request_run _ _ _ _ _ _ _ Ht). cbv zeta. rewrite Ha.
  reflexivity.
Qed.

(** The message of an error answer: the [message] of its [error]
    object when the body has one, the text of the answer otherwise.  A
    body that is there and does not decode stops the client before it
    builds its error. *)
Lemma arm_interpret_error (e : string) (response : Response) :
  other_error response ->
  (content response = None -> text response = "" ->
   ARMClient.interpret e response
   = Raise (APIError ("ARM API error: " +:+ text response)
                     (status_code response) (Some (JObj []))))
  /\ (content response = None -> text response <> "" ->
      ARMClient.interpret e response
      = Raise (PyException JSONDecodeError "Expecting value"))
  /\ (forall d,
      content response = Some (JObj d) -> Json.lookup "error" d = None ->
      ARMClient.interpret e response
      = Raise (APIError ("ARM API error: " +:+ text response)
                        (status_code response) (Some (JObj d))))
  /\ (forall d ed,
      content response = Some (JObj d) ->
      Json.lookup "error" d = Some (JObj ed) ->
      ARMClient.interpret e response
      = Raise (APIError
                 ("ARM API error: "
                    +:+ Json.str (default (JStr (text response))
                                          (Json.lookup "message" ed)))
                 (status_code response) (Some (JObj d)))).
Proof.
  intros Herr. destruct (other_error_tests _ Herr) as (H1 & H2 & H3).
  unfold ARMClient.interpret, has_content, response_json. rewrite H1, H2, H3.
  split; [|split; [|split]].
  - intros Hc Ht. rewrite Hc, Ht. reflexivity.
  - intros Hc Ht. rewrite Hc.
    destruct (text response); [exfalso; apply Ht; reflexivity | reflexivity].
  - intros d Hc Hl. rewrite Hc. simpl. rewrite Hl. reflexivity.
  - intros d ed Hc Hl. rewrite Hc. simpl. rewrite Hl. reflexivity.
Qed.

(** X11: an answer with an error status other than 404 and 429 and a
    body that is empty or a JSON object is raised by the ARM client as
    [APIError] with that status and the decoded body, [{}] for the
    empty one; its message is the [error.message] of the body when
    there is one and the text of the answer otherwise.  A body that is
    not empty and is not JSON raises [JSONDecodeError] instead. *)
Theorem arm_error_answer (m e : string) (j : option json)
    (p : option (gmap string string)) (w : World) (token : string)
    (response : Response) :
  arm_tokens w (token_calls w) = Ok token ->
  answers w (ARMClient.request_for m e ("Bearer " +:+ token) j p) response ->
  other_error response ->
  (content response = None -> text response = "" ->
   fst (ARMClient._request m e j p w)
   = Raise (APIError ("ARM API error: " +:+ text response)
                     (status_code response) (Some (JObj []))))
  /\ (content response = None -> text response <> "" ->
      fst (ARMClient._request m e j p w)
      = Raise (PyException JSONDecodeError "Expecting value"))
  /\ (forall d,
      content response = Some (JObj d) -> Json.lookup "error" d = None ->
      fst (ARMClient._request m e j p w)
      = Raise (APIError ("ARM API error: " +:+ text response)
                        (status_code response) (Some (JObj d))))
  /\ (forall d ed,
      content response = Some (JObj d) ->
      Json.lookup "error" d = Some (JObj ed) ->
      fst (ARMClient._request m e j p w)
      = Raise (APIError
                 ("ARM API error: "
                    +:+ Json.str (default (JStr (text response))
                                          (Json.lookup "message" ed)))
                 (status_code response) (Some (JObj d)))).
Proof.
  intros Ht Ha Herr. rewrite (arm_request_answered _ _ _ _ _ _ _ Ht Ha).
  apply arm_interpret_error. exact Herr.
Qed.

Lemma arm_error_answer_witness :
  let body :=
    JObj [("error",
           JObj [("code", JStr "RoleAssignmentRequestPolicyValidationFailed");
                 ("message", JStr "Duration exceeds policy maximum")])] in
  let gateway :=
    mkWorld (fun _ => Ok "arm-token") (fun _ => Ok "graph-token") 0
            (fun _ _ =>
               Responds (mkResponse 502 [] None "<html>Bad Gateway</html>"))
            [] Mock.uuids 0 in
  fst (ARMClient._request "PUT" "/x" None None (Mock.always 400 [] (Some body)))
  = Raise (APIError "ARM API error: Duration exceeds policy maximum" 400
                    (Some body))
  /\ fst (ARMClient._request "PUT" "/x" None None gateway)
     = Raise (PyException JSONDecodeError "Expecting value").
Proof.
  intros body gateway.
  destruct (arm_error_answer "PUT" "/x" None None
              (Mock.always 400 [] (Some body)) "arm-token"
              (mkResponse 400 [] (Some body) "") eq_refl eq_refl)
    as [_ [_ [_ H]]].
  { unfold other_error. simpl. lia. }
  destruct (arm_error_answer "PUT" "/x" None None gateway "arm-token"
              (mkResponse 502 [] None "<html>Bad Gateway</html>")
              eq_refl eq_refl)
    as [_ [Hbad _]].
  { unfold other_error. simpl. lia. }
  split; [apply (H _ _ eq_refl eq_refl) | apply Hbad; [reflexivity|discriminate]].
Defined.

(** X12: an error answer whose body is JSON but not an object, or
    whose [error] member is not an object, makes both clients raise
    [AttributeError] and no [APIError]. *)
Theorem malformed_error_body (e : string) (response : Response) :
  other_error response ->
  (forall body,
      content response = Some body ->
      (forall d, body <> JObj d) ->
      is_AttributeError (ARMClient.interpret e response) = true
      /\ is_AttributeError (GraphClient.interpret e response) = true)
  /\ (forall d x,
      content response = Some (JObj d) ->
      Json.lookup "error" d = Some x ->
      (forall ed, x <> JObj ed) ->
      is_AttributeError (ARMClient.interpret e response) = true
      /\ is_AttributeError (GraphClient.interpret e response) = true).
Proof.
  intros Herr. destruct (other_error_tests _ Herr) as (H1 & H2 & H3).
  unfold ARMClient.interpret, GraphClient.interpret, has_content,
    response_json.
  rewrite H1, H2, H3.
  split.
  - intros body Hc Hb. rewrite Hc. cbn [pbind].
    destruct body; try (split; reflexivity). exfalso. eapply Hb. reflexivity.
  - intros d x Hc Hl Hx. rewrite Hc. simpl. rewrite Hl. simpl.
    destruct x; try (split; reflexivity). exfalso. eapply Hx. reflexivity.
Qed.

Lemma malformed_error_body_witness :
  let response :=
    mkResponse 400 [] (Some (JObj [("error", JStr "invalid_request")])) "" in
  is_AttributeError (ARMClient.interpret "/x" response) = true
  /\ is_AttributeError (GraphClient.interpret "/x" response) = true.
Proof.
  intros response.
  destruct (malformed_error_body "/x" response) as [_ H].
  - unfold other_error. simpl. lia.
  - apply (H [("error", JStr "invalid_request")] (JStr "invalid_request"));
      [reflexivity | reflexivity | discriminate].
Defined.

(** X13: an answer with a status below 400 and an empty body is [{}]
    for the ARM client whatever its status; the Graph client gives
    [{}] for status 204 only and raises [JSONDecodeError] for every
    other status.  With a body that is not empty and is not JSON, both
    clients give [{}] for status 204 and raise [JSONDecodeError] for
    every other status. *)
Theorem empty_success_body (e : string) (response : Response) :
  (status_code response < 400)%Z ->
  content response = None ->
  (text response = "" ->
   ARMClient.interpret e response = Ok (JObj [])
   /\ (status_code response = 204%Z ->
       GraphClient.interpret e response = Ok (JObj []))
   /\ (status_code response <> 204%Z ->
       GraphClient.interpret e response
       = Raise (PyException JSONDecodeError "Expecting value")))
  /\ (text response <> "" ->
      (status_code response = 204%Z ->
       ARMClient.interpret e response = Ok (JObj [])
       /\ GraphClient.interpret e response = Ok (JObj []))
      /\ (status_code response <> 204%Z ->
          ARMClient.interpret e response
          = Raise (PyException JSONDecodeError "Expecting value")
          /\ GraphClient.interpret e response
             = Raise (PyException JSONDecodeError "Expecting value"))).
Proof.
  intros Hs Hc.
  assert (H1 : (status_code response =? 429)%Z = false) by (apply Z.eqb_neq; lia).
  assert (H2 : (status_code response =? 404)%Z = false) by (apply Z.eqb_neq; lia).
  assert (H3 : (status_code response >=? 400)%Z = false).
  { destruct (status_code response >=? 400)%Z eqn:E; [|reflexivity].
    apply Z.geb_le in E. lia. }
  unfold ARMClient.interpret, GraphClient.interpret, response_json,
    has_content.
  rewrite H1, H2, H3, Hc. split.
  - intros Ht. rewrite Ht. cbn [truthy_str negb]. split; [|split].
    + rewrite orb_true_r. reflexivity.
    + intros H204. rewrite H204. reflexivity.
    + intros H204. apply Z.eqb_neq in H204. rewrite H204. reflexivity.
  - intros Ht.
    assert (Htruthy : truthy_str (text response) = true).
    { destruct (text response); [exfalso; apply Ht; reflexivity | reflexivity]. }
    rewrite Htruthy. cbn [negb]. rewrite orb_false_r. split.
    + intros H204. rewrite H204. split; reflexivity.
    + intros H204. apply Z.eqb_neq in H204. rewrite H204. split; reflexivity.
Qed.

Lemma empty_success_body_witness :
  (ARMClient.interpret "/x" (mkResponse 200 [] None "") = Ok (JObj [])
   /\ GraphClient.interpret "/x" (mkResponse 200 [] None "")
      = Raise (PyException JSONDecodeError "Expecting value"))
  /\ ARMClient.interpret "/x" (mkResponse 200 [] None "<html></html>")
     = Raise (PyException JSONDecodeError "Expecting value").
Proof.
  destruct (empty_success_body "/x" (mkResponse 200 [] None ""))
    as [Hempty _]; [simpl; lia | reflexivity |].
  destruct (Hempty eq_refl) as [Harm [_ Hgraph]].
  destruct (empty_success_body "/x" (mkResponse 200 [] None "<html></html>"))
    as [_ Hfull]; [simpl; lia | reflexivity |].
  destruct Hfull as [_ Hbad]; [discriminate|].
  split; [split; [exact Harm | apply Hgraph; discriminate]|].
  apply Hbad. discriminate.
Defined.

(** X14: the ARM client always sends [api-version]; every parameter of
    the caller is sent with the caller's value, [api-version]
    included. *)
Theorem arm_query_parameters (params : option (gmap string string)) :
  is_Some (ARMClient.all_params params !! "api-version")
  /\ (forall k v,
      default ∅ params !! k = Some v ->
      ARMClient.all_params params !! k = Some v)
  /\ (forall k,
      default ∅ params !! k = None ->
      ARMClient.all_params params !! k
      = if decide (k = "api-version") then Some ARMClient.API_VERSION else None).
Proof.
  unfold ARMClient.all_params, truthy_params.
  destruct params as [m|]; simpl.
  - destruct (bool_decide (m = ∅)) eqn:E; simpl.
    + apply bool_decide_eq_true in E. subst m. split; [|split].
      * rewrite lookup_singleton_eq. eauto.
      * intros k v H. rewrite lookup_empty in H. discriminate H.
      * intros k _. rewrite lookup_singleton. destruct (decide _); 
          destruct (decide _); congruence.
    + split; [|split].
      * apply lookup_union_is_Some. right. rewrite lookup_singleton_eq. eauto.
      * intros k v H. apply lookup_union_Some_l. exact H.
      * intros k H. rewrite (lookup_union_r _ _ _ H), lookup_singleton.
        destruct (decide _); destruct (decide _); try congruence; reflexivity.
  - split; [|split].
    + rewrite lookup_singleton_eq. eauto.
    + intros k v H. rewrite lookup_empty in H. discriminate H.
    + intros k _. rewrite lookup_singleton. destruct (decide _); 
        destruct (decide _); congruence.
Qed.

Lemma arm_query_parameters_witness :
  ARMClient.all_params (Some {[ "$filter" := "roleName eq 'Owner'" ]})
    !! "$filter" = Some "roleName eq 'Owner'".
Proof.
  destruct (arm_query_parameters (Some {[ "$filter" := "roleName eq 'Owner'" ]}))
    as [_ [H _]].
  apply H. reflexivity.
Defined.

(** X15: the ticket object of an activation is left out when neither
    a ticket number nor a ticket system is given, an empty string
    counting as not given; when it is there it holds exactly the ones
    given.  Both clients. *)
Theorem ticket_info_shape (role_definition_id directory_scope_id justification
    duration : string) (tn ts : option string) :
  let ticket :=
    ((if truthy tn then [("ticketNumber", JStr (default "" tn))] else [])
     ++ (if truthy ts then [("ticketSystem", JStr (default "" ts))] else []))%list in
  let expected := if truthy tn || truthy ts then Some (JObj ticket) else None in
  Json.at_path ["properties"; "ticketInfo"]
    (ARMClient.activate_role_payload role_definition_id justification duration
       tn ts) = expected
  /\ Json.at_path ["ticketInfo"]
       (GraphClient.activate_role_payload role_definition_id directory_scope_id
          justification duration tn ts) = expected.
Proof.
  unfold ARMClient.activate_role_payload, GraphClient.activate_role_payload.
  destruct (truthy tn), (truthy ts); split; reflexivity.
Qed.

(** X16: the policy of a role is looked up through its policy
    assignment.  Without an assignment, or with an assignment that
    names no policy, the result is [None] after that one request; with
    a policy ID the result is that of the request for
    [/policies/roleManagementPolicies/{id}] with its rules expanded. *)
Theorem policy_for_role (role_definition_id token : string) (w : World)
    (q1 : Request) (r1 : Response) (items : list json) :
  graph_tokens w (token_calls w) = Ok token ->
  q1 = GraphClient.policy_assignment_lookup role_definition_id
         ("Bearer " +:+ token) ->
  answers w q1 r1 -> lists r1 items ->
  (items = [] ->
   GraphClient.get_policy_for_role role_definition_id w
   = (Ok JNull, exchanged q1 w))
  /\ (forall d rest,
      items = JObj d :: rest ->
      Json.truthy (default JNull (Json.lookup "policyId" d)) = false ->
      GraphClient.get_policy_for_role role_definition_id w
      = (Ok JNull, exchanged q1 w))
  /\ (forall d rest policy_id,
      items = JObj d :: rest ->
      Json.lookup "policyId" d = Some policy_id ->
      Json.truthy policy_id = true ->
      GraphClient.get_policy_for_role role_definition_id w
      = GraphClient._request "GET"
          ("/policies/roleManagementPolicies/" +:+ Json.str policy_id)
          None (Some {[ "$expand" := "rules" ]}) false (exchanged q1 w)).
Proof.
  intros Ht Hq Ha [d0 [[Hs Hc] Hv]]. subst q1.
  unfold answers, GraphClient.policy_assignment_lookup in Ha.
  assert (Hstart :
            GraphClient.get_policy_for_role role_definition_id w
            = (let* assignments := lift (Ok (JArr items)) in
               if negb (Json.truthy assignments) then ret JNull
               else
                 let* first := lift (Json.first assignments) in
                 let* policy_id := lift (Json.get first "policyId" JNull) in
                 if Json.truthy policy_id then GraphClient.get_policy policy_id
                 else ret JNull)
                (exchanged
                   (GraphClient.policy_assignment_lookup role_definition_id
                      ("Bearer " +:+ token)) w)).
  { unfold GraphClient.get_policy_for_role. unfold bind at 1.
    rewrite (graph_request_run _ _ _ _ _ _ _ Ht). cbv zeta. rewrite Ha.
    rewrite (graph_interpret_200 _ _ _ Hs Hc).
    unfold Json.get at 1. rewrite Hv. reflexivity. }
  rewrite Hstart. split; [|split].
  - intros Hi. subst items. reflexivity.
  - intros d rest Hi Hp. subst items. unfold bind, lift, ret. simpl.
    rewrite Hp. reflexivity.
  - intros d rest policy_id Hi Hl Hp. subst items. unfold bind, lift, ret.
    simpl. rewrite Hl. simpl. rewrite Hp. reflexivity.
Qed.

Lemma policy_for_role_witness :
  GraphClient.get_policy_for_role "f2ef992c"
    (Mock.always 200 [] (Some (JObj [("value", JArr [])])))
  = (Ok JNull,
     exchanged (GraphClient.policy_assignment_lookup "f2ef992c"
                  "Bearer graph-token")
       (Mock.always 200 [] (Some (JObj [("value", JArr [])])))).
Proof.
  destruct (policy_for_role "f2ef992c" "graph-token"
              (Mock.always 200 [] (Some (JObj [("value", JArr [])])))
              _ (mkResponse 200 [] (Some (JObj [("value", JArr [])])) "") []
              eq_refl eq_refl eq_refl) as [H _].
  - eexists. split; [split; reflexivity | reflexivity].
  - apply H. reflexivity.
Defined.

End ClientsMore.

(** ** Operations: what goes on the wire *)

Section OperationsMore.

(** A request adds nothing or one request of its method. *)
Lemma arm_request_sends (m e : string) (j : option json)
    (p : option (gmap string string)) (w : World) :
  exists l,
    sent (snd (ARMClient._request m e j p w)) = (sent w ++ l)%list
    /\ (l = [] \/ exists req, l = [req] /\ method req = m).
Proof.
  destruct (arm_tokens w (token_calls w)) as [token|err] eqn:Ht.
  - rewrite (arm_request_run _ _ _ _ _ _ Ht). eexists [_].
    split; [reflexivity|]. right. eexists. split; reflexivity.
  - rewrite (arm_request_no_token _ _ _ _ _ _ Ht). exists [].
    split; [simpl; rewrite app_nil_r; reflexivity | left; reflexivity].
Qed.

Lemma arm_find_role_by_name_sends (scope name : string) (w : World) :
  snd (ARMClient.find_role_by_name scope name w)
  = snd (ARMClient._request "GET"
           ("/" +:+ scope +:+ "/providers/Microsoft.Authorization/roleDefinitions")
           None
           (Some {[ "$filter" := "roleName eq '" +:+ name +:+ "'" ]}) w).
Proof.
  unfold ARMClient.find_role_by_name, bind.
  destruct (ARMClient._request _ _ _ _ w) as [[result|e] w']; [|reflexivity].
  unfold lift, ret. simpl.
  destruct (Json.get result "value" (JArr [])) as [roles|e]; [|reflexivity].
  destruct (Json.truthy roles); reflexivity.
Qed.

(** The resolver sends lookups only, two at most. *)
Lemma get_azure_role_sends (scope : string + AzureScope.t) (name : string)
    (w : World) :
  exists gets,
    sent (snd (PIMOperations.get_azure_role scope name w))
    = (sent w ++ gets)%list
    /\ Forall (fun r => method r = "GET") gets /\ (length gets <= 2)%nat.
Proof.
  destruct (arm_request_sends "GET"
              ("/" +:+ PIMOperations.scope_str scope
                   +:+ "/providers/Microsoft.Authorization/roleDefinitions")
              None
              (Some {[ "$filter" := "roleName eq '" +:+ name +:+ "'" ]}) w)
    as [l1 [H1 K1]].
  rewrite <- arm_find_role_by_name_sends in H1.
  assert (G1 : Forall (fun r => method r = "GET") l1 /\ (length l1 <= 1)%nat).
  { destruct K1 as [->|[req [-> Hm]]]; simpl; split; auto. }
  destruct G1 as [G1 L1].
  destruct (ARMClient.find_role_by_name (PIMOperations.scope_str scope) name w)
    as [[role_data|e] w1] eqn:E; simpl in H1.
  - rewrite (get_azure_role_after_name _ _ _ _ _ E).
    destruct (Json.truthy role_data).
    + exists l1. simpl. repeat split; [exact H1 | exact G1 | lia].
    + unfold ARMClient.get_role_definition.
      destruct (arm_request_sends "GET"
                  ("/" +:+ PIMOperations.scope_str scope
                       +:+ "/providers/Microsoft.Authorization/roleDefinitions/"
                       +:+ name) None None w1) as [l2 [H2 K2]].
      assert (G2 : Forall (fun r => method r = "GET") l2 /\ (length l2 <= 1)%nat).
      { destruct K2 as [->|[req [-> Hm]]]; simpl; split; auto. }
      destruct G2 as [G2 L2].
      exists (l1 ++ l2)%list.
      destruct (ARMClient._request _ _ _ _ w1) as [[body|e] w2]; simpl in H2 |- *.
      * rewrite H2, H1, <- app_assoc. repeat split;
          [apply Forall_app; split; assumption | rewrite length_app; lia].
      * destruct (is_RoleNotFoundError e); simpl;
          rewrite H2, H1, <- app_assoc; repeat split;
          try (apply Forall_app; split; assumption); rewrite length_app; lia.
  - exists l1. unfold PIMOperations.get_azure_role, bind. rewrite E. simpl.
    repeat split; [exact H1 | exact G1 | lia].
Qed.

(** An operation of the form resolve, draw an ID, submit. *)
Lemma resolve_then_submit (scope : string) (name : string)
    (submit : AzureRole.t -> string -> M World json) (w : World) :
  (forall role request_id w',
      exists e j,
        submit role request_id w' = ARMClient._request "PUT" e j None w') ->
  let run :=
    (let* role := PIMOperations.get_azure_role (inl scope) name in
     let* request_id := uuid4 in
     submit role request_id) w in
  PIMOperations.lookups_then_submission (sent w) (sent (snd run))
  /\ (forall err w1,
      PIMOperations.get_azure_role (inl scope) name w = (Raise err, w1) ->
      run = (Raise err, w1)).
Proof.
  intros Hsubmit run. unfold run, bind.
  destruct (get_azure_role_sends (inl scope) name w) as [gets [Hg [Fg Lg]]].
  destruct (PIMOperations.get_azure_role (inl scope) name w)
    as [[role|err] w1] eqn:E; simpl in Hg.
  - split; [|intros err w1' H; discriminate H].
    unfold uuid4.
    destruct (Hsubmit role (uuid_source w1 (uuid_calls w1)) (next_uuid w1))
      as [e [j Hs]].
    rewrite Hs.
    destruct (arm_request_sends "PUT" e j None (next_uuid w1)) as [puts [Hp Kp]].
    exists gets, puts. simpl in Hp. rewrite Hp, Hg, <- app_assoc.
    repeat split; assumption.
  - split.
    + exists gets, []. simpl. rewrite app_nil_r.
      repeat split; [exact Hg | exact Fg | exact Lg | left; reflexivity].
    + intros err' w1' H. inversion H; subst. reflexivity.
Qed.

(** X17: each of the four operations on Azure roles sends lookups
    first, two at most, then at most one PUT; when the role cannot be
    resolved the operation raises the resolver's error, draws no
    request ID and sends nothing after the lookups. *)
Theorem azure_operations_on_the_wire (scope : string + AzureScope.t)
    (name principal_id justification duration expiration_type : string)
    (tn ts expiration_duration : option string) (w : World) :
  let resolved :=
    PIMOperations.get_azure_role (inl (PIMOperations.scope_str scope)) name w in
  let activate :=
    PIMOperations.activate_azure_role scope name justification duration tn ts w in
  let deactivate := PIMOperations.deactivate_azure_role scope name w in
  let assign :=
    PIMOperations.assign_eligible_azure_role scope principal_id name
      justification expiration_type expiration_duration w in
  let remove :=
    PIMOperations.remove_eligible_azure_role scope principal_id name
      justification w in
  (PIMOperations.lookups_then_submission (sent w) (sent (snd activate))
   /\ PIMOperations.lookups_then_submission (sent w) (sent (snd deactivate))
   /\ PIMOperations.lookups_then_submission (sent w) (sent (snd assign))
   /\ PIMOperations.lookups_then_submission (sent w) (sent (snd remove)))
  /\ (forall err w1,
      resolved = (Raise err, w1) ->
      activate = (Raise err, w1) /\ deactivate = (Raise err, w1)
      /\ assign = (Raise err, w1) /\ remove = (Raise err, w1)).
Proof.
  cbv zeta.
  pose proof (resolve_then_submit (PIMOperations.scope_str scope) name
                (fun role request_id =>
                   ARMClient.activate_role (PIMOperations.scope_str scope)
                     (AzureRole.id role) request_id justification duration tn ts)
                w) as [A1 A2];
    [intros; do 2 eexists; reflexivity|].
  pose proof (resolve_then_submit (PIMOperations.scope_str scope) name
                (fun role request_id =>
                   ARMClient.deactivate_role (PIMOperations.scope_str scope)
                     (AzureRole.id role) request_id)
                w) as [D1 D2];
    [intros; do 2 eexists; reflexivity|].
  pose proof (resolve_then_submit (PIMOperations.scope_str scope) name
                (fun role request_id =>
                   ARMClient.create_eligible_assignment
                     (PIMOperations.scope_str scope) principal_id
                     (AzureRole.id role) request_id justification None
                     expiration_type expiration_duration None)
                w) as [E1 E2];
    [intros; do 2 eexists; reflexivity|].
  pose proof (resolve_then_submit (PIMOperations.scope_str scope) name
                (fun role request_id =>
                   ARMClient.remove_eligible_assignment
                     (PIMOperations.scope_str scope) principal_id
                     (AzureRole.id role) request_id justification)
                w) as [R1 R2];
    [intros; do 2 eexists; reflexivity|].
  split.
  - repeat split; [exact A1 | exact D1 | exact E1 | exact R1].
  - intros err w1 H. repeat split;
      [exact (A2 _ _ H) | exact (D2 _ _ H) | exact (E2 _ _ H) | exact (R2 _ _ H)].
Qed.

Lemma azure_operations_on_the_wire_witness :
  let w := Mock.always 404 [] None in
  exists err w1,
    PIMOperations.activate_azure_role (inl "/subscriptions/S1") "Contributor"
      "fix" "PT1H" None None w = (Raise err, w1)
    /\ is_RoleNotFoundError err = true
    /\ uuid_calls w1 = 0%nat
    /\ length (sent w1) = 1%nat.
Proof.
  intros w.
  destruct (azure_operations_on_the_wire (inl "/subscriptions/S1")
              "Contributor" "" "fix" "PT1H" "" None None None w)
    as [_ H].
  pose (resolved :=
          PIMOperations.get_azure_role (inl "/subscriptions/S1") "Contributor" w).
  assert (Hres : resolved
                 = (Raise (RoleNotFoundError
                             "Resource not found: //subscriptions/S1/providers/Microsoft.Authorization/roleDefinitions"),
                    snd resolved)).
  { assert (Hfst : fst resolved
                   = Raise (RoleNotFoundError
                              "Resource not found: //subscriptions/S1/providers/Microsoft.Authorization/roleDefinitions"))
      by (vm_compute; reflexivity).
    rewrite <- Hfst. apply surjective_pairing. }
  destruct (H _ _ Hres) as [Hact _].
  eexists _, _. split; [exact Hact|].
  split; [reflexivity|]. split; vm_compute; reflexivity.
Defined.

(** X18: once the role is resolved, [deactivate_azure_role] draws a
    request ID and submits one PUT to
    [.../roleAssignmentScheduleRequests/{requestId}]; the body is the
    request type [SelfDeactivate] and the role definition ID, with no
    schedule and no justification. *)
Theorem deactivation_request (scope : string + AzureScope.t) (name : string)
    (w w1 : World) (role : AzureRole.t) (token : string) :
  PIMOperations.get_azure_role (inl (PIMOperations.scope_str scope)) name w
  = (Ok role, w1) ->
  arm_tokens w1 (token_calls w1) = Ok token ->
  exists put,
    sent (snd (PIMOperations.deactivate_azure_role scope name w))
    = (sent w1 ++ [put])%list
    /\ method put = "PUT"
    /\ url put
       = "/" +:+ PIMOperations.scope_str scope
             +:+ "/providers/Microsoft.Authorization/roleAssignmentScheduleRequests/"
             +:+ uuid_source w1 (uuid_calls w1)
    /\ json_data put
       = Some (JObj [("properties",
                      JObj [("requestType", JStr "SelfDeactivate");
                            ("roleDefinitionId", JStr (AzureRole.id role))])])
    /\ uuid_calls (snd (PIMOperations.deactivate_azure_role scope name w))
       = S (uuid_calls w1).
Proof.
  intros Hres Ht.
  unfold PIMOperations.deactivate_azure_role, bind. rewrite Hres.
  unfold uuid4, ARMClient.deactivate_role.
  rewrite (arm_request_run _ _ _ _ (next_uuid w1) token) by exact Ht.
  eexists. repeat split.
Qed.

Lemma deactivation_request_witness :
  let w := Mock.world (Mock.resource_authority "/subscriptions/S1" Mock.roles) in
  exists lookup put,
    sent (snd (PIMOperations.deactivate_azure_role (inl "/subscriptions/S1")
                 "Contributor" w)) = [lookup; put]
    /\ method put = "PUT".
Proof.
  intros w.
  pose (resolved :=
          PIMOperations.get_azure_role (inl "/subscriptions/S1") "Contributor" w).
  pose (role :=
          AzureRole.mk
            "/subscriptions/S1/providers/Microsoft.Authorization/roleDefinitions/b24988ac"
            "b24988ac" "Microsoft.Authorization/roleDefinitions"
            [("roleName", JStr "Contributor")]).
  assert (Hres : resolved = (Ok role, snd resolved)).
  { assert (Hfst : fst resolved = Ok role) by (vm_compute; reflexivity).
    rewrite <- Hfst. apply surjective_pairing. }
  destruct (deactivation_request (inl "/subscriptions/S1") "Contributor" w
              (snd resolved) role "arm-token" Hres eq_refl)
    as [put [Hsent [Hm _]]].
  exists (ARMClient.name_lookup "/subscriptions/S1" "Contributor"
            "Bearer arm-token"), put.
  split; [rewrite Hsent; vm_compute; reflexivity | exact Hm].
Defined.

(** X19: the eligibility operations submit to
    [.../roleEligibilityScheduleRequests/{requestId}].  An assignment
    has request type [AdminAssign] and a schedule that holds the
    expiration alone, the type with a duration when a non-empty one is
    given: no start time and no end time can be passed through the
    operation.  A removal has request type [AdminRemove] and no
    schedule. *)
Theorem eligibility_requests (scope : string + AzureScope.t)
    (principal_id name justification expiration_type : string)
    (expiration_duration : option string) (w w1 : World) (role : AzureRole.t)
    (token : string) :
  PIMOperations.get_azure_role (inl (PIMOperations.scope_str scope)) name w
  = (Ok role, w1) ->
  arm_tokens w1 (token_calls w1) = Ok token ->
  let endpoint :=
    "/" +:+ PIMOperations.scope_str scope
        +:+ "/providers/Microsoft.Authorization/roleEligibilityScheduleRequests/"
        +:+ uuid_source w1 (uuid_calls w1) in
  (exists put payload,
      sent (snd (PIMOperations.assign_eligible_azure_role scope principal_id
                   name justification expiration_type expiration_duration w))
      = (sent w1 ++ [put])%list
      /\ method put = "PUT" /\ url put = endpoint
      /\ json_data put = Some payload
      /\ Json.at_path ["properties"; "requestType"] payload
         = Some (JStr "AdminAssign")
      /\ Json.at_path ["properties"; "scheduleInfo"] payload
         = Some (JObj [("expiration",
                        JObj (("type", JStr expiration_type)
                              :: if truthy expiration_duration
                                 then [("duration",
                                        JStr (default "" expiration_duration))]
                                 else []))]))
  /\ (exists put,
      sent (snd (PIMOperations.remove_eligible_azure_role scope principal_id
                   name justification w))
      = (sent w1 ++ [put])%list
      /\ method put = "PUT" /\ url put = endpoint
      /\ json_data put
         = Some (JObj [("properties",
                        JObj [("requestType", JStr "AdminRemove");
                              ("principalId", JStr principal_id);
                              ("roleDefinitionId", JStr (AzureRole.id role));
                              ("justification", JStr justification)])])).
Proof.
  intros Hres Ht endpoint. split.
  - unfold PIMOperations.assign_eligible_azure_role, bind. rewrite Hres.
    unfold uuid4, ARMClient.create_eligible_assignment.
    rewrite (arm_request_run _ _ _ _ (next_uuid w1) token) by exact Ht.
    eexists _, _. split; [reflexivity|]. split; [reflexivity|].
    split; [reflexivity|]. split; [reflexivity|]. split; [reflexivity|].
    unfold ARMClient.eligible_assignment_payload, ARMClient.expiration_dict.
    destruct (truthy expiration_duration); reflexivity.
  - unfold PIMOperations.remove_eligible_azure_role, bind. rewrite Hres.
    unfold uuid4, ARMClient.remove_eligible_assignment.
    rewrite (arm_request_run _ _ _ _ (next_uuid w1) token) by exact Ht.
    eexists. repeat split.
Qed.

Lemma eligibility_requests_witness :
  let w := Mock.world (Mock.resource_authority "/subscriptions/S1" Mock.roles) in
  exists put payload,
    sent (snd (PIMOperations.assign_eligible_azure_role
                 (inl "/subscriptions/S1") "u1" "Contributor" "onboarding"
                 "AfterDateTime" None w))
    = [ARMClient.name_lookup "/subscriptions/S1" "Contributor"
         "Bearer arm-token"; put]
    /\ json_data put = Some payload
    /\ Json.at_path ["properties"; "scheduleInfo"] payload
       = Some (JObj [("expiration", JObj [("type", JStr "AfterDateTime")])]).
Proof.
  intros w.
  pose (resolved :=
          PIMOperations.get_azure_role (inl "/subscriptions/S1") "Contributor" w).
  pose (role :=
          AzureRole.mk
            "/subscriptions/S1/providers/Microsoft.Authorization/roleDefinitions/b24988ac"
            "b24988ac" "Microsoft.Authorization/roleDefinitions"
            [("roleName", JStr "Contributor")]).
  assert (Hres : resolved = (Ok role, snd resolved)).
  { assert (Hfst : fst resolved = Ok role) by (vm_compute; reflexivity).
    rewrite <- Hfst. apply surjective_pairing. }
  destruct (eligibility_requests (inl "/subscriptions/S1") "u1" "Contributor"
              "onboarding" "AfterDateTime" None w (snd resolved) role
              "arm-token" Hres eq_refl)
    as [[put [payload [Hsent [_ [_ [Hj [_ Hsched]]]]]]] _].
  exists put, payload.
  split; [rewrite Hsent; vm_compute; reflexivity|].
  split; [exact Hj | exact Hsched].
Defined.

(** X20: once the role is resolved, the operations on directory roles
    submit one POST to the one collection
    [/roleManagement/directory/roleAssignmentScheduleRequests], with
    no request ID of their own: none is drawn.  The role is named by
    its template ID when it has one and by its ID otherwise.  An
    activation has action [selfActivate] and expiration
    [{type: afterDuration, duration}]; a deactivation has action
    [selfDeactivate], the role and the scope, and nothing else. *)
Theorem entra_requests (name justification duration scope : string)
    (tn ts : option string) (w w1 : World) (role : EntraRole.t)
    (token : string) :
  PIMOperations.get_entra_role name w = (Ok role, w1) ->
  graph_tokens w1 (token_calls w1) = Ok token ->
  let role_id :=
    match EntraRole.template_id role with
    | Some (String c rest) => String c rest
    | _ => EntraRole.id role
    end in
  (exists post payload,
      let run :=
        PIMOperations.activate_entra_role name justification duration scope
          tn ts w in
      sent (snd run) = (sent w1 ++ [post])%list
      /\ uuid_calls (snd run) = uuid_calls w1
      /\ method post = "POST"
      /\ url post = "/roleManagement/directory/roleAssignmentScheduleRequests"
      /\ json_data post = Some payload
      /\ Json.at_path ["action"] payload = Some (JStr "selfActivate")
      /\ Json.at_path ["roleDefinitionId"] payload = Some (JStr role_id)
      /\ Json.at_path ["directoryScopeId"] payload = Some (JStr scope)
      /\ Json.at_path ["scheduleInfo"; "expiration"] payload
         = Some (JObj [("type", JStr "afterDuration");
                       ("duration", JStr duration)]))
  /\ (exists post,
      let run := PIMOperations.deactivate_entra_role name scope w in
      sent (snd run) = (sent w1 ++ [post])%list
      /\ uuid_calls (snd run) = uuid_calls w1
      /\ method post = "POST"
      /\ url post = "/roleManagement/directory/roleAssignmentScheduleRequests"
      /\ json_data post
         = Some (JObj [("action", JStr "selfDeactivate");
                       ("roleDefinitionId", JStr role_id);
                       ("directoryScopeId", JStr scope)])).
Proof.
  intros Hres Ht role_id.
  assert (Hid : EntraRole.role_id role = role_id).
  { unfold EntraRole.role_id, role_id.
    destruct (EntraRole.template_id role) as [[|c rest]|]; reflexivity. }
  split.
  - unfold PIMOperations.activate_entra_role, bind. rewrite Hres.
    unfold GraphClient.activate_role.
    rewrite (graph_request_run _ _ _ _ _ _ _ Ht). rewrite Hid.
    eexists _, _. cbv zeta.
    split; [reflexivity|]. split; [reflexivity|]. split; [reflexivity|].
    split; [reflexivity|]. split; [reflexivity|].
    unfold GraphClient.activate_role_payload.
    destruct (truthy tn), (truthy ts); repeat split.
  - unfold PIMOperations.deactivate_entra_role, bind. rewrite Hres.
    unfold GraphClient.deactivate_role.
    rewrite (graph_request_run _ _ _ _ _ _ _ Ht). rewrite Hid.
    eexists. repeat split.
Qed.

Lemma entra_requests_witness :
  let w := Mock.world (Mock.directory_authority Mock.directory_roles) in
  exists post,
    sent (snd (PIMOperations.deactivate_entra_role "Global Reader" "/" w))
    = [GraphClient.name_lookup "Global Reader" "Bearer graph-token"; post]
    /\ json_data post
       = Some (JObj [("action", JStr "selfDeactivate");
                     ("roleDefinitionId", JStr "f2ef992c");
                     ("directoryScopeId", JStr "/")]).
Proof.
  intros w.
  pose (resolved := PIMOperations.get_entra_role "Global Reader" w).
  pose (role := EntraRole.mk "f2ef992c" "Global Reader" None None true true).
  assert (Hres : resolved = (Ok role, snd resolved)).
  { assert (Hfst : fst resolved = Ok role) by (vm_compute; reflexivity).
    rewrite <- Hfst. apply surjective_pairing. }
  destruct (entra_requests "Global Reader" "" "PT1H" "/" None None w
              (snd resolved) role "graph-token" Hres eq_refl)
    as [_ [post [Hsent [_ [_ [_ Hj]]]]]].
  exists post. split; [rewrite Hsent; vm_compute; reflexivity | exact Hj].
Defined.

End OperationsMore.

(** ** Listings through the facade *)

Section Listings.

Lemma model_validate_error (obj : json) (e : exn) :
  AzureRoleAssignment.model_validate obj = Raise e ->
  is_ValidationError e = true.
Proof.
  unfold AzureRoleAssignment.model_validate, field_str, field_dict.
  destruct obj as [| | | | |d]; try (intros H; inversion H; reflexivity).
  destruct (Json.lookup "id" d) as [[]|];
    try (intros H; inversion H; reflexivity).
  destruct (Json.lookup "name" d) as [[]|];
    try (intros H; inversion H; reflexivity).
  destruct (Json.lookup "type" d) as [[]|];
    try (intros H; inversion H; reflexivity).
  destruct (Json.lookup "properties" d) as [[]|];
    intros H; inversion H; reflexivity.
Qed.

Lemma validate_all_ok (items : list json) (l : list AzureRoleAssignment.t) :
  PIMOperations.validate_all items = Ok l
  <-> Forall2 (fun r a => AzureRoleAssignment.model_validate r = Ok a) items l.
Proof.
  revert l. induction items as [|r rest IH]; intros l; simpl.
  - split.
    + intros H. inversion H. constructor.
    + intros H. inversion H. reflexivity.
  - split.
    + destruct (AzureRoleAssignment.model_validate r) as [a|e] eqn:Hr;
        simpl; [|discriminate].
      destruct (PIMOperations.validate_all rest) as [others|e] eqn:Hrest;
        simpl; [|discriminate].
      intros H. inversion H; subst. constructor; [exact Hr|].
      apply IH. reflexivity.
    + intros H. inversion H as [|r' a rest' others Hr Hrest]; subst.
      rewrite Hr. simpl.
      apply IH in Hrest. rewrite Hrest. reflexivity.
Qed.

Lemma validate_all_raises (items : list json) (r : json) :
  In r items ->
  (forall a, AzureRoleAssignment.model_validate r <> Ok a) ->
  exists e, PIMOperations.validate_all items = Raise e
            /\ is_ValidationError e = true.
Proof.
  induction items as [|x rest IH]; intros Hin Hbad; [destruct Hin|].
  simpl.
  destruct (AzureRoleAssignment.model_validate x) as [a|e] eqn:Hx.
  - destruct Hin as [->|Hin]; [exfalso; exact (Hbad a Hx)|].
    destruct (IH Hin Hbad) as [e [He Hv]].
    exists e. simpl. rewrite He. split; [reflexivity | exact Hv].
  - exists e. split; [reflexivity | exact (model_validate_error x e Hx)].
Qed.

Lemma listing_run (endpoint : string) (principal_id : option string)
    (w : World) (token : string) (response : Response) (items : list json) :
  arm_tokens w (token_calls w) = Ok token ->
  answers w (ARMClient.request_for "GET" endpoint ("Bearer " +:+ token) None
               (Some (ARMClient.principal_filter principal_id))) response ->
  lists response items ->
  bind (bind (ARMClient._request "GET" endpoint None
                (Some (ARMClient.principal_filter principal_id)))
             (fun result => lift (Json.get result "value" (JArr []))))
       (fun data =>
          bind (lift (Json.iter data))
               (fun items => lift (PIMOperations.validate_all items))) w
  = (PIMOperations.validate_all items,
     exchanged (ARMClient.request_for "GET" endpoint ("Bearer " +:+ token) None
                  (Some (ARMClient.principal_filter principal_id))) w).
Proof.
  intros Ht Ha [d [[Hs Hc] Hv]].
  unfold bind. rewrite (arm_request_run _ _ _ _ _ _ Ht). cbv zeta.
  unfold answers in Ha. rewrite Ha.
  rewrite (arm_interpret_200 _ _ _ Hs Hc).
  unfold lift, Json.get. rewrite Hv. reflexivity.
Qed.

(** X21: a listing of eligible or active Azure roles is validated as a
    whole.  When every entry the authority lists is a valid
    assignment, the result holds them all, in the authority's order;
    when one entry is not, the listing raises a validation error and
    gives none of the others. *)
Theorem listing_all_or_nothing (scope : string + AzureScope.t)
    (principal_id : option string) (w : World) (token : string)
    (eligible active : Response) (items_e items_a : list json) :
  arm_tokens w (token_calls w) = Ok token ->
  answers w
    (ARMClient.request_for "GET"
       ("/" +:+ PIMOperations.scope_str scope
            +:+ "/providers/Microsoft.Authorization/roleEligibilityScheduleInstances")
       ("Bearer " +:+ token) None
       (Some (ARMClient.principal_filter principal_id))) eligible ->
  answers w
    (ARMClient.request_for "GET"
       ("/" +:+ PIMOperations.scope_str scope
            +:+ "/providers/Microsoft.Authorization/roleAssignmentScheduleInstances")
       ("Bearer " +:+ token) None
       (Some (ARMClient.principal_filter principal_id))) active ->
  lists eligible items_e -> lists active items_a ->
  (forall l,
      (fst (PIMOperations.list_my_eligible_azure_roles scope principal_id w)
       = Ok l
       <-> Forall2 (fun r a => AzureRoleAssignment.model_validate r = Ok a)
                   items_e l)
      /\ (fst (PIMOperations.list_my_active_azure_roles scope principal_id w)
          = Ok l
          <-> Forall2 (fun r a => AzureRoleAssignment.model_validate r = Ok a)
                      items_a l))
  /\ (forall r,
      (forall a, AzureRoleAssignment.model_validate r <> Ok a) ->
      (In r items_e ->
       exists e,
         fst (PIMOperations.list_my_eligible_azure_roles scope principal_id w)
         = Raise e /\ is_ValidationError e = true)
      /\ (In r items_a ->
          exists e,
            fst (PIMOperations.list_my_active_azure_roles scope principal_id w)
            = Raise e /\ is_ValidationError e = true)).
Proof.
  intros Ht He Ha Hle Hla.
  assert (Hrun_e :
            fst (PIMOperations.list_my_eligible_azure_roles scope principal_id w)
            = PIMOperations.validate_all items_e).
  { unfold PIMOperations.list_my_eligible_azure_roles,
      ARMClient.list_eligible_schedule_instances.
    cbv zeta. rewrite (listing_run _ _ _ _ _ _ Ht He Hle). reflexivity. }
  assert (Hrun_a :
            fst (PIMOperations.list_my_active_azure_roles scope principal_id w)
            = PIMOperations.validate_all items_a).
  { unfold PIMOperations.list_my_active_azure_roles,
      ARMClient.list_active_schedule_instances.
    cbv zeta. rewrite (listing_run _ _ _ _ _ _ Ht Ha Hla). reflexivity. }
  rewrite Hrun_e, Hrun_a. split.
  - intros l. split; apply validate_all_ok.
  - intros r Hbad. split; intros Hin; exact (validate_all_raises _ r Hin Hbad).
Qed.

Lemma listing_all_or_nothing_witness :
  let good :=
    JObj [("id", JStr "/subscriptions/S1/providers/Microsoft.Authorization/roleEligibilityScheduleInstances/i1");
          ("name", JStr "i1");
          ("type", JStr "Microsoft.Authorization/roleEligibilityScheduleInstances");
          ("properties", JObj [("principalId", JStr "u1")])] in
  let bad := JObj [("id", JStr "i2")] in
  let w := Mock.always 200 [] (Some (JObj [("value", JArr [good; bad])])) in
  exists e,
    fst (PIMOperations.list_my_eligible_azure_roles (inl "subscriptions/S1")
           (Some "u1") w) = Raise e
    /\ is_ValidationError e = true.
Proof.
  intros good bad w.
  pose (response :=
          mkResponse 200 [] (Some (JObj [("value", JArr [good; bad])])) "").
  assert (Hl : lists response [good; bad]).
  { eexists. split; [split; reflexivity | reflexivity]. }
  destruct (listing_all_or_nothing (inl "subscriptions/S1") (Some "u1") w
              "arm-token" response response [good; bad] [good; bad]
              eq_refl eq_refl eq_refl Hl Hl) as [_ Hraise].
  destruct (Hraise bad) as [He _].
  - intros a H. vm_compute in H. discriminate H.
  - apply He. right. left. reflexivity.
Defined.

End Listings.

(** ** Token providers: what they ask for and what they give back *)

Section ProvidersMore.

Import PIMAuth.

Lemma contains_after (sep : ascii) (a t : string) :
  PyStr.contains sep (a +:+ String sep t) = true.
Proof.
  induction a as [|c a IH].
  - rewrite append_nil_l. cbn [PyStr.contains].
    rewrite Ascii.eqb_refl. reflexivity.
  - rewrite append_cons. cbn [PyStr.contains].
    rewrite IH, orb_true_r. reflexivity.
Qed.

Lemma rsplit1_head_append (sep : ascii) (base tail : string) :
  PyStr.contains sep tail = false ->
  PyStr.rsplit1_head sep (base +:+ String sep tail) = base.
Proof.
  intros H. induction base as [|c b IH].
  - rewrite append_nil_l. cbn [PyStr.rsplit1_head].
    rewrite H, Ascii.eqb_refl. reflexivity.
  - rewrite append_cons. cbn [PyStr.rsplit1_head].
    rewrite contains_after, IH. reflexivity.
Qed.

Lemma rsplit1_head_absent (sep : ascii) (s : string) :
  PyStr.contains sep s = false -> PyStr.rsplit1_head sep s = s.
Proof.
  destruct s as [|c r]; [reflexivity|].
  cbn [PyStr.contains PyStr.rsplit1_head].
  intros H. apply orb_false_iff in H as [Hc Hr].
  rewrite Hr, Hc. reflexivity.
Qed.

(** X22: the resource a token is asked for is the first scope without
    its last segment, the whole scope when it has no slash; the other
    scopes play no part.  For the scopes of a configuration these are
    the Graph and the ARM hosts. *)
Theorem resource_is_first_scope (base tail : string) (rest : list string) :
  PyStr.contains "/" tail = false ->
  resource_of ((base +:+ "/" +:+ tail) :: rest) = base
  /\ resource_of (tail :: rest) = tail
  /\ (forall tenant_id client_id client_secret duration path,
      let config :=
        PIMConfig.new tenant_id client_id client_secret duration path in
      resource_of (PIMConfig.scopes_graph config) = "https://graph.microsoft.com"
      /\ resource_of (PIMConfig.scopes_arm config)
         = "https://management.azure.com").
Proof.
  intros H. split; [|split].
  - unfold resource_of.
    change ("/" +:+ tail) with (String "/" tail).
    apply rsplit1_head_append. exact H.
  - unfold resource_of. apply rsplit1_head_absent. exact H.
  - intros tenant_id client_id client_secret duration path.
    split; vm_compute; reflexivity.
Qed.

Lemma resource_is_first_scope_witness :
  resource_of ["https://vault.azure.net/.default"; "ignored/scope"]
  = "https://vault.azure.net".
Proof.
  exact (proj1 (resource_is_first_scope "https://vault.azure.net" ".default"
                  ["ignored/scope"] eq_refl)).
Defined.

Lemma rstrip_ws_idempotent (s : string) :
  PyStr.rstrip_ws (PyStr.rstrip_ws s) = PyStr.rstrip_ws s.
Proof.
  induction s as [|c r IH]; [reflexivity|].
  cbn [PyStr.rstrip_ws].
  destruct (PyStr.rstrip_ws r) as [|d r'] eqn:Hr.
  - destruct (PyStr.is_space c) eqn:Hc; [reflexivity|].
    cbn [PyStr.rstrip_ws]. rewrite Hc. reflexivity.
  - cbn [PyStr.rstrip_ws].
    change (match PyStr.rstrip_ws (String d r') with
            | "" => if PyStr.is_space c then "" else String c ""
            | String a s0 => String c (String a s0)
            end = String c (String d r')).
    rewrite IH. reflexivity.
Qed.

Lemma lstrip_ws_head (s : string) :
  PyStr.lstrip_ws s = ""
  \/ exists c r, PyStr.lstrip_ws s = String c r /\ PyStr.is_space c = false.
Proof.
  induction s as [|c r IH]; [left; reflexivity|].
  cbn [PyStr.lstrip_ws].
  destruct (PyStr.is_space c) eqn:Hc; [exact IH|].
  right. exists c, r. split; [reflexivity | exact Hc].
Qed.

Lemma rstrip_ws_head (c : ascii) (r : string) :
  PyStr.is_space c = false ->
  exists r', PyStr.rstrip_ws (String c r) = String c r'.
Proof.
  intros Hc. cbn [PyStr.rstrip_ws].
  destruct (PyStr.rstrip_ws r) as [|d r'].
  - rewrite Hc. exists "". reflexivity.
  - exists (String d r'). reflexivity.
Qed.

Lemma strip_ws_idempotent (s : string) :
  PyStr.strip_ws (PyStr.strip_ws s) = PyStr.strip_ws s.
Proof.
  unfold PyStr.strip_ws.
  destruct (lstrip_ws_head s) as [H|[c [r [H Hc]]]]; rewrite H.
  - reflexivity.
  - destruct (rstrip_ws_head c r Hc) as [r' Hr].
    rewrite Hr. cbn [PyStr.lstrip_ws]. rewrite Hc. rewrite <- Hr.
    apply rstrip_ws_idempotent.
Qed.

Lemma azure_cli_run (scopes : list string) (w : AuthWorld) :
  fst (AzureCli.get_token scopes w)
  = match run_result (oracle w) (calls w)
            ["az"; "account"; "get-access-token"; "--resource";
             resource_of scopes; "--query"; "accessToken"; "-o"; "tsv"] with
    | Completed rc out err =>
        if (rc =? 0)%Z then
          if truthy_str (str_strip (oracle w) out)
          then Ok (str_strip (oracle w) out)
          else Raise (AuthenticationError "Azure CLI returned empty token")
        else Raise (AuthenticationError
                      ("Azure CLI authentication failed: " +:+ err))
    | RunFileNotFound =>
        Raise (AuthenticationError
                 "Azure CLI not found. Install with: brew install azure-cli")
    | RunTimeout => Raise (PyException TimeoutExpired "az")
    | RunRaises e =>
        if is_CalledProcessError e then
          Raise (AuthenticationError
                   ("Azure CLI authentication failed: " +:+ exn_message e))
        else if is_FileNotFoundError e then
          Raise (AuthenticationError
                   "Azure CLI not found. Install with: brew install azure-cli")
        else Raise e
    end.
Proof.
  unfold AzureCli.get_token, try_except, subprocess_run, py_strip, call_ok,
    call, called, bind, ret, raise.
  destruct (run_result (oracle w) (calls w) _) as [rc out err| | |e]; simpl;
    try reflexivity.
  - destruct (rc =? 0)%Z; simpl; [|reflexivity].
    destruct (truthy_str (str_strip (oracle w) out)); reflexivity.
  - destruct (is_CalledProcessError e); simpl; [reflexivity|].
    destruct (is_FileNotFoundError e); reflexivity.
Qed.

(** X23: the CLI provider returns the standard output of a run that
    exits with 0, stripped, and never an empty token; where the output
    is ASCII, stripping the token again changes nothing.  A run that
    exits with another code and a missing program are raised as
    [AuthenticationError].  A run that times out raises
    [TimeoutExpired], and what else [subprocess.run] raises, a
    [PermissionError] or a [UnicodeDecodeError], is raised as it is:
    the provider catches neither. *)
Theorem azure_cli_token (scopes : list string) (w : AuthWorld)
    (outcome : RunOutcome) :
  outcome = run_result (oracle w) (calls w)
              ["az"; "account"; "get-access-token"; "--resource";
               resource_of scopes; "--query"; "accessToken"; "-o"; "tsv"] ->
  (forall token,
      fst (AzureCli.get_token scopes w) = Ok token ->
      token <> ""
      /\ exists out err,
          outcome = Completed 0 out err
          /\ token = str_strip (oracle w) out
          /\ (PyStr.is_ascii out = true ->
              token = PyStr.strip_ws out /\ PyStr.strip_ws token = token))
  /\ (forall e,
      fst (AzureCli.get_token scopes w) = Raise e ->
      match outcome with
      | Completed _ _ _ | RunFileNotFound => is_AuthenticationError e = true
      | RunTimeout => e = PyException TimeoutExpired "az"
      | RunRaises e' =>
          if is_CalledProcessError e' || is_FileNotFoundError e'
          then is_AuthenticationError e = true
          else e = e'
      end).
Proof.
  intros Hout. rewrite azure_cli_run, <- Hout.
  destruct outcome as [rc out err| | |e'].
  - destruct (rc =? 0)%Z eqn:Hrc.
    + apply Z.eqb_eq in Hrc. subst rc.
      destruct (truthy_str (str_strip (oracle w) out)) eqn:Ht.
      * split; [|discriminate].
        intros token H. inversion H; subst.
        split; [intros E; rewrite E in Ht; discriminate Ht|].
        exists out, err. split; [reflexivity|]. split; [reflexivity|].
        intros Hascii. unfold str_strip. rewrite Hascii.
        split; [reflexivity | apply strip_ws_idempotent].
      * split; [discriminate|].
        intros e H. inversion H; subst. reflexivity.
    + split; [discriminate|].
      intros e H. inversion H; subst. reflexivity.
  - split; [discriminate|].
    intros e H. inversion H; subst. reflexivity.
  - split; [discriminate|].
    intros e H. inversion H; subst. reflexivity.
  - split.
    + intros token H.
      destruct (is_CalledProcessError e'); [discriminate H|].
      destruct (is_FileNotFoundError e'); discriminate H.
    + intros e H.
      destruct (is_CalledProcessError e'); cbn [orb];
        [inversion H; reflexivity|].
      destruct (is_FileNotFoundError e'); inversion H; reflexivity.
Qed.

Lemma azure_cli_token_witness :
  (fst (AzureCli.get_token ["https://management.azure.com/.default"]
          MockAuth.cli_host) = Ok "tok"
   /\ PyStr.strip_ws "tok" = "tok")
  /\ fst (AzureCli.get_token ["https://management.azure.com/.default"]
            MockAuth.locked_cli)
     = Raise (PyException PermissionError "[Errno 13] Permission denied: 'az'").
Proof.
  destruct (azure_cli_token ["https://management.azure.com/.default"]
              MockAuth.cli_host (Completed 0 " tok " "") eq_refl)
    as [Hok _].
  assert (H : fst (AzureCli.get_token ["https://management.azure.com/.default"]
                     MockAuth.cli_host) = Ok "tok")
    by (vm_compute; reflexivity).
  destruct (Hok "tok" H) as [_ [out [err [Ho [_ Hascii]]]]].
  inversion Ho; subst out err.
  destruct (azure_cli_token ["https://management.azure.com/.default"]
              MockAuth.locked_cli
              (RunRaises (PyException PermissionError
                            "[Errno 13] Permission denied: 'az'")) eq_refl)
    as [_ Hfail].
  split; [split; [exact H | exact (proj2 (Hascii eq_refl))]|].
  destruct (fst (AzureCli.get_token ["https://management.azure.com/.default"]
                   MockAuth.locked_cli)) as [token|e] eqn:Hrun.
  - vm_compute in Hrun. discriminate Hrun.
  - rewrite (Hfail e eq_refl). reflexivity.
Defined.

(** X24: when MSAL's cache gives no token and the acquisition that
    follows gives none either, [get_token] raises right after that
    call: nothing is written to the cache file.  The error is an
    [AuthenticationError]; it is the [MFARequiredError] subclass
    exactly when the lowered error description holds [mfa] or
    [multi]. *)
Theorem msal_acquisition_failure (config : PIMConfig.t) (scopes : list string)
    (w w0 w1 : AuthWorld) (app : AppKind) (c : AuthCall)
    (result : option (gmap string string)) (description : string) :
  MSAL._get_app config w = (Ok app, w0) ->
  MSAL.silent scopes w0 = (Ok None, w1) ->
  c = match app with
      | ConfidentialClientApplication => AcquireTokenForClient scopes
      | PublicClientApplication => AcquireTokenInteractive scopes
      end ->
  result = acquire_result (oracle w1) (calls w1) c ->
  has_access_token result = false ->
  description = default "" (default ∅ result !! "error_description") ->
  exists e,
    MSAL.get_token config scopes w = (Raise e, called c w1)
    /\ is_AuthenticationError e = true
    /\ is_MFARequiredError e
       = PyStr.has_infix "mfa" (str_lower (oracle w1) description)
         || PyStr.has_infix "multi" (str_lower (oracle w1) description)
    /\ (PyStr.is_ascii description = true ->
        is_MFARequiredError e
        = PyStr.has_infix "mfa" (PyStr.lower description)
          || PyStr.has_infix "multi" (PyStr.lower description)).
Proof.
  intros Happ Hsilent Hc Hresult Hno Hd.
  unfold MSAL.get_token, bind. rewrite Happ, Hsilent.
  assert (Hrun :
            match app with
            | ConfidentialClientApplication =>
                MSAL.acquire (AcquireTokenForClient scopes)
            | PublicClientApplication =>
                MSAL.acquire (AcquireTokenInteractive scopes)
            end w1 = (Ok result, called c w1)).
  { subst c result. destruct app; reflexivity. }
  rewrite Hrun, Hno. cbn [negb]. rewrite <- Hd.
  unfold py_lower. change (oracle (called c w1)) with (oracle w1).
  assert (Hascii :
            PyStr.is_ascii description = true ->
            str_lower (oracle w1) description = PyStr.lower description).
  { intros H. unfold str_lower. rewrite H. reflexivity. }
  destruct (PyStr.has_infix "mfa" (str_lower (oracle w1) description)
            || PyStr.has_infix "multi" (str_lower (oracle w1) description))
    eqn:Hmfa;
    eexists; (split; [reflexivity|]); (split; [reflexivity|]);
    (split; [reflexivity|]);
    intros H; rewrite <- (Hascii H); rewrite Hmfa; reflexivity.
Qed.

Lemma msal_acquisition_failure_witness :
  let refused : option (gmap string string) :=
    Some {[ "error" := "invalid_grant";
            "error_description" := "Multiple accounts match" ]} in
  let w :=
    MockAuth.world ∅
      (MockAuth.surroundings [] refused RunFileNotFound (HTTPError "unreachable")
         (Ok tt) (Ok tt) (Ok tt)) in
  exists e,
    fst (MSAL.get_token (MockAuth.config None) ["s/.default"] w) = Raise e
    /\ is_MFARequiredError e = true
    /\ calls (snd (MSAL.get_token (MockAuth.config None) ["s/.default"] w))
       = [GetAccounts; AcquireTokenInteractive ["s/.default"]].
Proof.
  intros refused w.
  pose (w0 := mkAuthWorld (oracle w) ∅ [] (Some PublicClientApplication)).
  pose (w1 := mkAuthWorld (oracle w) ∅ [GetAccounts]
                (Some PublicClientApplication)).
  destruct (msal_acquisition_failure (MockAuth.config None) ["s/.default"]
              w w0 w1 PublicClientApplication
              (AcquireTokenInteractive ["s/.default"]) refused
              "Multiple accounts match"
              eq_refl eq_refl eq_refl eq_refl eq_refl eq_refl)
    as [e [Hrun [_ [_ Hmfa]]]].
  exists e. rewrite Hrun. split; [reflexivity|].
  split; [rewrite (Hmfa eq_refl); vm_compute; reflexivity | reflexivity].
Defined.

Lemma save_cache_run (config : PIMConfig.t) (w : AuthWorld) :
  (forall h, mkdir_result (oracle w) h = Ok tt) ->
  (forall h, write_text_result (oracle w) h = Ok tt) ->
  (forall h, chmod_result (oracle w) h = Ok tt) ->
  MSAL._save_cache config w
  = (Ok tt,
     mkAuthWorld (oracle w) (environ w)
       (calls w
        ++ [MkdirParent (PIMConfig.cache_path config); Serialize;
            WriteText (PIMConfig.cache_path config)
              (serialize_result (oracle w)
                 (calls w ++ [MkdirParent (PIMConfig.cache_path config)]));
            Chmod (PIMConfig.cache_path config) 384])%list
       (msal_app w)).
Proof.
  intros Hmk Hwr Hch.
  unfold MSAL._save_cache, try_except, call_result, call_ok, call, bind, ret.
  rewrite Hmk. cbn [oracle calls environ msal_app].
  rewrite Hwr. cbn [oracle calls environ msal_app].
  rewrite Hch. cbn [oracle calls environ msal_app].
  rewrite <- !app_assoc. reflexivity.
Qed.

(** X25: when MSAL's cache gives no token and the acquisition that
    follows gives one, and the cache file can be written, the token is
    returned after the cache directory was made, the cache serialized,
    the file written with that state and its mode set to [0o600], in
    this order and once each. *)
Theorem msal_acquisition_success (config : PIMConfig.t) (scopes : list string)
    (w w0 w1 : AuthWorld) (app : AppKind) (c : AuthCall)
    (result : option (gmap string string)) (path : string) :
  MSAL._get_app config w = (Ok app, w0) ->
  MSAL.silent scopes w0 = (Ok None, w1) ->
  c = match app with
      | ConfidentialClientApplication => AcquireTokenForClient scopes
      | PublicClientApplication => AcquireTokenInteractive scopes
      end ->
  result = acquire_result (oracle w1) (calls w1) c ->
  has_access_token result = true ->
  (forall h, mkdir_result (oracle w1) h = Ok tt) ->
  (forall h, write_text_result (oracle w1) h = Ok tt) ->
  (forall h, chmod_result (oracle w1) h = Ok tt) ->
  path = PIMConfig.cache_path config ->
  fst (MSAL.get_token config scopes w) = Ok (access_token result)
  /\ calls (snd (MSAL.get_token config scopes w))
     = (calls w1
        ++ [c; MkdirParent path; Serialize;
            WriteText path
              (serialize_result (oracle w1)
                 (calls w1 ++ [c; MkdirParent path]));
            Chmod path 384])%list.
Proof.
  intros Happ Hsilent Hc Hresult Hyes Hmk Hwr Hch Hpath.
  unfold MSAL.get_token, bind. rewrite Happ, Hsilent.
  assert (Hrun :
            match app with
            | ConfidentialClientApplication =>
                MSAL.acquire (AcquireTokenForClient scopes)
            | PublicClientApplication =>
                MSAL.acquire (AcquireTokenInteractive scopes)
            end w1 = (Ok result, called c w1)).
  { subst c result. destruct app; reflexivity. }
  rewrite Hrun, Hyes. cbn [negb].
  rewrite (save_cache_run config (called c w1) Hmk Hwr Hch).
  subst path. unfold called, ret. cbn [fst snd calls oracle].
  rewrite <- !app_assoc. split; reflexivity.
Qed.

Lemma msal_acquisition_success_witness :
  let w := MockAuth.desktop (Ok tt) (Ok tt) (Ok tt) in
  let run := MSAL.get_token (MockAuth.config None) ["s/.default"] w in
  fst run = Ok "tok"
  /\ calls (snd run)
     = [GetAccounts; AcquireTokenInteractive ["s/.default"];
        MkdirParent "/home/u/.azure-pim/token_cache"; Serialize;
        WriteText "/home/u/.azure-pim/token_cache" "{}";
        Chmod "/home/u/.azure-pim/token_cache" 384].
Proof.
  intros w run.
  pose (w0 := mkAuthWorld (oracle w) ∅ [] (Some PublicClientApplication)).
  pose (w1 := mkAuthWorld (oracle w) ∅ [GetAccounts]
                (Some PublicClientApplication)).
  destruct (msal_acquisition_success (MockAuth.config None) ["s/.default"]
              w w0 w1 PublicClientApplication
              (AcquireTokenInteractive ["s/.default"]) MockAuth.token_result
              "/home/u/.azure-pim/token_cache"
              eq_refl eq_refl eq_refl eq_refl eq_refl
              (fun _ => eq_refl) (fun _ => eq_refl) (fun _ => eq_refl) eq_refl)
    as [Hfst Hcalls].
  split; [exact Hfst | exact Hcalls].
Defined.

(** X26: [MSI_ENDPOINT] selects the managed-identity provider and is
    not read again: with no [IDENTITY_ENDPOINT] the token is asked of
    the metadata address [169.254.169.254], with [api-version], the
    resource, the [Metadata] header, and [X-IDENTITY-HEADER] exactly
    when [IDENTITY_HEADER] is set. *)
Theorem msi_endpoint_unused (config : PIMConfig.t) (scopes : list string)
    (w : AuthWorld) (msi : string) :
  environ w !! "IDENTITY_ENDPOINT" = None ->
  environ w !! "MSI_ENDPOINT" = Some msi -> truthy_str msi = true ->
  _auto_select_provider config w
  = (Ok (ManagedIdentityTokenProvider (PIMConfig.client_id config)), w)
  /\ exists params headers,
      snd (provider_get_token
             (ManagedIdentityTokenProvider (PIMConfig.client_id config))
             scopes w)
      = called (HttpGet "http://169.254.169.254/metadata/identity/oauth2/token"
                  params headers) w
      /\ params !! "api-version" = Some "2019-08-01"
      /\ params !! "resource" = Some (resource_of scopes)
      /\ headers !! "Metadata" = Some "true"
      /\ headers !! "X-IDENTITY-HEADER" = environ w !! "IDENTITY_HEADER".
Proof.
  intros Hid Hmsi Ht. split.
  - unfold _auto_select_provider, environ_get, bind.
    rewrite Hid, Hmsi. cbn [truthy orb]. rewrite Ht. reflexivity.
  - unfold provider_get_token, ManagedIdentity.get_token, environ_get, call_ok,
      call, called, lift, bind, ret, raise.
    rewrite Hid. cbn [default].
    eexists _, _. split.
    { destruct (http_get_result (oracle w) (calls w) _) as [response|msg];
        [|reflexivity].
      destruct (ManagedIdentity.is_success response); simpl; [|reflexivity].
      destruct (response_json response) as [[]|]; simpl; try reflexivity.
      destruct (Json.lookup "access_token" d); reflexivity. }
    split.
    { destruct (truthy (PIMConfig.client_id config));
        rewrite !lookup_insert_ne by discriminate;
        rewrite lookup_singleton_eq;
        destruct (PyStr.has_infix _ _); reflexivity. }
    split.
    { destruct (truthy (PIMConfig.client_id config));
        rewrite ?lookup_insert_ne by discriminate;
        apply lookup_insert_eq. }
    destruct (environ w !! "IDENTITY_HEADER") as [h|].
    + split; [|apply lookup_insert_eq].
      rewrite lookup_insert_ne by discriminate. apply lookup_singleton_eq.
    + split; [apply lookup_singleton_eq|].
      apply lookup_singleton_ne. discriminate.
Qed.

Lemma msi_endpoint_unused_witness :
  let w :=
    MockAuth.world {[ "MSI_ENDPOINT" := "http://localhost:50342/oauth2/token" ]}
      (MockAuth.surroundings [] None RunFileNotFound MockAuth.imds_token
         (Ok tt) (Ok tt) (Ok tt)) in
  exists params headers,
    calls (snd (provider_get_token (ManagedIdentityTokenProvider None)
                  ["https://management.azure.com/.default"] w))
    = [HttpGet "http://169.254.169.254/metadata/identity/oauth2/token"
         params headers].
Proof.
  intros w.
  destruct (msi_endpoint_unused (MockAuth.config None)
              ["https://management.azure.com/.default"] w
              "http://localhost:50342/oauth2/token" eq_refl eq_refl eq_refl)
    as [_ [params [headers [Hsnd _]]]].
  exists params, headers.
  change (PIMConfig.client_id (MockAuth.config None)) with (@None string)
    in Hsnd.
  rewrite Hsnd. reflexivity.
Defined.

Lemma managed_identity_run (client_id : option string) (scopes : list string)
    (w : AuthWorld) :
  fst (ManagedIdentity.get_token client_id scopes w)
  = match http_get_result (oracle w) (calls w)
            (default "http://169.254.169.254/metadata/identity/oauth2/token"
                     (environ w !! "IDENTITY_ENDPOINT")) with
    | HTTPError e =>
        Raise (AuthenticationError
                 ("Managed identity authentication failed: " +:+ e))
    | Responds response =>
        if negb (ManagedIdentity.is_success response) then
          Raise (AuthenticationError
                   ("Managed identity authentication failed: "
                      +:+ pretty (status_code response)))
        else
          match response_json response with
          | Ok (JObj d) =>
              match Json.lookup "access_token" d with
              | Some v => Ok (Json.str v)
              | None => Raise (PyException KeyError "access_token")
              end
          | Ok _ => Raise (PyException TypeError "access_token")
          | Raise e => Raise e
          end
    end.
Proof.
  unfold ManagedIdentity.get_token, environ_get, call_ok, call, called, lift,
    bind, ret, raise.
  destruct (http_get_result (oracle w) (calls w) _) as [response|msg];
    [|reflexivity].
  destruct (ManagedIdentity.is_success response); simpl; [|reflexivity].
  destruct (response_json response) as [[]|]; simpl; try reflexivity.
  destruct (Json.lookup "access_token" d); reflexivity.
Qed.

(** X27: the managed-identity provider raises [AuthenticationError]
    when the endpoint cannot be reached or answers outside 2xx.  A 2xx
    answer that is not JSON, or is JSON without [access_token], raises
    [JSONDecodeError] or [KeyError], which are no
    [AuthenticationError]. *)
Theorem managed_identity_failures (client_id : option string)
    (scopes : list string) (w : AuthWorld) (answer : Transport) :
  answer
  = http_get_result (oracle w) (calls w)
      (default "http://169.254.169.254/metadata/identity/oauth2/token"
               (environ w !! "IDENTITY_ENDPOINT")) ->
  (forall msg,
      answer = HTTPError msg ->
      fst (ManagedIdentity.get_token client_id scopes w)
      = Raise (AuthenticationError
                 ("Managed identity authentication failed: " +:+ msg)))
  /\ (forall r,
      answer = Responds r -> ManagedIdentity.is_success r = false ->
      exists e,
        fst (ManagedIdentity.get_token client_id scopes w) = Raise e
        /\ is_AuthenticationError e = true)
  /\ (forall r,
      answer = Responds r -> ManagedIdentity.is_success r = true ->
      content r = None ->
      fst (ManagedIdentity.get_token client_id scopes w)
      = Raise (PyException JSONDecodeError "Expecting value"))
  /\ (forall r d,
      answer = Responds r -> ManagedIdentity.is_success r = true ->
      content r = Some (JObj d) -> Json.lookup "access_token" d = None ->
      fst (ManagedIdentity.get_token client_id scopes w)
      = Raise (PyException KeyError "access_token")).
Proof.
  intros Ha. rewrite managed_identity_run, <- Ha.
  split; [|split; [|split]].
  - intros msg ->. reflexivity.
  - intros r -> Hs. rewrite Hs. eexists. split; reflexivity.
  - intros r -> Hs Hc. rewrite Hs. unfold response_json. rewrite Hc.
    reflexivity.
  - intros r d -> Hs Hc Hl. rewrite Hs. unfold response_json. rewrite Hc.
    cbn [negb]. rewrite Hl. reflexivity.
Qed.

Lemma managed_identity_failures_witness :
  let w :=
    MockAuth.world ∅
      (MockAuth.surroundings [] None RunFileNotFound
         (Responds (mkResponse 200 [] (Some (JObj [("token", JStr "tok")])) ""))
         (Ok tt) (Ok tt) (Ok tt)) in
  fst (ManagedIdentity.get_token None ["https://graph.microsoft.com/.default"] w)
  = Raise (PyException KeyError "access_token").
Proof.
  intros w.
  pose (r := mkResponse 200 [] (Some (JObj [("token", JStr "tok")])) "").
  destruct (managed_identity_failures None
              ["https://graph.microsoft.com/.default"] w (Responds r) eq_refl)
    as [_ [_ [_ Hkey]]].
  exact (Hkey r [("token", JStr "tok")] eq_refl eq_refl eq_refl eq_refl).
Defined.

(** X28: the device-code provider starts the flow, shows its message
    through the callback once, then polls for the token once, in this
    order.  A flow without a user code is not shown and not polled
    for: the provider raises [AuthenticationError] after the one call.
    A callback that raises ends [get_token] with what it raised,
    before any polling; so does a poll that raises.  A poll that
    returns gives its [access_token], or an [AuthenticationError] when
    it has none. *)
Theorem device_code_calls (config : PIMConfig.t) (scopes : list string)
    (w : AuthWorld) (flow : gmap string string) (message : string) :
  device_flow_result (oracle w) (calls w) = Ok flow ->
  (flow !! "user_code" = None ->
   DeviceCode.get_token config scopes w
   = (Raise (AuthenticationError
               ("Failed to create device flow: "
                  +:+ default "None" (flow !! "error"))),
      called (InitiateDeviceFlow scopes) w))
  /\ (is_Some (flow !! "user_code") -> flow !! "message" = Some message ->
      let shown := called (InitiateDeviceFlow scopes) w in
      let polled := called (Callback message) shown in
      (forall e,
          callback_result (oracle w) (calls shown) = Raise e ->
          DeviceCode.get_token config scopes w = (Raise e, polled))
      /\ (forall e,
          callback_result (oracle w) (calls shown) = Ok tt ->
          device_token_result (oracle w) (calls polled) = Raise e ->
          DeviceCode.get_token config scopes w
          = (Raise e, called AcquireTokenByDeviceFlow polled))
      /\ (forall result,
          callback_result (oracle w) (calls shown) = Ok tt ->
          device_token_result (oracle w) (calls polled) = Ok result ->
          DeviceCode.get_token config scopes w
          = (match result !! "access_token" with
             | Some token => Ok token
             | None =>
                 Raise (AuthenticationError
                          ("Device flow failed: "
                             +:+ default "None" (result !! "error")))
             end,
             called AcquireTokenByDeviceFlow polled))).
Proof.
  intros Hf. split.
  - intros Hno.
    unfold DeviceCode.get_token, call_result, call, called, bind, raise.
    rewrite Hf, Hno. reflexivity.
  - intros Hcode Hmsg shown polled.
    assert (Hstart :
              DeviceCode.get_token config scopes w
              = bind (call_result (Callback message) callback_result)
                  (fun _ =>
                     bind (call_result AcquireTokenByDeviceFlow
                             device_token_result)
                       (fun result =>
                          match result !! "access_token" with
                          | None =>
                              raise (AuthenticationError
                                       ("Device flow failed: "
                                          +:+ default "None" (result !! "error")))
                          | Some token => ret token
                          end)) shown).
    { unfold DeviceCode.get_token. unfold bind at 1.
      unfold call_result at 1, call at 1. rewrite Hf.
      rewrite bool_decide_eq_true_2 by exact Hcode. cbn [negb].
      rewrite Hmsg. reflexivity. }
    rewrite Hstart. unfold bind, call_result, call.
    change (oracle shown) with (oracle w).
    split; [|split].
    + intros e Hcb. rewrite Hcb. reflexivity.
    + intros e Hcb Hpoll. rewrite Hcb.
      cbn [oracle calls environ msal_app].
      change (calls shown ++ [Callback message])%list with (calls polled).
      rewrite Hpoll. reflexivity.
    + intros result Hcb Hpoll. rewrite Hcb.
      cbn [oracle calls environ msal_app].
      change (calls shown ++ [Callback message])%list with (calls polled).
      rewrite Hpoll.
      destruct (result !! "access_token"); reflexivity.
Qed.

Lemma device_code_calls_witness :
  let token : gmap string string := {[ "access_token" := "tok" ]} in
  let run :=
    DeviceCode.get_token (MockAuth.config None) ["s/.default"]
      (MockAuth.device_host (Ok tt) (Ok token)) in
  let stopped :=
    DeviceCode.get_token (MockAuth.config None) ["s/.default"]
      (MockAuth.device_host (Raise (PyException OSError "Broken pipe"))
         (Ok token)) in
  (fst run = Ok "tok"
   /\ calls (snd run)
      = [InitiateDeviceFlow ["s/.default"];
         Callback "Enter the code ABCD-EFGH"; AcquireTokenByDeviceFlow])
  /\ (fst stopped = Raise (PyException OSError "Broken pipe")
      /\ calls (snd stopped)
         = [InitiateDeviceFlow ["s/.default"];
            Callback "Enter the code ABCD-EFGH"]).
Proof.
  intros token run stopped.
  destruct (device_code_calls (MockAuth.config None) ["s/.default"]
              (MockAuth.device_host (Ok tt) (Ok token))
              {[ "user_code" := "ABCD-EFGH";
                 "message" := "Enter the code ABCD-EFGH" ]}
              "Enter the code ABCD-EFGH" eq_refl) as [_ Hshown].
  destruct Hshown as [_ [_ Hok]];
    [eexists; vm_compute; reflexivity | vm_compute; reflexivity |].
  destruct (device_code_calls (MockAuth.config None) ["s/.default"]
              (MockAuth.device_host (Raise (PyException OSError "Broken pipe"))
                 (Ok token))
              {[ "user_code" := "ABCD-EFGH";
                 "message" := "Enter the code ABCD-EFGH" ]}
              "Enter the code ABCD-EFGH" eq_refl) as [_ Hstopped].
  destruct Hstopped as [Hraise _];
    [eexists; vm_compute; reflexivity | vm_compute; reflexivity |].
  unfold run, stopped.
  rewrite (Hok token eq_refl eq_refl).
  rewrite (Hraise (PyException OSError "Broken pipe") eq_refl).
  split; split; vm_compute; reflexivity.
Defined.

(** X29: [from_env] raises [ValueError] exactly when [ARM_TENANT_ID]
    is missing or empty.  Otherwise the configuration has that tenant,
    the authority [https://login.microsoftonline.com/{tenant}] and the
    duration of [PIM_DEFAULT_DURATION] or [PT1H]; and a fresh MSAL
    provider built on it, when MSAL knows no account, asks for a token
    with [acquire_token_for_client] when [AZURE_CLIENT_SECRET] is set
    and not empty, and with [acquire_token_interactive] otherwise. *)
Theorem from_env_config (env : gmap string string) (home : string) :
  (truthy (env !! "ARM_TENANT_ID") = false ->
   PIMConfig.from_env env home
   = Raise (PyException ValueError
              "ARM_TENANT_ID environment variable is required"))
  /\ (forall tenant,
      env !! "ARM_TENANT_ID" = Some tenant -> truthy_str tenant = true ->
      exists config,
        PIMConfig.from_env env home = Ok config
        /\ PIMConfig.tenant_id config = tenant
        /\ PIMConfig.authority config
           = "https://login.microsoftonline.com/" +:+ tenant
        /\ PIMConfig.default_duration config
           = default "PT1H" (env !! "PIM_DEFAULT_DURATION")
        /\ (forall scopes w,
            msal_app w = None ->
            get_accounts_result (oracle w) (calls w) = [] ->
            exists rest,
              calls (snd (MSAL.get_token config scopes w))
              = (calls w
                 ++ GetAccounts
                    :: (if truthy (env !! "AZURE_CLIENT_SECRET")
                        then AcquireTokenForClient scopes
                        else AcquireTokenInteractive scopes) :: rest)%list)).
Proof.
  split.
  - intros H. unfold PIMConfig.from_env.
    destruct (env !! "ARM_TENANT_ID") as [[|c t]|]; try reflexivity.
    discriminate H.
  - intros tenant Hl Ht. unfold PIMConfig.from_env. rewrite Hl.
    destruct tenant as [|c t]; [discriminate Ht|].
    eexists. split; [reflexivity|]. split; [reflexivity|].
    split; [reflexivity|]. split; [reflexivity|].
    intros scopes w Happ Hacc.
    exact (msal_fresh_call _ scopes w Happ Hacc).
Qed.

Lemma from_env_config_witness :
  let env : gmap string string :=
    {[ "ARM_TENANT_ID" := "t-1"; "AZURE_CLIENT_SECRET" := "" ]} in
  exists config rest,
    PIMConfig.from_env env "/home/u" = Ok config
    /\ PIMConfig.authority config = "https://login.microsoftonline.com/t-1"
    /\ calls (snd (MSAL.get_token config ["s/.default"]
                     (MockAuth.desktop (Ok tt) (Ok tt) (Ok tt))))
       = GetAccounts :: AcquireTokenInteractive ["s/.default"] :: rest.
Proof.
  intros env.
  destruct (proj2 (from_env_config env "/home/u") "t-1" eq_refl eq_refl)
    as [config [Hrun [_ [Hauth [_ Hasks]]]]].
  destruct (Hasks ["s/.default"] (MockAuth.desktop (Ok tt) (Ok tt) (Ok tt))
              eq_refl eq_refl) as [rest Hrest].
  exists config, rest. split; [exact Hrun|]. split; [exact Hauth|].
  exact Hrest.
Defined.

End ProvidersMore.
